(** * slicemaster: the slice, client and statistics engine

    A shallow embedding of [slicemaster/Slice.py], [slicemaster/Client.py]
    and [slicemaster/Stats.py], and the properties of the simulation
    engine checked against it.

    Conventions of the embedding.
    - Python numbers (ints and floats alike) that take part in bandwidth
      and latency arithmetic are exact rationals [Q]; counters that the
      code only ever moves by one are [Z].
    - A Python exception is a value [Raise e]; a call that can raise
      returns in [Res], and a method that also mutates objects runs in
      the state, output and exception monad [M].
    - Objects that are shared by reference (clients, base stations and
      their slices) live in a [World] and are named by their position in
      its lists.
    - [print] writes to the log stream only; the lines a call prints are
      returned as a list of [event]s next to the state. *)

From Stdlib Require Import QArith Qabs ZArith Lia Lqa List Bool String.
From stdpp Require Import base list.
Import ListNotations.

Open Scope Q_scope.

(** ** Python values *)

Module Py.

Inductive exn : Type :=
| ZeroDivisionError
| IndexError
| AttributeError
| ValueError
| DanglingReference.
(* [DanglingReference]: a handle that names no object of the world; no
   Python run raises it, handles of live objects always resolve. *)

Inductive Res (A : Type) : Type :=
| Ok (a : A)
| Raise (e : exn).
Arguments Ok {A} a.
Arguments Raise {A} e.

Definition res_bind {A B} (r : Res A) (k : A -> Res B) : Res B :=
  match r with
  | Ok a => k a
  | Raise e => Raise e
  end.

(** [a < b] and [a <= b] as Python evaluates them. *)
Definition lt_b (a b : Q) : bool := negb (Qle_bool b a).
Definition le_b (a b : Q) : bool := Qle_bool a b.

(** [min(a, b)] and [max(a, b)]: the first argument wins a tie. *)
Definition min (a b : Q) : Q := if lt_b b a then b else a.
Definition max (a b : Q) : Q := if lt_b a b then b else a.

(** [a / b], which raises on a zero divisor. *)
Definition div (a b : Q) : Res Q :=
  if Qeq_bool b 0 then Raise ZeroDivisionError else Ok (a / b).

(** [sum(l)] *)
Definition sum (l : list Q) : Q := fold_left Qplus l 0.

(** [len(l)] as a number. *)
Definition len {A} (l : list A) : Q := inject_Z (Z.of_nat (length l)).

(** [l[-n:]] *)
Definition last_n {A} (n : nat) (l : list A) : list A :=
  skipn (length l - n) l.

(** [int(x)]: truncation towards zero. *)
Definition int (x : Q) : Z := Z.quot (Qnum x) (Zpos (Qden x)).

(** The position that [l[i]] names: a negative index counts from the
    end, anything outside the list raises. *)
Definition index {A} (l : list A) (i : Z) : Res nat :=
  let n := Z.of_nat (length l) in
  if ((0 <=? i) && (i <? n))%Z then Ok (Z.to_nat i)
  else if ((- n <=? i) && (i <? 0))%Z then Ok (Z.to_nat (n + i))
  else Raise IndexError.

(** [l[-1] += 1] *)
Definition incr_last (l : list Q) : Res (list Q) :=
  match last l with
  | None => Raise IndexError
  | Some a => Ok (<[pred (length l) := a + 1]> l)
  end.

(** [sorted(l, key=key)] and [l.sort(key=key)]: stable, ascending. *)
Fixpoint insert_by {A} (key : A -> Q) (a : A) (l : list A) : list A :=
  match l with
  | [] => [a]
  | b :: l' => if lt_b (key a) (key b) then a :: l else b :: insert_by key a l'
  end.

Definition sort_by {A} (key : A -> Q) (l : list A) : list A :=
  fold_left (fun acc a => insert_by key a acc) l [].

(** [sorted(l, key=key, reverse=True)]: descending, and elements with
    equal keys keep their order. *)
Fixpoint insert_by_desc {A} (key : A -> Q) (a : A) (l : list A) : list A :=
  match l with
  | [] => [a]
  | b :: l' =>
      if lt_b (key b) (key a) then a :: l else b :: insert_by_desc key a l'
  end.

Definition sort_by_desc {A} (key : A -> Q) (l : list A) : list A :=
  fold_left (fun acc a => insert_by_desc key a acc) l [].

End Py.
Import Py.

Notation "'let!' x ':=' e 'in' k" := (res_bind e (fun x => k))
  (at level 10, x name, e at level 200, k at level 200).

(** ** simpy.Container

    The bandwidth container of a slice is a [simpy.Container], a class of
    the simpy library and not of this repository.  The model keeps what
    the engine observes of it: the capacity, the level, and the requests
    that could not be served at once and wait in FIFO order.  A request
    is served inside the call that issues it when it fits; the requests
    left waiting are woken by the event loop, outside the calls modelled
    here. *)

Module Container.

Record t : Type := mk {
  capacity : Q;
  level : Q;
  get_queue : list Q;
  put_queue : list Q
}.

Fixpoint trigger_get (lvl : Q) (queue : list Q) : Q * list Q :=
  match queue with
  | [] => (lvl, [])
  | a :: q => if le_b a lvl then trigger_get (lvl - a) q else (lvl, a :: q)
  end.

Fixpoint trigger_put (cap lvl : Q) (queue : list Q) : Q * list Q :=
  match queue with
  | [] => (lvl, [])
  | a :: q =>
      if le_b a (cap - lvl) then trigger_put cap (lvl + a) q
      else (lvl, a :: q)
  end.

(** [container.get(amount)] *)
Definition get (c : t) (amount : Q) : Res t :=
  if le_b amount 0 then Raise ValueError
  else
    let '(lvl, q) := trigger_get (level c) (get_queue c ++ [amount]) in
    Ok (mk (capacity c) lvl q (put_queue c)).

(** [container.put(amount)] *)
Definition put (c : t) (amount : Q) : Res t :=
  if le_b amount 0 then Raise ValueError
  else
    let '(lvl, q) :=
      trigger_put (capacity c) (level c) (put_queue c ++ [amount]) in
    Ok (mk (capacity c) lvl (get_queue c) q).

End Container.

(** ** Slice.py: the data *)

Module Slice.

(** The attributes set by [Slice.__init__] and by [__main__], which puts
    the container in [capacity].  [usage_pattern] is a [Distributor], a
    source of random request sizes; no operation below reads it and it
    is left out.  [active_clients] holds client handles. *)
Record t : Type := mk {
  name : string;
  ratio : Q;
  connected_users : Z;
  user_share : Q;
  delay_tolerance : Q;
  qos_class : Z;
  bandwidth_guaranteed : Q;
  bandwidth_max : Q;
  init_capacity : Q;
  capacity : Container.t;
  reserved_capacity : Q;
  active_clients : list nat;
  latency_history : list Q;
  avg_latency : Q;
  sla_violations : Z
}.

Definition set_connected_users (r : t) (v : Z) : t :=
  mk (name r) (ratio r) v (user_share r) (delay_tolerance r) (qos_class r)
    (bandwidth_guaranteed r) (bandwidth_max r) (init_capacity r) (capacity
    r) (reserved_capacity r) (active_clients r) (latency_history r)
    (avg_latency r) (sla_violations r).

Definition set_capacity (r : t) (v : Container.t) : t :=
  mk (name r) (ratio r) (connected_users r) (user_share r) (delay_tolerance
    r) (qos_class r) (bandwidth_guaranteed r) (bandwidth_max r)
    (init_capacity r) v (reserved_capacity r) (active_clients r)
    (latency_history r) (avg_latency r) (sla_violations r).

Definition set_reserved_capacity (r : t) (v : Q) : t :=
  mk (name r) (ratio r) (connected_users r) (user_share r) (delay_tolerance
    r) (qos_class r) (bandwidth_guaranteed r) (bandwidth_max r)
    (init_capacity r) (capacity r) v (active_clients r) (latency_history
    r) (avg_latency r) (sla_violations r).

Definition set_active_clients (r : t) (v : list nat) : t :=
  mk (name r) (ratio r) (connected_users r) (user_share r) (delay_tolerance
    r) (qos_class r) (bandwidth_guaranteed r) (bandwidth_max r)
    (init_capacity r) (capacity r) (reserved_capacity r) v
    (latency_history r) (avg_latency r) (sla_violations r).

Definition set_latency_history (r : t) (v : list Q) : t :=
  mk (name r) (ratio r) (connected_users r) (user_share r) (delay_tolerance
    r) (qos_class r) (bandwidth_guaranteed r) (bandwidth_max r)
    (init_capacity r) (capacity r) (reserved_capacity r) (active_clients
    r) v (avg_latency r) (sla_violations r).

Definition set_avg_latency (r : t) (v : Q) : t :=
  mk (name r) (ratio r) (connected_users r) (user_share r) (delay_tolerance
    r) (qos_class r) (bandwidth_guaranteed r) (bandwidth_max r)
    (init_capacity r) (capacity r) (reserved_capacity r) (active_clients
    r) (latency_history r) v (sla_violations r).

Definition set_sla_violations (r : t) (v : Z) : t :=
  mk (name r) (ratio r) (connected_users r) (user_share r) (delay_tolerance
    r) (qos_class r) (bandwidth_guaranteed r) (bandwidth_max r)
    (init_capacity r) (capacity r) (reserved_capacity r) (active_clients
    r) (latency_history r) (avg_latency r) v.

End Slice.

(** ** Slice.py: the methods that touch the slice alone *)

(** [Slice.get_consumable_share] *)
Definition get_consumable_share (s : Slice.t) : Res Q :=
  if (Slice.connected_users s <=? 0)%Z then
    Ok (Py.min (Slice.init_capacity s) (Slice.bandwidth_max s))
  else if (Slice.qos_class s <=? 2)%Z then
    let priority_factor := 12 # 10 in
    let! q := Py.div (Slice.init_capacity s)
                     (inject_Z (Slice.connected_users s)) in
    let basic_share := Py.min q (Slice.bandwidth_max s) in
    Ok (Py.min (basic_share * priority_factor) (Slice.bandwidth_max s))
  else
    let! q := Py.div (Slice.init_capacity s)
                     (inject_Z (Slice.connected_users s)) in
    Ok (Py.min q (Slice.bandwidth_max s)).

(** [Slice.is_avaliable] *)
Definition is_avaliable (s : Slice.t) : Res bool :=
  let real_cap := Py.min (Slice.init_capacity s) (Slice.bandwidth_max s) in
  let available_cap := real_cap - Slice.reserved_capacity s in
  let! bandwidth_next :=
    Py.div available_cap (inject_Z (Slice.connected_users s + 1)) in
  if lt_b bandwidth_next (Slice.bandwidth_guaranteed s) then Ok false
  else if (Slice.qos_class s <=? 2)%Z
          && lt_b ((7 # 10) * Slice.delay_tolerance s) (Slice.avg_latency s)
  then
    let! threshold :=
      Py.div real_cap (Slice.bandwidth_guaranteed s * (15 # 10)) in
    if le_b threshold (inject_Z (Slice.connected_users s)) then Ok false
    else Ok true
  else Ok true.

(** The locals [real_cap] and [available_cap] of [is_avaliable], and its
    latency test, named for the statements about it. *)
Definition real_cap (s : Slice.t) : Q :=
  Py.min (Slice.init_capacity s) (Slice.bandwidth_max s).

Definition available_cap (s : Slice.t) : Q :=
  real_cap s - Slice.reserved_capacity s.

Definition latency_pressure (s : Slice.t) : Prop :=
  (Slice.qos_class s <= 2)%Z
  /\ (7 # 10) * Slice.delay_tolerance s < Slice.avg_latency s.

(** [Slice._adapt_reserved_capacity] *)
Definition _adapt_reserved_capacity (s : Slice.t) : Res Slice.t :=
  if (length (Slice.latency_history s) <? 5)%nat then Ok s
  else
    let recent := last_n 5 (Slice.latency_history s) in
    let! recent_avg := Py.div (Py.sum recent) (Py.len recent) in
    if lt_b (Slice.avg_latency s) recent_avg
       && lt_b ((8 # 10) * Slice.delay_tolerance s) recent_avg
    then
      let new_reserve :=
        Py.min (Slice.init_capacity s * (1 # 10))
               (Slice.reserved_capacity s
                + Slice.init_capacity s * (2 # 100)) in
      Ok (Slice.set_reserved_capacity s new_reserve)
    else if lt_b recent_avg (Slice.avg_latency s)
            && lt_b recent_avg ((5 # 10) * Slice.delay_tolerance s)
    then
      Ok (Slice.set_reserved_capacity s
            (Py.max 0 (Slice.reserved_capacity s
                       - Slice.init_capacity s * (1 # 100))))
    else Ok s.

(** [Slice.update_latency_stats] *)
Definition update_latency_stats (s : Slice.t) (new_latency : Q)
  : Res Slice.t :=
  let s :=
    Slice.set_latency_history s (Slice.latency_history s ++ [new_latency]) in
  let s :=
    if (100 <? length (Slice.latency_history s))%nat
    then Slice.set_latency_history s (tl (Slice.latency_history s))
    else s in
  let! s :=
    match Slice.latency_history s with
    | [] => Ok s
    | _ :: _ =>
        let! a := Py.div (Py.sum (Slice.latency_history s))
                         (Py.len (Slice.latency_history s)) in
        Ok (Slice.set_avg_latency s a)
    end in
  let s :=
    if lt_b (Slice.delay_tolerance s) new_latency
    then Slice.set_sla_violations s (Slice.sla_violations s + 1)
    else s in
  _adapt_reserved_capacity s.

(** A run of measurements fed to one slice, as the engine would over a
    simulation. *)
Fixpoint update_latency_stats_all (s : Slice.t) (ls : list Q) : Res Slice.t :=
  match ls with
  | [] => Ok s
  | l :: ls' =>
      let! s' := update_latency_stats s l in
      update_latency_stats_all s' ls'
  end.

(** ** Coverage.py and BaseStation.py *)

Module Coverage.

(** Modelled from the spec: [Coverage.py] is not among the sources; the
    coverage of a base station is a disk given by its centre and its
    radius. *)
Record t : Type := mk {
  center : Q * Q;
  radius : Q
}.

End Coverage.

Module BaseStation.

(** Modelled from the spec: [BaseStation.py] is not among the sources;
    [__main__] builds a base station from its [pk], its coverage, its
    bandwidth and its slices, and the engine reads these back. *)
Record t : Type := mk {
  pk : nat;
  coverage : Coverage.t;
  capacity_bandwidth : Q;
  slices : list Slice.t
}.

Definition set_slices (r : t) (v : list Slice.t) : t :=
  mk (pk r) (coverage r) (capacity_bandwidth r) v.

End BaseStation.

(** ** Client.py: the data *)

Module Client.

(** The attributes set by [Client.__init__].  [base_station] and the
    entries of [closest_base_stations] are base station handles.
    [min_latency] starts at [float('inf')], which is [None] here.
    [allocated_bandwidth] is the attribute that
    [Slice.dynamic_resource_allocation] looks for with [hasattr]: [None]
    when the client has no such attribute, as after [__init__].
    [env], [stat_collector], [mobility_pattern] and [action] are
    references into the world and into the scheduler. *)
Record t : Type := mk {
  pk : nat;
  x : Q;
  y : Q;
  usage_freq : Q;
  base_station : option nat;
  subscribed_slice_index : nat;
  usage_remaining : Q;
  last_usage : Q;
  closest_base_stations : list (Q * nat);
  connected : bool;
  total_connected_time : Q;
  total_unconnected_time : Q;
  total_request_count : Z;
  total_consume_time : Z;
  total_usage : Q;
  request_start_time : Q;
  latencies : list Q;
  avg_latency : Q;
  last_latency : Q;
  max_latency : Q;
  min_latency : option Q;
  handover_count : Z;
  handover_latencies : list Q;
  allocated_bandwidth : option Q
}.

Definition set_base_station (r : t) (v : option nat) : t :=
  mk (pk r) (x r) (y r) (usage_freq r) v (subscribed_slice_index r)
    (usage_remaining r) (last_usage r) (closest_base_stations r)
    (connected r) (total_connected_time r) (total_unconnected_time r)
    (total_request_count r) (total_consume_time r) (total_usage r)
    (request_start_time r) (latencies r) (avg_latency r) (last_latency r)
    (max_latency r) (min_latency r) (handover_count r) (handover_latencies
    r) (allocated_bandwidth r).

Definition set_usage_remaining (r : t) (v : Q) : t :=
  mk (pk r) (x r) (y r) (usage_freq r) (base_station r)
    (subscribed_slice_index r) v (last_usage r) (closest_base_stations r)
    (connected r) (total_connected_time r) (total_unconnected_time r)
    (total_request_count r) (total_consume_time r) (total_usage r)
    (request_start_time r) (latencies r) (avg_latency r) (last_latency r)
    (max_latency r) (min_latency r) (handover_count r) (handover_latencies
    r) (allocated_bandwidth r).

Definition set_last_usage (r : t) (v : Q) : t :=
  mk (pk r) (x r) (y r) (usage_freq r) (base_station r)
    (subscribed_slice_index r) (usage_remaining r) v
    (closest_base_stations r) (connected r) (total_connected_time r)
    (total_unconnected_time r) (total_request_count r) (total_consume_time
    r) (total_usage r) (request_start_time r) (latencies r) (avg_latency
    r) (last_latency r) (max_latency r) (min_latency r) (handover_count r)
    (handover_latencies r) (allocated_bandwidth r).

Definition set_closest_base_stations (r : t) (v : list (Q * nat)) : t :=
  mk (pk r) (x r) (y r) (usage_freq r) (base_station r)
    (subscribed_slice_index r) (usage_remaining r) (last_usage r) v
    (connected r) (total_connected_time r) (total_unconnected_time r)
    (total_request_count r) (total_consume_time r) (total_usage r)
    (request_start_time r) (latencies r) (avg_latency r) (last_latency r)
    (max_latency r) (min_latency r) (handover_count r) (handover_latencies
    r) (allocated_bandwidth r).

Definition set_connected (r : t) (v : bool) : t :=
  mk (pk r) (x r) (y r) (usage_freq r) (base_station r)
    (subscribed_slice_index r) (usage_remaining r) (last_usage r)
    (closest_base_stations r) v (total_connected_time r)
    (total_unconnected_time r) (total_request_count r) (total_consume_time
    r) (total_usage r) (request_start_time r) (latencies r) (avg_latency
    r) (last_latency r) (max_latency r) (min_latency r) (handover_count r)
    (handover_latencies r) (allocated_bandwidth r).

Definition set_total_consume_time (r : t) (v : Z) : t :=
  mk (pk r) (x r) (y r) (usage_freq r) (base_station r)
    (subscribed_slice_index r) (usage_remaining r) (last_usage r)
    (closest_base_stations r) (connected r) (total_connected_time r)
    (total_unconnected_time r) (total_request_count r) v (total_usage r)
    (request_start_time r) (latencies r) (avg_latency r) (last_latency r)
    (max_latency r) (min_latency r) (handover_count r) (handover_latencies
    r) (allocated_bandwidth r).

Definition set_total_usage (r : t) (v : Q) : t :=
  mk (pk r) (x r) (y r) (usage_freq r) (base_station r)
    (subscribed_slice_index r) (usage_remaining r) (last_usage r)
    (closest_base_stations r) (connected r) (total_connected_time r)
    (total_unconnected_time r) (total_request_count r) (total_consume_time
    r) v (request_start_time r) (latencies r) (avg_latency r)
    (last_latency r) (max_latency r) (min_latency r) (handover_count r)
    (handover_latencies r) (allocated_bandwidth r).

Definition set_request_start_time (r : t) (v : Q) : t :=
  mk (pk r) (x r) (y r) (usage_freq r) (base_station r)
    (subscribed_slice_index r) (usage_remaining r) (last_usage r)
    (closest_base_stations r) (connected r) (total_connected_time r)
    (total_unconnected_time r) (total_request_count r) (total_consume_time
    r) (total_usage r) v (latencies r) (avg_latency r) (last_latency r)
    (max_latency r) (min_latency r) (handover_count r) (handover_latencies
    r) (allocated_bandwidth r).

Definition set_latencies (r : t) (v : list Q) : t :=
  mk (pk r) (x r) (y r) (usage_freq r) (base_station r)
    (subscribed_slice_index r) (usage_remaining r) (last_usage r)
    (closest_base_stations r) (connected r) (total_connected_time r)
    (total_unconnected_time r) (total_request_count r) (total_consume_time
    r) (total_usage r) (request_start_time r) v (avg_latency r)
    (last_latency r) (max_latency r) (min_latency r) (handover_count r)
    (handover_latencies r) (allocated_bandwidth r).

Definition set_avg_latency (r : t) (v : Q) : t :=
  mk (pk r) (x r) (y r) (usage_freq r) (base_station r)
    (subscribed_slice_index r) (usage_remaining r) (last_usage r)
    (closest_base_stations r) (connected r) (total_connected_time r)
    (total_unconnected_time r) (total_request_count r) (total_consume_time
    r) (total_usage r) (request_start_time r) (latencies r) v
    (last_latency r) (max_latency r) (min_latency r) (handover_count r)
    (handover_latencies r) (allocated_bandwidth r).

Definition set_last_latency (r : t) (v : Q) : t :=
  mk (pk r) (x r) (y r) (usage_freq r) (base_station r)
    (subscribed_slice_index r) (usage_remaining r) (last_usage r)
    (closest_base_stations r) (connected r) (total_connected_time r)
    (total_unconnected_time r) (total_request_count r) (total_consume_time
    r) (total_usage r) (request_start_time r) (latencies r) (avg_latency
    r) v (max_latency r) (min_latency r) (handover_count r)
    (handover_latencies r) (allocated_bandwidth r).

Definition set_max_latency (r : t) (v : Q) : t :=
  mk (pk r) (x r) (y r) (usage_freq r) (base_station r)
    (subscribed_slice_index r) (usage_remaining r) (last_usage r)
    (closest_base_stations r) (connected r) (total_connected_time r)
    (total_unconnected_time r) (total_request_count r) (total_consume_time
    r) (total_usage r) (request_start_time r) (latencies r) (avg_latency
    r) (last_latency r) v (min_latency r) (handover_count r)
    (handover_latencies r) (allocated_bandwidth r).

Definition set_min_latency (r : t) (v : option Q) : t :=
  mk (pk r) (x r) (y r) (usage_freq r) (base_station r)
    (subscribed_slice_index r) (usage_remaining r) (last_usage r)
    (closest_base_stations r) (connected r) (total_connected_time r)
    (total_unconnected_time r) (total_request_count r) (total_consume_time
    r) (total_usage r) (request_start_time r) (latencies r) (avg_latency
    r) (last_latency r) (max_latency r) v (handover_count r)
    (handover_latencies r) (allocated_bandwidth r).

Definition set_handover_count (r : t) (v : Z) : t :=
  mk (pk r) (x r) (y r) (usage_freq r) (base_station r)
    (subscribed_slice_index r) (usage_remaining r) (last_usage r)
    (closest_base_stations r) (connected r) (total_connected_time r)
    (total_unconnected_time r) (total_request_count r) (total_consume_time
    r) (total_usage r) (request_start_time r) (latencies r) (avg_latency
    r) (last_latency r) (max_latency r) (min_latency r) v
    (handover_latencies r) (allocated_bandwidth r).

Definition set_handover_latencies (r : t) (v : list Q) : t :=
  mk (pk r) (x r) (y r) (usage_freq r) (base_station r)
    (subscribed_slice_index r) (usage_remaining r) (last_usage r)
    (closest_base_stations r) (connected r) (total_connected_time r)
    (total_unconnected_time r) (total_request_count r) (total_consume_time
    r) (total_usage r) (request_start_time r) (latencies r) (avg_latency
    r) (last_latency r) (max_latency r) (min_latency r) (handover_count r)
    v (allocated_bandwidth r).

Definition set_allocated_bandwidth (r : t) (v : option Q) : t :=
  mk (pk r) (x r) (y r) (usage_freq r) (base_station r)
    (subscribed_slice_index r) (usage_remaining r) (last_usage r)
    (closest_base_stations r) (connected r) (total_connected_time r)
    (total_unconnected_time r) (total_request_count r) (total_consume_time
    r) (total_usage r) (request_start_time r) (latencies r) (avg_latency
    r) (last_latency r) (max_latency r) (min_latency r) (handover_count r)
    (handover_latencies r) v.

End Client.

(** ** Stats.py *)

Module Stats.

(** The attributes set by [Stats.__init__]; [env], [base_stations] and
    [clients] are references into the world. *)
Record t : Type := mk {
  area : (Q * Q) * (Q * Q);
  total_connected_users_ratio : list Q;
  total_used_bw : list Q;
  avg_slice_load_ratio : list Q;
  avg_slice_client_count : list Q;
  coverage_ratio : list Q;
  connect_attempt : list Q;
  block_count : list Q;
  handover_count : list Q;
  avg_latency : list Q;
  avg_latency_per_slice : list (string * list Q);
  max_latency : list Q;
  min_latency : list Q;
  latency_sla_violations : list Q;
  handover_latencies : list (list Q)
}.

Definition set_connect_attempt (r : t) (v : list Q) : t :=
  mk (area r) (total_connected_users_ratio r) (total_used_bw r)
    (avg_slice_load_ratio r) (avg_slice_client_count r) (coverage_ratio r)
    v (block_count r) (handover_count r) (avg_latency r)
    (avg_latency_per_slice r) (max_latency r) (min_latency r)
    (latency_sla_violations r) (handover_latencies r).

Definition set_block_count (r : t) (v : list Q) : t :=
  mk (area r) (total_connected_users_ratio r) (total_used_bw r)
    (avg_slice_load_ratio r) (avg_slice_client_count r) (coverage_ratio r)
    (connect_attempt r) v (handover_count r) (avg_latency r)
    (avg_latency_per_slice r) (max_latency r) (min_latency r)
    (latency_sla_violations r) (handover_latencies r).

Definition set_handover_count (r : t) (v : list Q) : t :=
  mk (area r) (total_connected_users_ratio r) (total_used_bw r)
    (avg_slice_load_ratio r) (avg_slice_client_count r) (coverage_ratio r)
    (connect_attempt r) (block_count r) v (avg_latency r)
    (avg_latency_per_slice r) (max_latency r) (min_latency r)
    (latency_sla_violations r) (handover_latencies r).

Definition set_handover_latencies (r : t) (v : list (list Q)) : t :=
  mk (area r) (total_connected_users_ratio r) (total_used_bw r)
    (avg_slice_load_ratio r) (avg_slice_client_count r) (coverage_ratio r)
    (connect_attempt r) (block_count r) (handover_count r) (avg_latency r)
    (avg_latency_per_slice r) (max_latency r) (min_latency r)
    (latency_sla_violations r) v.

End Stats.

(** [Stats.is_client_in_coverage] *)
Definition is_client_in_coverage (st : Stats.t) (c : Client.t) : bool :=
  let '(xs, ys) := Stats.area st in
  le_b (fst xs) (Client.x c) && le_b (Client.x c) (snd xs)
  && le_b (fst ys) (Client.y c) && le_b (Client.y c) (snd ys).

(** [Stats.incr_connect_attempt] *)
Definition incr_connect_attempt (st : Stats.t) (c : Client.t) : Res Stats.t :=
  if is_client_in_coverage st c then
    let! l := incr_last (Stats.connect_attempt st) in
    Ok (Stats.set_connect_attempt st l)
  else Ok st.

(** [Stats.incr_block_count] *)
Definition incr_block_count (st : Stats.t) (c : Client.t) : Res Stats.t :=
  if is_client_in_coverage st c then
    let! l := incr_last (Stats.block_count st) in
    Ok (Stats.set_block_count st l)
  else Ok st.

(** [Stats.incr_handover_count] *)
Definition incr_handover_count (st : Stats.t) (c : Client.t) : Res Stats.t :=
  if is_client_in_coverage st c then
    let! l := incr_last (Stats.handover_count st) in
    Ok (Stats.set_handover_count st l)
  else Ok st.

(** [Stats.record_latency]; [now] is [self.env.now]. *)
Definition record_latency (st : Stats.t) (now : Q) (c : Client.t)
    (latency : Q) : Res Stats.t :=
  match last (Client.handover_latencies c) with
  | None => Ok st
  | Some latest =>
      let slot := Py.int now in
      let hl := Stats.handover_latencies st in
      let hl :=
        if (Z.of_nat (length hl) <=? slot)%Z
        then hl ++ repeat [] (Z.to_nat (slot - Z.of_nat (length hl) + 1))
        else hl in
      let! i := Py.index hl slot in
      Ok (Stats.set_handover_latencies st
            (alter (fun l => l ++ [latest]) i hl))
  end.

(** The three counters of the running aggregation period: the last
    entries of [connect_attempt], [block_count] and [handover_count]. *)
Definition current (l : list Q) : Q := default 0 (last l).

Definition period_attempts (st : Stats.t) : Q :=
  current (Stats.connect_attempt st).
Definition period_blocks (st : Stats.t) : Q :=
  current (Stats.block_count st).
Definition period_handovers (st : Stats.t) : Q :=
  current (Stats.handover_count st).

(** ** The world, and the monad of the methods that mutate it *)

Module World.

(** [now] is [env.now]; [last_run_time] and [limit] are the class
    attributes of [KDTree]. *)
Record t : Type := mk {
  now : Q;
  base_stations : list BaseStation.t;
  clients : list Client.t;
  stats : Stats.t;
  last_run_time : Z;
  limit : nat
}.

Definition set_base_stations (r : t) (v : list BaseStation.t) : t :=
  mk (now r) v (clients r) (stats r) (last_run_time r) (limit r).

Definition set_clients (r : t) (v : list Client.t) : t :=
  mk (now r) (base_stations r) v (stats r) (last_run_time r) (limit r).

Definition set_stats (r : t) (v : Stats.t) : t :=
  mk (now r) (base_stations r) (clients r) v (last_run_time r) (limit r).

Definition set_last_run_time (r : t) (v : Z) : t :=
  mk (now r) (base_stations r) (clients r) (stats r) v (limit r).

End World.

(** The lines of the log, by the [print] that writes them. *)
Inductive event : Type :=
| Connected (pk : nat) (latency : Q)
| Refused (pk : nat)
| AlreadyDisconnected (pk : nat)
| Disconnected (pk : nat)
| Gets (pk : nat) (amount : Q)
| PutsBack (pk : nat) (amount latency : Q)
| LatencyWarning (pk : nat) (latency tolerance : Q)
| FreshlyAssigned (pk : nat) (bs : nat) (score : Q).

Definition M (A : Type) : Type := World.t -> Res A * World.t * list event.

Definition ret {A} (a : A) : M A := fun w => (Ok a, w, []).

Definition raise {A} (e : exn) : M A := fun w => (Raise e, w, []).

Definition bind {A B} (m : M A) (k : A -> M B) : M B :=
  fun w =>
    match m w with
    | (Ok a, w1, out1) =>
        let '(r, w2, out2) := k a w1 in (r, w2, out1 ++ out2)
    | (Raise e, w1, out1) => (Raise e, w1, out1)
    end.

Notation "'let*' x ':=' e 'in' k" := (bind e (fun x => k))
  (at level 10, x name, e at level 200, k at level 200).

Definition lift {A} (r : Res A) : M A := fun w => (r, w, []).

(** The three components of a run. *)
Definition run_result {A} (m : M A) (w : World.t) : Res A := fst (fst (m w)).
Definition run_world {A} (m : M A) (w : World.t) : World.t := snd (fst (m w)).
Definition run_output {A} (m : M A) (w : World.t) : list event := snd (m w).

(** Reads leave the world as it is and print nothing. *)
Definition read_only {A} (m : M A) : Prop :=
  forall w, exists r, m w = (r, w, []).

Definition print (e : event) : M unit := fun w => (Ok tt, w, [e]).

Definition get_now : M Q := fun w => (Ok (World.now w), w, []).

(** [o.attr] on a reference that may be [None]. *)
Definition deref {A} (o : option A) : M A :=
  match o with
  | Some a => ret a
  | None => raise AttributeError
  end.

(** Reading the client, the base station and the slice behind a handle. *)
Definition client (h : nat) : M Client.t :=
  fun w =>
    match World.clients w !! h with
    | Some c => (Ok c, w, [])
    | None => (Raise DanglingReference, w, [])
    end.

Definition base_station_at (b : nat) : M BaseStation.t :=
  fun w =>
    match World.base_stations w !! b with
    | Some bs => (Ok bs, w, [])
    | None => (Raise DanglingReference, w, [])
    end.

Definition slice_at (h : nat * nat) : M Slice.t :=
  let* bs := base_station_at (fst h) in
  match BaseStation.slices bs !! snd h with
  | Some s => ret s
  | None => raise DanglingReference
  end.

(** Attribute assignment: the object behind the handle is replaced by
    [f] of its current state. *)
Definition update_client (h : nat) (f : Client.t -> Client.t) : M unit :=
  fun w => (Ok tt, World.set_clients w (alter f h (World.clients w)), []).

Definition update_slice (h : nat * nat) (f : Slice.t -> Slice.t) : M unit :=
  fun w =>
    (Ok tt,
     World.set_base_stations w
       (alter (fun bs =>
                 BaseStation.set_slices bs
                   (alter f (snd h) (BaseStation.slices bs)))
              (fst h) (World.base_stations w)),
     []).

(** A call of a [Stats] method on the collector of the world, on behalf
    of the client [h]. *)
Definition with_stats (f : Stats.t -> Client.t -> Res Stats.t) (h : nat)
  : M unit :=
  let* c := client h in
  fun w =>
    match f (World.stats w) c with
    | Ok st => (Ok tt, World.set_stats w st, [])
    | Raise e => (Raise e, w, [])
    end.

(** [for a in l: body(a)] *)
Fixpoint for_each {A} (l : list A) (body : A -> M unit) : M unit :=
  match l with
  | [] => ret tt
  | a :: l' => let* _ := body a in for_each l' body
  end.

Section Engine.

(** [utils.distance] is not among the sources; the engine is
    parametrised by it. *)
Variable distance : Q * Q -> Q * Q -> Q.

(** ** utils.KDTree *)

(** The cached list of one client: the base stations by distance, the
    [limit] nearest of them. *)
Definition nearest (limit : nat) (bss : list BaseStation.t) (c : Client.t)
  : list (Q * nat) :=
  firstn limit
    (sort_by fst
       (imap (fun i bs =>
                (distance (Client.x c, Client.y c)
                          (Coverage.center (BaseStation.coverage bs)), i))
             bss)).

Definition rebuild (assign : bool) (limit : nat) (bss : list BaseStation.t)
    (c : Client.t) : Client.t :=
  let near := nearest limit bss c in
  let c := Client.set_closest_base_stations c near in
  if assign then
    match near with
    | (d, b) :: _ =>
        match bss !! b with
        | Some bs =>
            if le_b d (Coverage.radius (BaseStation.coverage bs))
            then Client.set_base_station c (Some b)
            else c
        | None => c
        end
    | [] => c
    end
  else c.

(** Modelled from the spec: [utils.KDTree.run] is not among the sources.
    A rebuild for the time [run_at] is guarded by the last-run-time
    marker, so that a second call for the same integer tick does
    nothing; it refreshes the cached list of every client and, when
    [assign] is set, attaches each client to its nearest base station
    if that one covers it. *)
Definition KDTree_run (run_at : Z) (assign : bool) : M unit :=
  fun w =>
    if (run_at =? World.last_run_time w)%Z then (Ok tt, w, [])
    else
      let w := World.set_last_run_time w run_at in
      (Ok tt,
       World.set_clients w
         (rebuild assign (World.limit w) (World.base_stations w)
            <$> World.clients w),
       []).

(** ** Client.py: the methods *)

(** [Client.get_slice]: the handle of the slice, or [None]. *)
Definition get_slice (self : nat) : M (option (nat * nat)) :=
  let* c := client self in
  match Client.base_station c with
  | None => ret None
  | Some b =>
      let* bs := base_station_at b in
      match BaseStation.slices bs !! Client.subscribed_slice_index c with
      | Some _ => ret (Some (b, Client.subscribed_slice_index c))
      | None => raise IndexError
      end
  end.

(** [Client._update_latency_stats] *)
Definition _update_latency_stats (self : nat) (new_latency : Q) : M unit :=
  let* _ := update_client self
              (fun c => Client.set_last_latency c new_latency) in
  let* c := client self in
  let* _ :=
    if lt_b (Client.max_latency c) new_latency
    then update_client self (fun c => Client.set_max_latency c new_latency)
    else ret tt in
  let* _ :=
    match Client.min_latency c with
    | Some m =>
        if lt_b new_latency m
        then update_client self
               (fun c => Client.set_min_latency c (Some new_latency))
        else ret tt
    | None =>
        update_client self
          (fun c => Client.set_min_latency c (Some new_latency))
    end in
  let* c := client self in
  let* avg := lift (Py.div (Py.sum (Client.latencies c))
                           (Py.len (Client.latencies c))) in
  let* _ := update_client self (fun c => Client.set_avg_latency c avg) in
  let* now := get_now in
  with_stats (fun st c => record_latency st now c new_latency) self.

(** The first loop of [Client.assign_closest_base_station]: the
    candidates that are not excluded, each with its score. *)
Fixpoint score_candidates (c : Client.t) (exclude : option (list nat))
    (candidates : list (Q * nat)) : M (list (Q * Q * nat)) :=
  match candidates with
  | [] => ret []
  | (_, b) :: rest =>
      let* bs := base_station_at b in
      let excluded :=
        match exclude with
        | Some pks => bool_decide (BaseStation.pk bs ∈ pks)
        | None => false
        end in
      if excluded then score_candidates c exclude rest
      else
        let d := distance (Client.x c, Client.y c)
                          (Coverage.center (BaseStation.coverage bs)) in
        let* slice_load :=
          match BaseStation.slices bs !! Client.subscribed_slice_index c with
          | Some target_slice =>
              let* used :=
                lift (Py.div (Container.level (Slice.capacity target_slice))
                             (Container.capacity
                                (Slice.capacity target_slice))) in
              ret (1 - used)
          | None => ret 0
          end in
        let score := d * (1 + slice_load) in
        let* scored := score_candidates c exclude rest in
        ret ((score, d, b) :: scored)
  end.

(** The second loop: the first candidate whose disk holds the client. *)
Fixpoint first_covering (scored : list (Q * Q * nat))
  : M (option (Q * nat)) :=
  match scored with
  | [] => ret None
  | (score, d, b) :: rest =>
      let* bs := base_station_at b in
      if le_b d (Coverage.radius (BaseStation.coverage bs))
      then ret (Some (score, b))
      else first_covering rest
  end.

(** [Client.assign_closest_base_station].  The test
    [KDTree.last_run_time is not int(self.env.now)] can only skip a call
    that the guard of [KDTree.run] would turn into nothing. *)
Definition assign_closest_base_station (self : nat)
    (exclude : option (list nat)) : M unit :=
  let* c := client self in
  let* updated_list :=
    score_candidates c exclude (Client.closest_base_stations c) in
  let updated_list := sort_by (fun t => fst (fst t)) updated_list in
  let* found := first_covering updated_list in
  match found with
  | Some (score, b) =>
      let* _ := update_client self
                  (fun c => Client.set_base_station c (Some b)) in
      print (FreshlyAssigned (Client.pk c) b score)
  | None =>
      let* now := get_now in
      let* _ :=
        fun w =>
          if negb (World.last_run_time w =? Py.int now)%Z
          then KDTree_run (Py.int now) false w
          else (Ok tt, w, []) in
      update_client self (fun c => Client.set_base_station c None)
  end.

(** The branch of [Client.connect] taken when the slice admits the
    client; [c] is the client as [connect] found it and [sh] its slice. *)
Definition connect_admitted (self : nat) (c : Client.t) (sh : nat * nat)
  : M (option bool) :=
  let* _ := update_slice sh
              (fun sl => Slice.set_connected_users sl
                           (Slice.connected_users sl + 1)%Z) in
  let* _ := update_client self (fun c => Client.set_connected c true) in
  let* now := get_now in
  let connection_latency := now - Client.request_start_time c in
  let* _ := update_client self
              (fun c => Client.set_latencies c
                          (Client.latencies c ++ [connection_latency])) in
  let* _ := _update_latency_stats self connection_latency in
  let* _ := get_slice self in
  let* _ := print (Connected (Client.pk c) connection_latency) in
  ret (Some true).

(** The [else] branch of [Client.connect]: the slice is not available. *)
Definition connect_refused (self : nat) (c : Client.t) : M (option bool) :=
  let* handover_start := get_now in
  let old_bs := Client.base_station c in
  let* b := deref old_bs in
  let* bs := base_station_at b in
  let* _ := assign_closest_base_station self (Some [BaseStation.pk bs]) in
  let* c := client self in
  let* _ :=
    match Client.base_station c with
    | Some b' =>
        if negb (Nat.eqb b' b) then
          let* now := get_now in
          let handover_latency := now - handover_start in
          update_client self
            (fun c => Client.set_handover_latencies c
                        (Client.handover_latencies c ++ [handover_latency]))
        else ret tt
    | None => ret tt
    end in
  let* _ :=
    match Client.base_station c with
    | Some _ =>
        let* s' := get_slice self in
        let* sh' := deref s' in
        let* sl' := slice_at sh' in
        let* available' := lift (is_avaliable sl') in
        if available' then
          let* _ := with_stats incr_handover_count self in
          update_client self
            (fun c => Client.set_handover_count c
                        (Client.handover_count c + 1)%Z)
        else with_stats incr_block_count self
    | None => ret tt
    end in
  let* _ := get_slice self in
  let* _ := print (Refused (Client.pk c)) in
  ret (Some false).

(** [Client.connect]: [None] for the bare [return], else the boolean. *)
Definition connect (self : nat) : M (option bool) :=
  let* s := get_slice self in
  let* c := client self in
  if Client.connected c then ret None
  else
    let* _ := with_stats incr_connect_attempt self in
    let* sh := deref s in
    let* sl := slice_at sh in
    let* available := lift (is_avaliable sl) in
    if available then connect_admitted self c sh
    else connect_refused self c.

(** [Client.disconnect] *)
Definition disconnect (self : nat) : M bool :=
  let* c := client self in
  let* _ :=
    if negb (Client.connected c) then
      let* _ := get_slice self in
      print (AlreadyDisconnected (Client.pk c))
    else
      let* s := get_slice self in
      let* sh := deref s in
      let* _ := update_slice sh
                  (fun sl => Slice.set_connected_users sl
                               (Slice.connected_users sl - 1)%Z) in
      let* _ := update_client self (fun c => Client.set_connected c false) in
      let* _ := get_slice self in
      print (Disconnected (Client.pk c)) in
  let* c := client self in
  ret (negb (Client.connected c)).

(** The amount that [Client.start_consume] asks of the container, from
    the share the slice offers and the client. *)
Definition consume_amount (share : Q) (sl : Slice.t) (c : Client.t) : Q :=
  let amount := Py.min share (Client.usage_remaining c) in
  if lt_b (Slice.delay_tolerance sl) 10
  then Py.min (amount * (12 # 10)) (Client.usage_remaining c)
  else amount.

(** [Client.start_consume] *)
Definition start_consume (self : nat) : M unit :=
  let* s := get_slice self in
  let* now := get_now in
  let* _ := update_client self
              (fun c => Client.set_request_start_time c now) in
  let* sh := deref s in
  let* sl := slice_at sh in
  let* share := lift (get_consumable_share sl) in
  let* c := client self in
  let amount := consume_amount share sl c in
  let* cap := lift (Container.get (Slice.capacity sl) amount) in
  let* _ := update_slice sh (fun sl => Slice.set_capacity sl cap) in
  let* _ := print (Gets (Client.pk c) amount) in
  update_client self (fun c => Client.set_last_usage c amount).

(** [Client.release_consume] *)
Definition release_consume (self : nat) : M unit :=
  let* s := get_slice self in
  let* c := client self in
  if lt_b 0 (Client.last_usage c) then
    let* sh := deref s in
    let* sl := slice_at sh in
    let* cap := lift (Container.put (Slice.capacity sl)
                                    (Client.last_usage c)) in
    let* _ := update_slice sh (fun sl => Slice.set_capacity sl cap) in
    let* now := get_now in
    let service_latency := now - Client.request_start_time c in
    let* _ := update_client self
                (fun c => Client.set_latencies c
                            (Client.latencies c ++ [service_latency])) in
    let* _ := _update_latency_stats self service_latency in
    let* _ := print (PutsBack (Client.pk c) (Client.last_usage c)
                              service_latency) in
    let* _ :=
      if lt_b (Slice.delay_tolerance sl) service_latency
      then print (LatencyWarning (Client.pk c) service_latency
                                 (Slice.delay_tolerance sl))
      else ret tt in
    let* _ := update_client self
                (fun c => Client.set_total_consume_time c
                            (Client.total_consume_time c + 1)%Z) in
    let* _ := update_client self
                (fun c => Client.set_total_usage c
                            (Client.total_usage c + Client.last_usage c)) in
    let* _ := update_client self
                (fun c => Client.set_usage_remaining c
                            (Client.usage_remaining c
                             - Client.last_usage c)) in
    update_client self (fun c => Client.set_last_usage c 0)
  else ret tt.

(** ** Slice.py: the allocator, which reaches into the clients *)

(** The sort key of [Slice.dynamic_resource_allocation] is the tuple of
    the waiting time, [self.delay_tolerance] and [self.qos_class]; the
    last two are those of the slice for every client, so the order is
    that of the waiting time. *)
Fixpoint waiting_times (now : Q) (clients : list nat) : M (list (nat * Q)) :=
  match clients with
  | [] => ret []
  | h :: rest =>
      let* c := client h in
      let* keyed := waiting_times now rest in
      ret ((h, now - Client.request_start_time c) :: keyed)
  end.

Fixpoint total_usage_remaining (clients : list nat) (acc : Q) : M Q :=
  match clients with
  | [] => ret acc
  | h :: rest =>
      let* c := client h in
      total_usage_remaining rest (acc + Client.usage_remaining c)
  end.

(** First pass: the guaranteed minimum. *)
Fixpoint guarantee_pass (sl : Slice.t) (clients : list nat)
    (remaining_capacity : Q) : M Q :=
  match clients with
  | [] => ret remaining_capacity
  | h :: rest =>
      let* c := client h in
      match Client.allocated_bandwidth c with
      | Some _ =>
          let min_alloc := Py.min (Slice.bandwidth_guaranteed sl)
                                  (Client.usage_remaining c) in
          let* _ := update_client h
                      (fun c => Client.set_allocated_bandwidth c
                                  (Some min_alloc)) in
          guarantee_pass sl rest (remaining_capacity - min_alloc)
      | None => guarantee_pass sl rest remaining_capacity
      end
  end.

(** Second pass: the rest by priority, until it runs out. *)
Fixpoint priority_pass (sl : Slice.t) (now : Q) (clients : list nat)
    (remaining_capacity : Q) : M unit :=
  match clients with
  | [] => ret tt
  | h :: rest =>
      let* c := client h in
      match Client.allocated_bandwidth c with
      | Some allocated =>
          let* waited :=
            lift (Py.div (now - Client.request_start_time c)
                         (Slice.delay_tolerance sl)) in
          let time_factor := Py.min 1 waited in
          let qos_weight := inject_Z (5 - Slice.qos_class sl) / 5 in
          let priority := time_factor * qos_weight in
          let additional :=
            Py.min (remaining_capacity * priority)
                   (Client.usage_remaining c - allocated) in
          let* _ := update_client h
                      (fun c => Client.set_allocated_bandwidth c
                                  (Some (allocated + additional))) in
          let remaining_capacity := remaining_capacity - additional in
          if le_b remaining_capacity 0 then ret tt
          else priority_pass sl now rest remaining_capacity
      | None => priority_pass sl now rest remaining_capacity
      end
  end.

(** [Slice.dynamic_resource_allocation]; [self] is the handle of the
    slice, [clients] the handles of the clients passed in. *)
Definition dynamic_resource_allocation (self : nat * nat)
    (clients : list nat) : M unit :=
  match clients with
  | [] => ret tt
  | _ :: _ =>
      let* _ := update_slice self
                  (fun sl => Slice.set_active_clients sl clients) in
      let* now := get_now in
      let* keyed := waiting_times now clients in
      let prioritized_clients := map fst (sort_by_desc snd keyed) in
      let* total_demand := total_usage_remaining prioritized_clients 0 in
      let* sl := slice_at self in
      let available_capacity :=
        Container.level (Slice.capacity sl) - Slice.reserved_capacity sl in
      if le_b total_demand available_capacity then
        for_each prioritized_clients
          (fun h =>
             let* c := client h in
             match Client.allocated_bandwidth c with
             | Some _ =>
                 update_client h
                   (fun c => Client.set_allocated_bandwidth c
                               (Some (Client.usage_remaining c)))
             | None => ret tt
             end)
      else
        let* remaining_capacity :=
          guarantee_pass sl prioritized_clients available_capacity in
        if lt_b 0 remaining_capacity
        then priority_pass sl now prioritized_clients remaining_capacity
        else ret tt
  end.

(** ** Relations between the world before and after a call *)

(** The three counter lists of the collector are what they were. *)
Definition same_counters (w w' : World.t) : Prop :=
  Stats.connect_attempt (World.stats w')
    = Stats.connect_attempt (World.stats w)
  /\ Stats.block_count (World.stats w') = Stats.block_count (World.stats w)
  /\ Stats.handover_count (World.stats w')
     = Stats.handover_count (World.stats w).

(** Where the client [self] is, if it exists. *)
Definition position (self : nat) (w : World.t) : option (Q * Q) :=
  (fun c => (Client.x c, Client.y c)) <$> World.clients w !! self.

(** The collector is what it was and the client has not moved. *)
Definition frame (self : nat) (w w' : World.t) : Prop :=
  World.stats w' = World.stats w /\ position self w' = position self w.

(** Every run of [m] relates the world before to the world after. *)
Definition keeps (R : World.t -> World.t -> Prop) {A} (m : M A) : Prop :=
  forall w, R w (run_world m w).

(** Whether the collector counts the client [self]. *)
Definition counted (self : nat) (w : World.t) : bool :=
  match World.clients w !! self with
  | Some c => is_client_in_coverage (World.stats w) c
  | None => false
  end.

(** What a call may do to the counters of the running period once the
    attempt has been counted: nothing, or, for a client the collector
    counts, one block or one handover. *)
Definition tail_accounted (self : nat) (w w' : World.t) : Prop :=
  period_attempts (World.stats w') = period_attempts (World.stats w)
  /\ ((period_blocks (World.stats w') = period_blocks (World.stats w)
       /\ period_handovers (World.stats w')
          = period_handovers (World.stats w))
      \/ (counted self w = true
          /\ ((period_blocks (World.stats w')
               = period_blocks (World.stats w) + 1
               /\ period_handovers (World.stats w')
                  = period_handovers (World.stats w))
              \/ (period_blocks (World.stats w')
                  = period_blocks (World.stats w)
                  /\ period_handovers (World.stats w')
                     = period_handovers (World.stats w) + 1)))).

(** What counting the attempt does when it returns: the client is
    counted as before, blocks and handovers are what they were, and the
    attempts are what they were when the collector does not count the
    client, and one more when it does. *)
Definition attempt_counted (self : nat) (w w' : World.t) : Prop :=
  counted self w' = counted self w
  /\ period_blocks (World.stats w') = period_blocks (World.stats w)
  /\ period_handovers (World.stats w') = period_handovers (World.stats w)
  /\ ((counted self w = false
       /\ period_attempts (World.stats w') = period_attempts (World.stats w))
      \/ period_attempts (World.stats w')
         = period_attempts (World.stats w) + 1).

(** What one call of [connect] may do to them: nothing, or one attempt
    followed by at most one block or one handover. *)
Definition accounted (w w' : World.t) : Prop :=
  (period_attempts (World.stats w') = period_attempts (World.stats w)
   /\ period_blocks (World.stats w') = period_blocks (World.stats w)
   /\ period_handovers (World.stats w') = period_handovers (World.stats w))
  \/ (period_attempts (World.stats w')
      = period_attempts (World.stats w) + 1
      /\ ((period_blocks (World.stats w') = period_blocks (World.stats w)
           /\ period_handovers (World.stats w')
              = period_handovers (World.stats w))
          \/ (period_blocks (World.stats w')
              = period_blocks (World.stats w) + 1
              /\ period_handovers (World.stats w')
                 = period_handovers (World.stats w))
          \/ (period_blocks (World.stats w')
              = period_blocks (World.stats w)
              /\ period_handovers (World.stats w')
                 = period_handovers (World.stats w) + 1))).

(** ** The aggregation period of the collector

    What can happen to the world between two resets of the counters:
    some client calls [connect], or anything else happens that writes
    neither of the three counter lists. *)
Inductive period_step : World.t -> World.t -> Prop :=
| step_connect (self : nat) (w : World.t) :
    period_step w (run_world (connect self) w)
| step_other (w w' : World.t) :
    same_counters w w' ->
    period_step w w'.

Inductive period_steps : World.t -> World.t -> Prop :=
| steps_nil (w : World.t) : period_steps w w
| steps_cons (w1 w2 w3 : World.t) :
    period_steps w1 w2 -> period_step w2 w3 -> period_steps w1 w3.

End Engine.

(** ** The specification's reading of admission *)

(** The rejection condition as the specification words it: both tests
    are taken on the pool [min(init_capacity, bandwidth_max) -
    reserved_capacity]. *)
Definition spec_rejects (s : Slice.t) : Prop :=
  let pool :=
    Py.min (Slice.init_capacity s) (Slice.bandwidth_max s)
    - Slice.reserved_capacity s in
  pool / (inject_Z (Slice.connected_users s) + 1)
    < Slice.bandwidth_guaranteed s
  \/ ((Slice.qos_class s <= 2)%Z
      /\ (7 # 10) * Slice.delay_tolerance s < Slice.avg_latency s
      /\ pool / ((15 # 10) * Slice.bandwidth_guaranteed s)
         <= inject_Z (Slice.connected_users s)).

(** ** Construction, as in [__main__] *)

(** [Slice(...)] followed by [s.capacity = simpy.Container(env,
    init=s_cap, capacity=s_cap)]. *)
Definition new_slice (name : string) (ratio : Q) (connected_users : Z)
    (user_share delay_tolerance : Q) (qos_class : Z)
    (bandwidth_guaranteed bandwidth_max init_capacity : Q) : Slice.t :=
  Slice.mk name ratio connected_users user_share delay_tolerance qos_class
    bandwidth_guaranteed bandwidth_max init_capacity
    (Container.mk init_capacity init_capacity [] [])
    0 [] [] 0 0.

(** [Client(pk, env, x, y, mobility_pattern, usage_freq,
    subscribed_slice_index, stat_collector, base_station)] *)
Definition new_client (pk : nat) (x y usage_freq : Q)
    (subscribed_slice_index : nat) (base_station : option nat) : Client.t :=
  Client.mk pk x y usage_freq base_station subscribed_slice_index
    0 0 [] false 0 0 0 0 0 0 [] 0 0 0 None 0 [] None.

(** [Stats(env, base_stations, clients, area)] *)
Definition new_stats (area : (Q * Q) * (Q * Q)) : Stats.t :=
  Stats.mk area [] [] [] [] [] [] [] [] [] [] [] [] [] [].

(** ** Sample states *)

(** A low-latency slice of capacity 30 with 18 users, the full
    reservation of a tenth of the capacity, and an average latency above
    0.7 of its tolerance. *)
Definition urllc_loaded : Slice.t :=
  Slice.set_avg_latency
    (Slice.set_reserved_capacity
       (new_slice "URLLC" 1 18 1 10 1 1 30 30) 3)
    8.

(** A slice of capacity 10 that already holds 10 users of guarantee 1. *)
Definition embb_full : Slice.t := new_slice "eMBB" 1 10 1 100 3 1 10 10.

(** A slice of capacity 10 and tolerance 5 with one user. *)
Definition lowlat_slice : Slice.t :=
  Slice.set_connected_users (new_slice "URLLC" 1 0 1 5 3 1 10 10) 1.

(** A connected client of that slice that still owes 100 units. *)
Definition busy_client : Client.t :=
  Client.set_connected
    (Client.set_usage_remaining (new_client 0 0 0 0 0 (Some 0%nat)) 100)
    true.

(** The same client with an [allocated_bandwidth] attribute. *)
Definition allocatable_client : Client.t :=
  Client.set_allocated_bandwidth busy_client (Some 0).

(** One base station at the origin with that slice, one client, and a
    collector in the middle of an aggregation period, at time 1. *)
Definition one_cell (c : Client.t) : World.t :=
  World.mk 1
    [BaseStation.mk 0 (Coverage.mk (0, 0) 10) 10 [lowlat_slice]]
    [c]
    (Stats.set_handover_count
       (Stats.set_block_count
          (Stats.set_connect_attempt (new_stats ((-10, 10), (-10, 10))) [0])
          [0])
       [0])
    0 1.

(** ** The specification's reading of the consume step *)

(** The amount the client consumes as the specification words it: the
    allocation written by the allocator when there is one, the
    consumable share otherwise. *)
Definition spec_consume_amount (share : Q) (c : Client.t) : Q :=
  match Client.allocated_bandwidth c with
  | Some allocated => allocated
  | None => share
  end.

(** A client with a pending request of 5 units that is not connected. *)
Definition waiting_client : Client.t :=
  Client.set_usage_remaining (new_client 0 0 0 0 0 (Some 0%nat)) 5.

(** A distance for the sample runs: the sum of the two offsets. *)
Definition manhattan (p q : Q * Q) : Q :=
  Qabs (fst p - fst q) + Qabs (snd p - snd q).

(** Two base stations three units apart; the client waits at the first,
    whose slice is full, and knows both.  [second] is the slice of the
    other station. *)
Definition two_cells (second : Slice.t) : World.t :=
  World.mk 1
    [BaseStation.mk 0 (Coverage.mk (0, 0) 10) 10 [embb_full];
     BaseStation.mk 1 (Coverage.mk (3, 0) 10) 10 [second]]
    [Client.set_closest_base_stations waiting_client
       [(0, 0%nat); (3, 1%nat)]]
    (Stats.set_handover_count
       (Stats.set_block_count
          (Stats.set_connect_attempt (new_stats ((-10, 10), (-10, 10))) [0])
          [0])
       [0])
    0 2.

(** The counters of the running period, in the order attempts, blocks,
    handovers. *)
Definition period_counters (w : World.t) : Q * Q * Q :=
  (period_attempts (World.stats w),
   period_blocks (World.stats w),
   period_handovers (World.stats w)).

(** ** __main__.py: the weighted draws *)

(** The loop [while vals[i] < r: i += 1] from the index [i] on; [vals]
    is the part of the list that starts at [i], and running off its end
    is the [IndexError] of [vals[i]]. *)
Fixpoint first_reaching (vals : list Q) (r : Q) (i : nat) : Res nat :=
  match vals with
  | [] => Raise IndexError
  | v :: vals' => if lt_b v r then first_reaching vals' r (S i) else Ok i
  end.

(** [get_random_slice_index(vals)]; [r] is the draw [random.random()]. *)
Definition get_random_slice_index (vals : list Q) (r : Q) : Res nat :=
  first_reaching vals r 0.

(** [get_random_mobility_pattern(vals, mobility_patterns)] *)
Definition get_random_mobility_pattern {A} (vals : list Q)
    (mobility_patterns : list A) (r : Q) : Res A :=
  let! i := first_reaching vals r 0 in
  match mobility_patterns !! i with
  | Some p => Ok p
  | None => Raise IndexError
  end.

(** The loops of [__main__] that build [slice_weights] and [mb_weights]:
    [collected += weight; weights.append(collected)]. *)
Fixpoint cumulative (collected : Q) (client_weights : list Q) : list Q :=
  match client_weights with
  | [] => []
  | w :: rest => (collected + w) :: cumulative (collected + w) rest
  end.

(** ** Slice.py: the history after a push *)

(** The history that [update_latency_stats] leaves: the new entry is
    appended and the oldest dropped once there are more than 100. *)
Definition pushed (h : list Q) (l : Q) : list Q :=
  if (100 <? length (h ++ [l]))%nat then tl (h ++ [l]) else h ++ [l].

(** ** More sample states *)

(** A collector for the square of side 20 around the origin, before its
    first tick. *)
Definition fresh_stats : Stats.t := new_stats ((-10, 10), (-10, 10)).

(** The waiting client after two handovers, of latency 0 and 0.25. *)
Definition roaming_client : Client.t :=
  Client.set_handover_latencies waiting_client [0; 1 # 4].

(** ** Calls that return *)

(** The call [m] returns from the world [w], and its value, the world
    it leaves and the lines it prints satisfy [post]. *)
Definition returns {A} (m : M A) (w : World.t)
    (post : A -> World.t -> list event -> Prop) : Prop :=
  exists a w' out, m w = (Ok a, w', out) /\ post a w' out.

(** The slice behind a handle, if the handle resolves. *)
Definition the_slice (w : World.t) (h : nat * nat) : option Slice.t :=
  match World.base_stations w !! fst h with
  | Some bs => BaseStation.slices bs !! snd h
  | None => None
  end.

(** The client [c'] is [c] but for its latency statistics: what it owes
    and holds, where it is and what it is attached to are the same. *)
Definition same_session (c c' : Client.t) : Prop :=
  Client.pk c' = Client.pk c
  /\ Client.x c' = Client.x c
  /\ Client.y c' = Client.y c
  /\ Client.base_station c' = Client.base_station c
  /\ Client.subscribed_slice_index c' = Client.subscribed_slice_index c
  /\ Client.usage_remaining c' = Client.usage_remaining c
  /\ Client.last_usage c' = Client.last_usage c
  /\ Client.connected c' = Client.connected c
  /\ Client.total_consume_time c' = Client.total_consume_time c
  /\ Client.total_usage c' = Client.total_usage c
  /\ Client.request_start_time c' = Client.request_start_time c
  /\ Client.latencies c' = Client.latencies c
  /\ Client.handover_count c' = Client.handover_count c
  /\ Client.handover_latencies c' = Client.handover_latencies c
  /\ Client.allocated_bandwidth c' = Client.allocated_bandwidth c.

(** Between the worlds [w] and [w1] the clock has not moved and nothing
    has changed but the client [self], which is now [c1], and the slice
    [h], which is now [sl1]; the collector is left aside. *)
Definition changed (self : nat) (h : nat * nat) (c1 : Client.t)
    (sl1 : Slice.t) (w w1 : World.t) : Prop :=
  World.clients w1 !! self = Some c1
  /\ (forall j, j <> self -> World.clients w1 !! j = World.clients w !! j)
  /\ the_slice w1 h = Some sl1
  /\ (forall h', h' <> h -> the_slice w1 h' = the_slice w h')
  /\ World.now w1 = World.now w.

(** The client after [Client._update_latency_stats] has taken the
    latency [l] into its rolling statistics. *)
Definition with_latency (c : Client.t) (l : Q) : Client.t :=
  Client.set_avg_latency
    (Client.set_min_latency
       (Client.set_max_latency (Client.set_last_latency c l)
          (Py.max (Client.max_latency c) l))
       (Some match Client.min_latency c with
             | Some m => Py.min m l
             | None => l
             end))
    (Py.sum (Client.latencies c) / Py.len (Client.latencies c)).

(** The client after [Client.release_consume] has returned its units at
    the time [now]. *)
Definition released (c : Client.t) (now : Q) : Client.t :=
  let service_latency := now - Client.request_start_time c in
  let c :=
    with_latency
      (Client.set_latencies c (Client.latencies c ++ [service_latency]))
      service_latency in
  let c := Client.set_total_consume_time c (Client.total_consume_time c + 1) in
  let c := Client.set_total_usage c
             (Client.total_usage c + Client.last_usage c) in
  let c := Client.set_usage_remaining c
             (Client.usage_remaining c - Client.last_usage c) in
  Client.set_last_usage c 0.

(** The client after [Client.connect] has attached it at the time
    [now]. *)
Definition admitted (c : Client.t) (now : Q) : Client.t :=
  let connection_latency := now - Client.request_start_time c in
  with_latency
    (Client.set_latencies (Client.set_connected c true)
       (Client.latencies c ++ [connection_latency]))
    connection_latency.

(** ** The score of a candidate base station *)

(** Whether [assign_closest_base_station] skips the base station. *)
Definition excluded (exclude : option (list nat)) (bs : BaseStation.t)
  : Prop :=
  match exclude with
  | Some pks => BaseStation.pk bs ∈ pks
  | None => False
  end.

(** The load factor and the score that the first loop of
    [assign_closest_base_station] computes for one base station. *)
Definition slice_load (c : Client.t) (bs : BaseStation.t) : Res Q :=
  match BaseStation.slices bs !! Client.subscribed_slice_index c with
  | Some target_slice =>
      let! used := Py.div (Container.level (Slice.capacity target_slice))
                          (Container.capacity (Slice.capacity target_slice)) in
      Ok (1 - used)
  | None => Ok 0
  end.

Definition covers (distance : Q * Q -> Q * Q -> Q) (c : Client.t)
    (bs : BaseStation.t) : Prop :=
  distance (Client.x c, Client.y c)
           (Coverage.center (BaseStation.coverage bs))
  <= Coverage.radius (BaseStation.coverage bs).

Definition score_of (distance : Q * Q -> Q * Q -> Q) (c : Client.t)
    (bs : BaseStation.t) : Res Q :=
  let! load := slice_load c bs in
  Ok (distance (Client.x c, Client.y c)
               (Coverage.center (BaseStation.coverage bs))
      * (1 + load)).

(** The keys of [l] ascend. *)
Inductive ascending {A} (key : A -> Q) : list A -> Prop :=
| ascending_nil : ascending key []
| ascending_cons (a : A) (l : list A) :
    (forall x, x ∈ l -> key a <= key x) -> ascending key l ->
    ascending key (a :: l).

(** ** __main__.py: one round of the allocation process *)

(** A [dict] from slice names to lists of client handles, in insertion
    order. *)
Fixpoint dict_get {V} (d : list (string * V)) (k : string) : option V :=
  match d with
  | [] => None
  | (k', v) :: d' => if String.eqb k' k then Some v else dict_get d' k
  end.

(** [if k not in d: d[k] = []] followed by [d[k].append(h)]. *)
Fixpoint dict_append (d : list (string * list nat)) (k : string) (h : nat)
  : list (string * list nat) :=
  match d with
  | [] => [(k, [h])]
  | (k', v) :: d' =>
      if String.eqb k' k then (k', v ++ [h]) :: d'
      else (k', v) :: dict_append d' k h
  end.

(** The first loop of the process: the connected clients by the name of
    their slice. *)
Fixpoint group_by_slice (handles : list nat)
    (clients_by_slice : list (string * list nat))
  : M (list (string * list nat)) :=
  match handles with
  | [] => ret clients_by_slice
  | h :: rest =>
      let* c := client h in
      match Client.base_station c with
      | None => group_by_slice rest clients_by_slice
      | Some _ =>
          if negb (Client.connected c) then
            group_by_slice rest clients_by_slice
          else
            let* s := get_slice h in
            match s with
            | Some sh =>
                let* slice_obj := slice_at sh in
                group_by_slice rest
                  (dict_append clients_by_slice (Slice.name slice_obj) h)
            | None => group_by_slice rest clients_by_slice
            end
      end
  end.

(** [[c for c in slice_clients if c.base_station == base_station]] *)
Fixpoint attached_to (b : nat) (slice_clients : list nat) : M (list nat) :=
  match slice_clients with
  | [] => ret []
  | h :: rest =>
      let* c := client h in
      let* kept := attached_to b rest in
      ret (if bool_decide (Client.base_station c = Some b)
           then h :: kept else kept)
  end.

(** The body of [while True] in [dynamic_resource_allocation(env, slices,
    clients)], up to the [yield]; the process reads the module-level
    [base_stations], which is the list of the world. *)
Definition allocation_round : M unit :=
  fun w =>
    (let* clients_by_slice :=
       group_by_slice (seq 0 (length (World.clients w))) [] in
     for_each (seq 0 (length (World.base_stations w)))
       (fun b =>
          let* base_station := base_station_at b in
          for_each (seq 0 (length (BaseStation.slices base_station)))
            (fun i =>
               let* slice_obj := slice_at (b, i) in
               let slice_clients :=
                 default [] (dict_get clients_by_slice
                                      (Slice.name slice_obj)) in
               let* bs_clients := attached_to b slice_clients in
               match bs_clients with
               | [] => ret tt
               | _ :: _ => dynamic_resource_allocation (b, i) bs_clients
               end))) w.

(** No client has the attribute [allocated_bandwidth], as is the case
    after [Client.__init__]. *)
Definition no_allocation_attribute (w : World.t) : Prop :=
  forall h c, World.clients w !! h = Some c ->
              Client.allocated_bandwidth c = None.

(** From a world without the attribute, the clients are what they
    were. *)
Definition clients_kept (w w' : World.t) : Prop :=
  no_allocation_attribute w -> World.clients w' = World.clients w.

(** From a world without the attribute, nothing at all has changed. *)
Definition untouched (w w' : World.t) : Prop :=
  no_allocation_attribute w -> w' = w.

(** From a world without the attribute, the clients are what they were
    and the slices differ at most in [active_clients]. *)
Definition round_kept (w w' : World.t) : Prop :=
  no_allocation_attribute w ->
  World.clients w' = World.clients w
  /\ forall h, exists l,
       the_slice w' h
       = (fun sl => Slice.set_active_clients sl l) <$> the_slice w h.

(** ** Stats.py: the figures of a tick *)

(** [a/b if b != 0 else 0] *)
Definition ratio_or_zero (a b : Q) : Res Q :=
  if negb (Qeq_bool b 0) then Py.div a b else Ok 0.

(** The pair [(t, cc)] at the end of the loop of
    [get_total_connected_users_ratio]: [c.connected] counts as 1 or 0. *)
Definition connected_tally (st : Stats.t) (clients : list Client.t)
  : Q * Q :=
  fold_left
    (fun acc c =>
       if is_client_in_coverage st c
       then (fst acc + (if Client.connected c then 1 else 0), snd acc + 1)
       else acc)
    clients (0, 0).

(** [Stats.get_total_connected_users_ratio]; [clients] is
    [self.clients]. *)
Definition get_total_connected_users_ratio (st : Stats.t)
    (clients : list Client.t) : Res Q :=
  let '(t, cc) := connected_tally st clients in
  ratio_or_zero t cc.

(** The slices in the order of [for bs in self.base_stations: for sl in
    bs.slices]. *)
Definition all_slices (base_stations : list BaseStation.t) : list Slice.t :=
  concat (map BaseStation.slices base_stations).

(** What is taken out of the container of a slice. *)
Definition used_bw (sl : Slice.t) : Q :=
  Container.capacity (Slice.capacity sl) - Container.level (Slice.capacity sl).

(** [Stats.get_total_used_bw] *)
Definition get_total_used_bw (base_stations : list BaseStation.t) : Q :=
  fold_left (fun t sl => t + used_bw sl) (all_slices base_stations) 0.

(** The pair [(t, c)] at the end of the loops of
    [get_avg_slice_load_ratio]. *)
Definition load_tally (base_stations : list BaseStation.t) : Q * Q :=
  fold_left
    (fun acc sl =>
       (fst acc + used_bw sl,
        snd acc + Container.capacity (Slice.capacity sl)))
    (all_slices base_stations) (0, 0).

(** [Stats.get_avg_slice_load_ratio] *)
Definition get_avg_slice_load_ratio (base_stations : list BaseStation.t)
  : Res Q :=
  let '(t, c) := load_tally base_stations in
  ratio_or_zero t c.

(** [Stats.get_avg_slice_client_count] *)
Definition get_avg_slice_client_count (base_stations : list BaseStation.t)
  : Res Q :=
  let '(t, c) :=
    fold_left
      (fun acc sl =>
         (fst acc + inject_Z (Slice.connected_users sl), snd acc + 1))
      (all_slices base_stations) (0, 0) in
  ratio_or_zero t c.

(** ** Stats.py: the series of the collector *)

Module Series.

(** [series.append(v)] for the series that [collect] extends, and the
    assignment of the per-slice averages. *)

Definition push_total_connected_users_ratio (r : Stats.t) (v : Q) : Stats.t :=
  Stats.mk (Stats.area r) (Stats.total_connected_users_ratio r ++ [v])
    (Stats.total_used_bw r) (Stats.avg_slice_load_ratio r)
    (Stats.avg_slice_client_count r) (Stats.coverage_ratio r)
    (Stats.connect_attempt r) (Stats.block_count r) (Stats.handover_count r)
    (Stats.avg_latency r) (Stats.avg_latency_per_slice r) (Stats.max_latency
    r) (Stats.min_latency r) (Stats.latency_sla_violations r)
    (Stats.handover_latencies r).

Definition push_total_used_bw (r : Stats.t) (v : Q) : Stats.t :=
  Stats.mk (Stats.area r) (Stats.total_connected_users_ratio r)
    (Stats.total_used_bw r ++ [v]) (Stats.avg_slice_load_ratio r)
    (Stats.avg_slice_client_count r) (Stats.coverage_ratio r)
    (Stats.connect_attempt r) (Stats.block_count r) (Stats.handover_count r)
    (Stats.avg_latency r) (Stats.avg_latency_per_slice r) (Stats.max_latency
    r) (Stats.min_latency r) (Stats.latency_sla_violations r)
    (Stats.handover_latencies r).

Definition push_avg_slice_load_ratio (r : Stats.t) (v : Q) : Stats.t :=
  Stats.mk (Stats.area r) (Stats.total_connected_users_ratio r)
    (Stats.total_used_bw r) (Stats.avg_slice_load_ratio r ++ [v])
    (Stats.avg_slice_client_count r) (Stats.coverage_ratio r)
    (Stats.connect_attempt r) (Stats.block_count r) (Stats.handover_count r)
    (Stats.avg_latency r) (Stats.avg_latency_per_slice r) (Stats.max_latency
    r) (Stats.min_latency r) (Stats.latency_sla_violations r)
    (Stats.handover_latencies r).

Definition push_avg_slice_client_count (r : Stats.t) (v : Q) : Stats.t :=
  Stats.mk (Stats.area r) (Stats.total_connected_users_ratio r)
    (Stats.total_used_bw r) (Stats.avg_slice_load_ratio r)
    (Stats.avg_slice_client_count r ++ [v]) (Stats.coverage_ratio r)
    (Stats.connect_attempt r) (Stats.block_count r) (Stats.handover_count r)
    (Stats.avg_latency r) (Stats.avg_latency_per_slice r) (Stats.max_latency
    r) (Stats.min_latency r) (Stats.latency_sla_violations r)
    (Stats.handover_latencies r).

Definition push_coverage_ratio (r : Stats.t) (v : Q) : Stats.t :=
  Stats.mk (Stats.area r) (Stats.total_connected_users_ratio r)
    (Stats.total_used_bw r) (Stats.avg_slice_load_ratio r)
    (Stats.avg_slice_client_count r) (Stats.coverage_ratio r ++ [v])
    (Stats.connect_attempt r) (Stats.block_count r) (Stats.handover_count r)
    (Stats.avg_latency r) (Stats.avg_latency_per_slice r) (Stats.max_latency
    r) (Stats.min_latency r) (Stats.latency_sla_violations r)
    (Stats.handover_latencies r).

Definition push_avg_latency (r : Stats.t) (v : Q) : Stats.t :=
  Stats.mk (Stats.area r) (Stats.total_connected_users_ratio r)
    (Stats.total_used_bw r) (Stats.avg_slice_load_ratio r)
    (Stats.avg_slice_client_count r) (Stats.coverage_ratio r)
    (Stats.connect_attempt r) (Stats.block_count r) (Stats.handover_count r)
    (Stats.avg_latency r ++ [v]) (Stats.avg_latency_per_slice r)
    (Stats.max_latency r) (Stats.min_latency r)
    (Stats.latency_sla_violations r) (Stats.handover_latencies r).

Definition push_max_latency (r : Stats.t) (v : Q) : Stats.t :=
  Stats.mk (Stats.area r) (Stats.total_connected_users_ratio r)
    (Stats.total_used_bw r) (Stats.avg_slice_load_ratio r)
    (Stats.avg_slice_client_count r) (Stats.coverage_ratio r)
    (Stats.connect_attempt r) (Stats.block_count r) (Stats.handover_count r)
    (Stats.avg_latency r) (Stats.avg_latency_per_slice r) (Stats.max_latency
    r ++ [v]) (Stats.min_latency r) (Stats.latency_sla_violations r)
    (Stats.handover_latencies r).

Definition push_min_latency (r : Stats.t) (v : Q) : Stats.t :=
  Stats.mk (Stats.area r) (Stats.total_connected_users_ratio r)
    (Stats.total_used_bw r) (Stats.avg_slice_load_ratio r)
    (Stats.avg_slice_client_count r) (Stats.coverage_ratio r)
    (Stats.connect_attempt r) (Stats.block_count r) (Stats.handover_count r)
    (Stats.avg_latency r) (Stats.avg_latency_per_slice r) (Stats.max_latency
    r) (Stats.min_latency r ++ [v]) (Stats.latency_sla_violations r)
    (Stats.handover_latencies r).

Definition push_latency_sla_violations (r : Stats.t) (v : Q) : Stats.t :=
  Stats.mk (Stats.area r) (Stats.total_connected_users_ratio r)
    (Stats.total_used_bw r) (Stats.avg_slice_load_ratio r)
    (Stats.avg_slice_client_count r) (Stats.coverage_ratio r)
    (Stats.connect_attempt r) (Stats.block_count r) (Stats.handover_count r)
    (Stats.avg_latency r) (Stats.avg_latency_per_slice r) (Stats.max_latency
    r) (Stats.min_latency r) (Stats.latency_sla_violations r ++ [v])
    (Stats.handover_latencies r).

Definition set_avg_latency_per_slice (r : Stats.t) (v : list (string * list Q)) : Stats.t :=
  Stats.mk (Stats.area r) (Stats.total_connected_users_ratio r)
    (Stats.total_used_bw r) (Stats.avg_slice_load_ratio r)
    (Stats.avg_slice_client_count r) (Stats.coverage_ratio r)
    (Stats.connect_attempt r) (Stats.block_count r) (Stats.handover_count r)
    (Stats.avg_latency r) v (Stats.max_latency r) (Stats.min_latency r)
    (Stats.latency_sla_violations r) (Stats.handover_latencies r).

End Series.

(** ** Client.py: the attributes that the phases of a cycle write *)

Module Attr.


Definition set_x (r : Client.t) (v : Q) : Client.t :=
  Client.mk (Client.pk r) v (Client.y r) (Client.usage_freq r)
    (Client.base_station r) (Client.subscribed_slice_index r)
    (Client.usage_remaining r) (Client.last_usage r)
    (Client.closest_base_stations r) (Client.connected r)
    (Client.total_connected_time r) (Client.total_unconnected_time r)
    (Client.total_request_count r) (Client.total_consume_time r)
    (Client.total_usage r) (Client.request_start_time r) (Client.latencies
    r) (Client.avg_latency r) (Client.last_latency r) (Client.max_latency r)
    (Client.min_latency r) (Client.handover_count r)
    (Client.handover_latencies r) (Client.allocated_bandwidth r).

Definition set_y (r : Client.t) (v : Q) : Client.t :=
  Client.mk (Client.pk r) (Client.x r) v (Client.usage_freq r)
    (Client.base_station r) (Client.subscribed_slice_index r)
    (Client.usage_remaining r) (Client.last_usage r)
    (Client.closest_base_stations r) (Client.connected r)
    (Client.total_connected_time r) (Client.total_unconnected_time r)
    (Client.total_request_count r) (Client.total_consume_time r)
    (Client.total_usage r) (Client.request_start_time r) (Client.latencies
    r) (Client.avg_latency r) (Client.last_latency r) (Client.max_latency r)
    (Client.min_latency r) (Client.handover_count r)
    (Client.handover_latencies r) (Client.allocated_bandwidth r).

Definition set_total_connected_time (r : Client.t) (v : Q) : Client.t :=
  Client.mk (Client.pk r) (Client.x r) (Client.y r) (Client.usage_freq r)
    (Client.base_station r) (Client.subscribed_slice_index r)
    (Client.usage_remaining r) (Client.last_usage r)
    (Client.closest_base_stations r) (Client.connected r) v
    (Client.total_unconnected_time r) (Client.total_request_count r)
    (Client.total_consume_time r) (Client.total_usage r)
    (Client.request_start_time r) (Client.latencies r) (Client.avg_latency
    r) (Client.last_latency r) (Client.max_latency r) (Client.min_latency r)
    (Client.handover_count r) (Client.handover_latencies r)
    (Client.allocated_bandwidth r).

Definition set_total_unconnected_time (r : Client.t) (v : Q) : Client.t :=
  Client.mk (Client.pk r) (Client.x r) (Client.y r) (Client.usage_freq r)
    (Client.base_station r) (Client.subscribed_slice_index r)
    (Client.usage_remaining r) (Client.last_usage r)
    (Client.closest_base_stations r) (Client.connected r)
    (Client.total_connected_time r) v (Client.total_request_count r)
    (Client.total_consume_time r) (Client.total_usage r)
    (Client.request_start_time r) (Client.latencies r) (Client.avg_latency
    r) (Client.last_latency r) (Client.max_latency r) (Client.min_latency r)
    (Client.handover_count r) (Client.handover_latencies r)
    (Client.allocated_bandwidth r).

End Attr.

(** ** Stats.py: the tick of the collector *)

(** Reading the collector. *)
Definition collector : M Stats.t := fun w => (Ok (World.stats w), w, []).

(** A method of the collector that reads the world and leaves a new
    state of the collector, or raises and leaves it as it was. *)
Definition stats_step (f : World.t -> Res Stats.t) : M unit :=
  fun w =>
    match f w with
    | Ok st => (Ok tt, World.set_stats w st, [])
    | Raise e => (Raise e, w, [])
    end.

(** [d[-1] if d[-1] != 0 else 1] *)
Definition attempts_or_one (connect_attempt : list Q) : Res Q :=
  match last connect_attempt with
  | None => Raise IndexError
  | Some a => Ok (if negb (Qeq_bool a 0) then a else 1)
  end.

(** [l[-1] /= d] *)
Definition div_last (l : list Q) (d : Res Q) : Res (list Q) :=
  match last l with
  | None => Raise IndexError
  | Some a =>
      let! d := d in
      let! q := Py.div a d in
      Ok (<[pred (length l) := q]> l)
  end.

(** [if k not in d: d[k] = v] *)
Fixpoint dict_setdefault {V} (d : list (string * V)) (k : string) (v : V)
  : list (string * V) :=
  match d with
  | [] => [(k, v)]
  | (k', v') :: d' =>
      if String.eqb k' k then d else (k', v') :: dict_setdefault d' k v
  end.

(** [if k in d: d[k].append(x)] *)
Fixpoint dict_push {V} (d : list (string * list V)) (k : string) (x : V)
  : list (string * list V) :=
  match d with
  | [] => []
  | (k', v) :: d' =>
      if String.eqb k' k then (k', v ++ [x]) :: d'
      else (k', v) :: dict_push d' k x
  end.

(** The loop over the clients in [collect_latency_stats]; its state is
    [all_latencies], [sla_violations] and [slice_latencies].  Every
    client has the attribute [latencies]. *)
Fixpoint latest_latencies (handles : list nat)
    (acc : list Q * Q * list (string * list Q))
  : M (list Q * Q * list (string * list Q)) :=
  match handles with
  | [] => ret acc
  | h :: rest =>
      let* c := client h in
      match last (Client.latencies c) with
      | None => latest_latencies rest acc
      | Some latest_latency =>
          let* st := collector in
          if negb (is_client_in_coverage st c) then latest_latencies rest acc
          else
            let all_latencies := fst (fst acc) ++ [latest_latency] in
            let* slice_latencies :=
              match Client.base_station c with
              | Some _ =>
                  let* s := get_slice h in
                  let* sh := deref s in
                  let* sl := slice_at sh in
                  ret (dict_push (snd acc) (Slice.name sl) latest_latency)
              | None => ret (snd acc)
              end in
            let* s := get_slice h in
            let* sla_violations :=
              match s with
              | Some _ =>
                  let* _ := get_slice h in
                  let* s := get_slice h in
                  let* sh := deref s in
                  let* sl := slice_at sh in
                  ret (if lt_b (Slice.delay_tolerance sl) latest_latency
                       then snd (fst acc) + 1
                       else snd (fst acc))
              | None => ret (snd (fst acc))
              end in
            latest_latencies rest
              (all_latencies, sla_violations, slice_latencies)
      end
  end.

(** [sum(1 for c in self.clients if self.is_client_in_coverage(c))] *)
Definition clients_in_area (st : Stats.t) (clients : list Client.t) : Q :=
  Py.len (filter (fun c => is_client_in_coverage st c = true) clients).

(** [max(l)] and [min(l)] of a list that is not empty. *)
Definition max_of (a : Q) (l : list Q) : Q := fold_left Py.max l a.
Definition min_of (a : Q) (l : list Q) : Q := fold_left Py.min l a.

(** [sum(l) / len(l) if l else 0] *)
Definition mean_or_zero (l : list Q) : Res Q :=
  match l with
  | [] => Ok 0
  | _ :: _ => Py.div (Py.sum l) (Py.len l)
  end.

(** The last loop of [collect_latency_stats]: one more average for every
    slice name. *)
Fixpoint push_slice_averages (items : list (string * list Q))
    (avg_latency_per_slice : list (string * list Q))
  : Res (list (string * list Q)) :=
  match items with
  | [] => Ok avg_latency_per_slice
  | (slice_name, latencies) :: rest =>
      let d := dict_setdefault avg_latency_per_slice slice_name [] in
      let! avg := mean_or_zero latencies in
      push_slice_averages rest (dict_push d slice_name avg)
  end.

(** [Stats.collect_latency_stats].  The appends that no exception can
    separate are made in one step. *)
Definition collect_latency_stats : M unit :=
  fun w =>
    match World.clients w with
    | [] =>
        stats_step
          (fun w =>
             Ok (Series.push_latency_sla_violations
                   (Series.push_min_latency
                      (Series.push_max_latency
                         (Series.push_avg_latency (World.stats w) 0) 0) 0)
                   0)) w
    | _ :: _ =>
        (let slice_latencies :=
           fold_left (fun d sl => dict_setdefault d (Slice.name sl) [])
                     (all_slices (World.base_stations w)) [] in
         let* found :=
           latest_latencies (seq 0 (length (World.clients w)))
                            ([], 0, slice_latencies) in
         let all_latencies := fst (fst found) in
         let sla_violations := snd (fst found) in
         let slice_latencies := snd found in
         let* _ :=
           stats_step
             (fun w =>
                match all_latencies with
                | [] =>
                    Ok (Series.push_min_latency
                          (Series.push_max_latency
                             (Series.push_avg_latency (World.stats w) 0) 0)
                          0)
                | a :: rest =>
                    let! avg := Py.div (Py.sum all_latencies)
                                       (Py.len all_latencies) in
                    Ok (Series.push_min_latency
                          (Series.push_max_latency
                             (Series.push_avg_latency (World.stats w) avg)
                             (max_of a rest))
                          (min_of a rest))
                end) in
         let* _ :=
           stats_step
             (fun w =>
                let total_clients :=
                  clients_in_area (World.stats w) (World.clients w) in
                let! rate :=
                  if lt_b 0 total_clients
                  then Py.div sla_violations total_clients
                  else Ok 0 in
                Ok (Series.push_latency_sla_violations (World.stats w)
                      rate)) in
         stats_step
           (fun w =>
              let! d := push_slice_averages slice_latencies
                          (Stats.avg_latency_per_slice (World.stats w)) in
              Ok (Series.set_avg_latency_per_slice (World.stats w) d))) w
    end.

Section Phases.

(** [utils.distance], as for the engine. *)
Variable distance : Q * Q -> Q * Q -> Q.

(** Modelled from the spec: [Coverage.py] is not among the sources;
    [is_in_coverage] is the point-in-disk test. *)
Definition is_in_coverage (cov : Coverage.t) (x y : Q) : bool :=
  le_b (distance (x, y) (Coverage.center cov)) (Coverage.radius cov).

(** The pair [(t, cc)] at the end of the loop of [get_coverage_ratio]. *)
Fixpoint coverage_tally (st : Stats.t) (base_stations : list BaseStation.t)
    (clients : list Client.t) (acc : Q * Q) : Res (Q * Q) :=
  match clients with
  | [] => Ok acc
  | c :: rest =>
      if is_client_in_coverage st c then
        let! covered :=
          match Client.base_station c with
          | Some b =>
              match base_stations !! b with
              | Some bs =>
                  Ok (is_in_coverage (BaseStation.coverage bs)
                        (Client.x c) (Client.y c))
              | None => Raise DanglingReference
              end
          | None => Ok false
          end in
        coverage_tally st base_stations rest
          (fst acc + (if covered then 1 else 0), snd acc + 1)
      else coverage_tally st base_stations rest acc
  end.

(** [Stats.get_coverage_ratio] *)
Definition get_coverage_ratio (st : Stats.t)
    (base_stations : list BaseStation.t) (clients : list Client.t)
  : Res Q :=
  let! tally := coverage_tally st base_stations clients (0, 0) in
  ratio_or_zero (fst tally) (snd tally).

(** The body of [while True] in [Stats.collect], up to the [yield]. *)
Definition collect_tick : M unit :=
  let* _ :=
    stats_step
      (fun w =>
         let st := World.stats w in
         let! l := div_last (Stats.block_count st)
                     (attempts_or_one (Stats.connect_attempt st)) in
         Ok (Stats.set_block_count st l)) in
  let* _ :=
    stats_step
      (fun w =>
         let st := World.stats w in
         let! l := div_last (Stats.handover_count st)
                     (attempts_or_one (Stats.connect_attempt st)) in
         Ok (Stats.set_handover_count st l)) in
  let* _ :=
    stats_step
      (fun w =>
         let! q := get_total_connected_users_ratio (World.stats w)
                     (World.clients w) in
         Ok (Series.push_total_connected_users_ratio (World.stats w) q)) in
  let* _ :=
    stats_step
      (fun w =>
         Ok (Series.push_total_used_bw (World.stats w)
               (get_total_used_bw (World.base_stations w)))) in
  let* _ :=
    stats_step
      (fun w =>
         let! q := get_avg_slice_load_ratio (World.base_stations w) in
         Ok (Series.push_avg_slice_load_ratio (World.stats w) q)) in
  let* _ :=
    stats_step
      (fun w =>
         let! q := get_avg_slice_client_count (World.base_stations w) in
         Ok (Series.push_avg_slice_client_count (World.stats w) q)) in
  let* _ :=
    stats_step
      (fun w =>
         let! q := get_coverage_ratio (World.stats w)
                     (World.base_stations w) (World.clients w) in
         Ok (Series.push_coverage_ratio (World.stats w) q)) in
  let* _ := collect_latency_stats in
  stats_step
    (fun w =>
       let st := World.stats w in
       Ok (Stats.set_handover_count
             (Stats.set_block_count
                (Stats.set_connect_attempt st
                   (Stats.connect_attempt st ++ [0]))
                (Stats.block_count st ++ [0]))
             (Stats.handover_count st ++ [0]))).

(** ** Client.py: the phases of a cycle *)

(** The last branch of the Lock phase, [generate_usage_and_connect],
    draws from [random] and from the [Distributor] of the slice, which
    are not among the sources; the phase is parametrised by it. *)
Variable generate_usage_and_connect : nat -> M unit.

(** [.00: Lock] *)
Definition lock_phase (self : nat) : M unit :=
  let* c := client self in
  match Client.base_station c with
  | Some _ =>
      if lt_b 0 (Client.usage_remaining c) then
        if Client.connected c then start_consume self
        else
          let* now := get_now in
          let* _ := update_client self
                      (fun c => Client.set_request_start_time c now) in
          let* _ := connect distance self in
          ret tt
      else
        if Client.connected c then
          let* _ := disconnect self in
          ret tt
        else generate_usage_and_connect self
  | None => ret tt
  end.

(** [.25: Stats] *)
Definition stats_phase (self : nat) : M unit :=
  let* c := client self in
  if Client.connected c then
    update_client self
      (fun c => Attr.set_total_connected_time c
                  (Client.total_connected_time c + (1 # 4)))
  else
    update_client self
      (fun c => Attr.set_total_unconnected_time c
                  (Client.total_unconnected_time c + (1 # 4))).

(** [.50: Release] *)
Definition release_phase (self : nat) : M unit :=
  let* c := client self in
  if Client.connected c && lt_b 0 (Client.last_usage c) then
    let* _ := release_consume self in
    let* c := client self in
    if le_b (Client.usage_remaining c) 0 then
      let* _ := disconnect self in
      ret tt
    else ret tt
  else ret tt.

(** [.75: Move]; [(dx, dy)] is the sample
    [self.mobility_pattern.generate_movement()]. *)
Definition move_phase (self : nat) (dx dy : Q) : M unit :=
  let* _ := update_client self
              (fun c => Attr.set_x c (Client.x c + dx)) in
  let* _ := update_client self
              (fun c => Attr.set_y c (Client.y c + dy)) in
  let* c := client self in
  match Client.base_station c with
  | Some b =>
      let* bs := base_station_at b in
      if negb (is_in_coverage (BaseStation.coverage bs)
                 (Client.x c) (Client.y c))
      then
        let* handover_start_time := get_now in
        let old_bs := bs in
        let* _ := disconnect self in
        let* _ := assign_closest_base_station distance self
                    (Some [BaseStation.pk old_bs]) in
        let* c := client self in
        match Client.base_station c with
        | Some _ =>
            let* now := get_now in
            let handover_latency := now - handover_start_time in
            let* _ := update_client self
                        (fun c => Client.set_handover_latencies c
                                    (Client.handover_latencies c
                                     ++ [handover_latency])) in
            update_client self
              (fun c => Client.set_handover_count c
                          (Client.handover_count c + 1)%Z)
        | None => ret tt
        end
      else ret tt
  | None => assign_closest_base_station distance self None
  end.

End Phases.

(** [Client.get_qos_metrics]: the values of the dictionary, in the order
    of its keys. *)
Definition get_qos_metrics (c : Client.t) : Res (Q * Q * Q * Z * Q * Q) :=
  let min_latency := default 0 (Client.min_latency c) in
  let! avg_handover_latency := mean_or_zero (Client.handover_latencies c) in
  let total :=
    Client.total_connected_time c + Client.total_unconnected_time c in
  let! connected_ratio :=
    if lt_b 0 total then Py.div (Client.total_connected_time c) total
    else Ok 0 in
  Ok (Client.avg_latency c, Client.max_latency c, min_latency,
      Client.handover_count c, avg_handover_latency, connected_ratio).

(** ** Well-formed attachments *)

(** Every client that has a base station has one of the world, with a
    slice at the client's index. *)
Definition attached (w : World.t) : Prop :=
  forall h c b,
    World.clients w !! h = Some c ->
    Client.base_station c = Some b ->
    is_Some (the_slice w (b, Client.subscribed_slice_index c)).

(** Between [w] and [w'] the four latency series have grown by the
    figures given, and nothing else has moved but the per-slice
    averages. *)
Definition latency_figures (w w' : World.t) (avg mx mn rate : Q) : Prop :=
  World.clients w' = World.clients w
  /\ World.base_stations w' = World.base_stations w
  /\ World.now w' = World.now w
  /\ Stats.avg_latency (World.stats w')
     = Stats.avg_latency (World.stats w) ++ [avg]
  /\ Stats.max_latency (World.stats w')
     = Stats.max_latency (World.stats w) ++ [mx]
  /\ Stats.min_latency (World.stats w')
     = Stats.min_latency (World.stats w) ++ [mn]
  /\ Stats.latency_sla_violations (World.stats w')
     = Stats.latency_sla_violations (World.stats w) ++ [rate]
  /\ Stats.connect_attempt (World.stats w')
     = Stats.connect_attempt (World.stats w)
  /\ Stats.block_count (World.stats w') = Stats.block_count (World.stats w)
  /\ Stats.handover_count (World.stats w')
     = Stats.handover_count (World.stats w)
  /\ Stats.area (World.stats w') = Stats.area (World.stats w)
  /\ Stats.total_connected_users_ratio (World.stats w')
     = Stats.total_connected_users_ratio (World.stats w)
  /\ Stats.total_used_bw (World.stats w')
     = Stats.total_used_bw (World.stats w)
  /\ Stats.avg_slice_load_ratio (World.stats w')
     = Stats.avg_slice_load_ratio (World.stats w)
  /\ Stats.avg_slice_client_count (World.stats w')
     = Stats.avg_slice_client_count (World.stats w)
  /\ Stats.coverage_ratio (World.stats w')
     = Stats.coverage_ratio (World.stats w)
  /\ Stats.handover_latencies (World.stats w')
     = Stats.handover_latencies (World.stats w).

(** ** Sample states of the collector *)

(** The busy client after two measurements, the latest above the
    tolerance of its slice. *)
Definition served_client : Client.t :=
  Client.set_latencies busy_client [1 # 2; 6].

(** The lengths of the series that [collect] extends and of the three
    counter lists. *)
Definition series_lengths (st : Stats.t) : list nat :=
  [length (Stats.total_connected_users_ratio st);
   length (Stats.total_used_bw st);
   length (Stats.avg_slice_load_ratio st);
   length (Stats.avg_slice_client_count st);
   length (Stats.coverage_ratio st);
   length (Stats.connect_attempt st);
   length (Stats.block_count st);
   length (Stats.handover_count st);
   length (Stats.avg_latency st);
   length (Stats.max_latency st);
   length (Stats.min_latency st);
   length (Stats.latency_sla_violations st)].

(** The divisor of the two ratios of a period with [a] attempts. *)
Definition period_divisor (a : Q) : Q := if negb (Qeq_bool a 0) then a else 1.

(** Between [w] and [w'] the collector has closed a period that counted
    [a] attempts, [b] blocks and [h] handovers. *)
Definition tick_closed (w w' : World.t) (a b h : Q) : Prop :=
  World.clients w' = World.clients w
  /\ World.base_stations w' = World.base_stations w
  /\ World.now w' = World.now w
  /\ Stats.connect_attempt (World.stats w')
     = Stats.connect_attempt (World.stats w) ++ [0]
  /\ Stats.block_count (World.stats w')
     = <[pred (length (Stats.block_count (World.stats w)))
         := b / period_divisor a]> (Stats.block_count (World.stats w))
       ++ [0]
  /\ Stats.handover_count (World.stats w')
     = <[pred (length (Stats.handover_count (World.stats w)))
         := h / period_divisor a]> (Stats.handover_count (World.stats w))
       ++ [0]
  /\ series_lengths (World.stats w')
     = S <$> series_lengths (World.stats w)
  /\ Stats.total_used_bw (World.stats w')
     = Stats.total_used_bw (World.stats w)
       ++ [get_total_used_bw (World.base_stations w)]
  /\ exists connected_ratio coverage_ratio,
       Stats.total_connected_users_ratio (World.stats w')
       = Stats.total_connected_users_ratio (World.stats w)
         ++ [connected_ratio]
       /\ 0 <= connected_ratio <= 1
       /\ Stats.coverage_ratio (World.stats w')
          = Stats.coverage_ratio (World.stats w) ++ [coverage_ratio]
       /\ 0 <= coverage_ratio <= 1.

(** The one-cell world at the end of a period that counted four
    attempts, one block and two handovers. *)
Definition period_end : World.t :=
  World.set_stats (one_cell served_client)
    (Stats.set_handover_count
       (Stats.set_block_count
          (Stats.set_connect_attempt fresh_stats [4])
          [1])
       [2]).

(** A connected client that owes 5 units and holds 5, in a cell whose
    slice has handed out 5 of its 10 units. *)
Definition holding_client : Client.t :=
  Client.set_last_usage (Client.set_connected waiting_client true) 5.

Definition drained_slice : Slice.t :=
  Slice.set_capacity lowlat_slice (Container.mk 10 5 [] []).

Definition serving_cell : World.t :=
  World.mk 1
    [BaseStation.mk 0 (Coverage.mk (0, 0) 10) 10 [drained_slice]]
    [holding_client]
    (World.stats (one_cell holding_client))
    0 1.

(** ** Handovers take no time *)

(** From a world at the time [t]: the clock has not moved, every client
    is still there, and each has the handover latencies it had,
    followed by entries that are all zero. *)
Definition handovers_instant (t : Q) (w w' : World.t) : Prop :=
  World.now w = t ->
  World.now w' = t
  /\ forall h c, World.clients w !! h = Some c ->
       exists c' l,
         World.clients w' !! h = Some c'
         /\ Client.handover_latencies c' = Client.handover_latencies c ++ l
         /\ Forall (fun x => x == 0) l.

(** * Properties *)

(** ** Python arithmetic *)

Lemma lt_b_true (a b : Q) : lt_b a b = true <-> a < b.
Proof.
  unfold lt_b. rewrite negb_true_iff, <- not_true_iff_false, Qle_bool_iff.
  split; [apply Qnot_le_lt | apply Qlt_not_le].
Qed.

Lemma lt_b_false (a b : Q) : lt_b a b = false <-> b <= a.
Proof.
  unfold lt_b. rewrite negb_false_iff. apply Qle_bool_iff.
Qed.

Lemma le_b_true (a b : Q) : le_b a b = true <-> a <= b.
Proof. apply Qle_bool_iff. Qed.

Lemma le_b_false (a b : Q) : le_b a b = false <-> b < a.
Proof.
  unfold le_b. rewrite <- not_true_iff_false, Qle_bool_iff.
  split; [apply Qnot_le_lt | apply Qlt_not_le].
Qed.

Lemma min_cases (a b : Q) :
  (b < a /\ Py.min a b = b) \/ (a <= b /\ Py.min a b = a).
Proof.
  unfold Py.min. destruct (lt_b b a) eqn:E.
  - left. split; [now apply lt_b_true | reflexivity].
  - right. split; [now apply lt_b_false | reflexivity].
Qed.

Lemma max_cases (a b : Q) :
  (a < b /\ Py.max a b = b) \/ (b <= a /\ Py.max a b = a).
Proof.
  unfold Py.max. destruct (lt_b a b) eqn:E.
  - left. split; [now apply lt_b_true | reflexivity].
  - right. split; [now apply lt_b_false | reflexivity].
Qed.

Lemma min_le_l (a b : Q) : Py.min a b <= a.
Proof. destruct (min_cases a b) as [[H ->] | [H ->]]; lra. Qed.

Lemma min_le_r (a b : Q) : Py.min a b <= b.
Proof. destruct (min_cases a b) as [[H ->] | [H ->]]; lra. Qed.

Lemma div_ok (a b : Q) : ~ b == 0 -> Py.div a b = Ok (a / b).
Proof.
  intros H. unfold Py.div. destruct (Qeq_bool b 0) eqn:E; [| reflexivity].
  apply Qeq_bool_iff in E. contradiction.
Qed.

Lemma len_nonzero {A} (l : list A) : l <> [] -> ~ Py.len l == 0.
Proof.
  intros H E. destruct l as [| a l]; [congruence |].
  unfold Py.len, Qeq in E. simpl in E. lia.
Qed.

Lemma length_last_n {A} (n : nat) (l : list A) :
  length (last_n n l) = Nat.min n (length l).
Proof. unfold last_n. rewrite length_skipn. lia. Qed.

(** ** Admission *)

Lemma users_succ (s : Slice.t) :
  inject_Z (Slice.connected_users s + 1)
  == inject_Z (Slice.connected_users s) + 1.
Proof. rewrite inject_Z_plus. reflexivity. Qed.

(** [is_avaliable] answers [False] in two cases and in no other: the
    share of one more user would fall below the guarantee, or the slice
    is under latency pressure and already holds [real_cap / (1.5 *
    guaranteed)] users. *)
Lemma is_avaliable_false_iff (s : Slice.t) :
  0 < inject_Z (Slice.connected_users s) + 1 ->
  is_avaliable s = Ok false <->
  (available_cap s
     < Slice.bandwidth_guaranteed s * (inject_Z (Slice.connected_users s) + 1)
   \/ (latency_pressure s
       /\ ~ Slice.bandwidth_guaranteed s == 0
       /\ real_cap s / (Slice.bandwidth_guaranteed s * (15 # 10))
          <= inject_Z (Slice.connected_users s))).
Proof.
  intros Hpos. unfold is_avaliable, latency_pressure.
  fold (real_cap s). fold (available_cap s).
  set (users := inject_Z (Slice.connected_users s)) in *.
  assert (E : inject_Z (Slice.connected_users s + 1) == users + 1)
    by apply users_succ.
  rewrite div_ok by (rewrite E; lra). simpl res_bind.
  assert (Hdiv : available_cap s / inject_Z (Slice.connected_users s + 1)
                 < Slice.bandwidth_guaranteed s
                 <-> available_cap s
                     < Slice.bandwidth_guaranteed s * (users + 1)).
  { rewrite E. split; intros H.
    - apply Qnot_le_lt. intros C. apply (Qle_shift_div_l _ _ _ Hpos) in C. lra.
    - now apply Qlt_shift_div_r. }
  destruct (lt_b _ (Slice.bandwidth_guaranteed s)) eqn:E1.
  { apply lt_b_true in E1. apply Hdiv in E1. tauto. }
  apply lt_b_false in E1.
  assert (N1 : ~ available_cap s
                 < Slice.bandwidth_guaranteed s * (users + 1)).
  { intros C. apply Hdiv in C. lra. }
  destruct (Slice.qos_class s <=? 2)%Z eqn:E2; simpl andb.
  2:{ apply Z.leb_gt in E2. split; [discriminate | intros [C | [[C _] _]]];
      [contradiction | lia]. }
  apply Z.leb_le in E2.
  destruct (lt_b _ (Slice.avg_latency s)) eqn:E3.
  2:{ apply lt_b_false in E3. split; [discriminate |].
      intros [C | [[_ C] _]]; [contradiction | lra]. }
  apply lt_b_true in E3.
  unfold Py.div.
  destruct (Qeq_bool (Slice.bandwidth_guaranteed s * (15 # 10)) 0) eqn:E4.
  { apply Qeq_bool_iff in E4. simpl. split; [discriminate |].
    intros [C | [_ [C _]]]; [contradiction |]. exfalso. apply C. lra. }
  apply Qeq_bool_neq in E4. simpl res_bind.
  destruct (le_b _ users) eqn:E5.
  - apply le_b_true in E5. split; [intros _ | reflexivity]. right.
    repeat split; try assumption. intros C. apply E4. lra.
  - apply le_b_false in E5. split; [discriminate |].
    intros [C | [_ [_ C]]]; [contradiction | lra].
Qed.

(** Without a zero divisor, [is_avaliable] returns. *)
Lemma is_avaliable_returns (s : Slice.t) :
  ~ inject_Z (Slice.connected_users s) + 1 == 0 ->
  ~ Slice.bandwidth_guaranteed s == 0 ->
  exists b, is_avaliable s = Ok b.
Proof.
  intros H1 H2. unfold is_avaliable.
  rewrite div_ok by (rewrite users_succ; exact H1). simpl res_bind.
  destruct (lt_b _ (Slice.bandwidth_guaranteed s)); [eauto |].
  destruct (_ && _); [| eauto].
  rewrite div_ok.
  - simpl res_bind. destruct (le_b _ _); eauto.
  - intros C. apply H2. lra.
Qed.

(** C2. [is_avaliable] answers [False] exactly when the share of one
    more user of the pool [min(init_capacity, bandwidth_max) -
    reserved_capacity] falls below [bandwidth_guaranteed], or
    [qos_class <= 2], [avg_latency > 0.7 * delay_tolerance] and
    [connected_users >= min(init_capacity, bandwidth_max) / (1.5 *
    bandwidth_guaranteed)]; otherwise it answers [True].  The threshold
    of the second test is taken on the capacity before the reservation
    is subtracted.  The user count is a count and the guarantee is not
    zero, so that no division raises. *)
Theorem is_avaliable_spec (s : Slice.t) :
  (0 <= Slice.connected_users s)%Z ->
  ~ Slice.bandwidth_guaranteed s == 0 ->
  exists b : bool,
    is_avaliable s = Ok b
    /\ (b = false <->
        (available_cap s / (inject_Z (Slice.connected_users s) + 1)
           < Slice.bandwidth_guaranteed s
         \/ ((Slice.qos_class s <= 2)%Z
             /\ (7 # 10) * Slice.delay_tolerance s < Slice.avg_latency s
             /\ real_cap s / ((15 # 10) * Slice.bandwidth_guaranteed s)
                <= inject_Z (Slice.connected_users s)))).
Proof.
  intros Hu Hg.
  assert (Hpos : 0 < inject_Z (Slice.connected_users s) + 1).
  { assert (0 <= inject_Z (Slice.connected_users s))
      by (rewrite <- (Zle_Qle 0); exact Hu). lra. }
  destruct (is_avaliable_returns s) as [b Hb]; [lra | exact Hg |].
  exists b. split; [exact Hb |].
  assert (Hthr : real_cap s / ((15 # 10) * Slice.bandwidth_guaranteed s)
                 == real_cap s / (Slice.bandwidth_guaranteed s * (15 # 10))).
  { apply Qdiv_comp; [reflexivity | ring]. }
  assert (Hdiv : available_cap s / (inject_Z (Slice.connected_users s) + 1)
                 < Slice.bandwidth_guaranteed s
                 <-> available_cap s
                     < Slice.bandwidth_guaranteed s
                       * (inject_Z (Slice.connected_users s) + 1)).
  { split; intros H.
    - apply Qnot_le_lt. intros C. apply (Qle_shift_div_l _ _ _ Hpos) in C. lra.
    - now apply Qlt_shift_div_r. }
  rewrite Hdiv, Hthr.
  pose proof (is_avaliable_false_iff s Hpos) as Hiff.
  unfold latency_pressure in Hiff. rewrite Hb in Hiff.
  split.
  - intros ->. destruct Hiff as [Hiff _].
    destruct (Hiff eq_refl) as [H | [[H1 H2] [_ H3]]];
      [now left | right; tauto].
  - intros H. destruct Hiff as [_ Hiff].
    assert (E : Ok b = Ok false) by (apply Hiff; tauto).
    congruence.
Qed.

(** C4. Admission is monotone: a slice that refuses a new user still
    refuses one when more users are connected and more capacity is
    reserved, everything else being the same. *)
Theorem admission_monotone (s : Slice.t) (users' : Z) (reserved' : Q) :
  0 <= Slice.bandwidth_guaranteed s ->
  (0 <= Slice.connected_users s)%Z ->
  (Slice.connected_users s <= users')%Z ->
  Slice.reserved_capacity s <= reserved' ->
  is_avaliable s = Ok false ->
  is_avaliable
    (Slice.set_reserved_capacity (Slice.set_connected_users s users')
                                 reserved')
  = Ok false.
Proof.
  intros Hg Hu Hle Hr Hfalse.
  assert (H0 : 0 <= inject_Z (Slice.connected_users s))
    by (rewrite <- (Zle_Qle 0); exact Hu).
  assert (H1 : inject_Z (Slice.connected_users s) <= inject_Z users')
    by (rewrite <- Zle_Qle; exact Hle).
  apply is_avaliable_false_iff in Hfalse; [| lra].
  apply is_avaliable_false_iff; simpl Slice.connected_users; [lra |].
  unfold available_cap, real_cap, latency_pressure in *. simpl.
  destruct Hfalse as [H | [Hp [Hnz Hthr]]].
  - left.
    assert (Slice.bandwidth_guaranteed s
              * (inject_Z (Slice.connected_users s) + 1)
            <= Slice.bandwidth_guaranteed s * (inject_Z users' + 1)).
    { nra. }
    lra.
  - right. repeat split; try tauto. lra.
Qed.

Lemma is_avaliable_spec_witness :
  exists b : bool,
    is_avaliable urllc_loaded = Ok b
    /\ (b = false <->
        (available_cap urllc_loaded
           / (inject_Z (Slice.connected_users urllc_loaded) + 1)
           < Slice.bandwidth_guaranteed urllc_loaded
         \/ ((Slice.qos_class urllc_loaded <= 2)%Z
             /\ (7 # 10) * Slice.delay_tolerance urllc_loaded
                < Slice.avg_latency urllc_loaded
             /\ real_cap urllc_loaded
                / ((15 # 10) * Slice.bandwidth_guaranteed urllc_loaded)
                <= inject_Z (Slice.connected_users urllc_loaded)))).
Proof.
  apply (is_avaliable_spec urllc_loaded); simpl; [lia | lra].
Defined.

(** The specification's reading of C2 fails on [urllc_loaded]: 18 users
    reach the threshold [27 / 1.5] taken on the pool, the code compares
    with [30 / 1.5] and admits. *)
Lemma spec_rejects_but_admitted :
  spec_rejects urllc_loaded /\ is_avaliable urllc_loaded = Ok true.
Proof.
  split; [| reflexivity].
  unfold spec_rejects. right. vm_compute. intuition discriminate.
Qed.

Lemma admission_monotone_witness :
  is_avaliable
    (Slice.set_reserved_capacity (Slice.set_connected_users embb_full 12)
                                 1)
  = Ok false.
Proof.
  apply (admission_monotone embb_full 12 1); simpl;
    [lra | lia | lia | lra | reflexivity].
Defined.

(** ** Latency history and reservation *)

(** The three outcomes of the adaptation for the reservation [r] of a
    slice of capacity [init]: unchanged, raised, lowered. *)
Lemma adapt_reserved_capacity_ok (s : Slice.t) :
  exists s',
    _adapt_reserved_capacity s = Ok s'
    /\ Slice.latency_history s' = Slice.latency_history s
    /\ Slice.init_capacity s' = Slice.init_capacity s
    /\ (Slice.reserved_capacity s' = Slice.reserved_capacity s
        \/ Slice.reserved_capacity s'
           = Py.min (Slice.init_capacity s * (1 # 10))
                    (Slice.reserved_capacity s
                     + Slice.init_capacity s * (2 # 100))
        \/ Slice.reserved_capacity s'
           = Py.max 0 (Slice.reserved_capacity s
                       - Slice.init_capacity s * (1 # 100))).
Proof.
  unfold _adapt_reserved_capacity.
  destruct (length (Slice.latency_history s) <? 5)%nat eqn:E.
  { exists s. tauto. }
  apply Nat.ltb_ge in E.
  rewrite div_ok.
  2:{ apply len_nonzero. intros C.
      apply (f_equal (@length Q)) in C. rewrite length_last_n in C.
      change (length (@nil Q)) with 0%nat in C. lia. }
  simpl res_bind.
  destruct (_ && _).
  { eexists. split; [reflexivity |]. simpl. tauto. }
  destruct (_ && _).
  { eexists. split; [reflexivity |]. simpl. tauto. }
  exists s. tauto.
Qed.

Lemma update_latency_stats_ok (s : Slice.t) (l : Q) :
  exists s',
    update_latency_stats s l = Ok s'
    /\ Slice.latency_history s'
       = (if (100 <? length (Slice.latency_history s ++ [l]))%nat
          then tl (Slice.latency_history s ++ [l])
          else Slice.latency_history s ++ [l])
    /\ Slice.init_capacity s' = Slice.init_capacity s
    /\ (Slice.reserved_capacity s' = Slice.reserved_capacity s
        \/ Slice.reserved_capacity s'
           = Py.min (Slice.init_capacity s * (1 # 10))
                    (Slice.reserved_capacity s
                     + Slice.init_capacity s * (2 # 100))
        \/ Slice.reserved_capacity s'
           = Py.max 0 (Slice.reserved_capacity s
                       - Slice.init_capacity s * (1 # 100))).
Proof.
  unfold update_latency_stats. simpl Slice.latency_history.
  set (h := Slice.latency_history s ++ [l]).
  set (s1 := if (100 <? length h)%nat then _ else _).
  assert (H1 : Slice.latency_history s1
               = if (100 <? length h)%nat then tl h else h).
  { subst s1. destruct (100 <? length h)%nat; reflexivity. }
  assert (I1 : Slice.init_capacity s1 = Slice.init_capacity s
               /\ Slice.reserved_capacity s1 = Slice.reserved_capacity s).
  { subst s1. destruct (100 <? length h)%nat; split; reflexivity. }
  assert (Hne : Slice.latency_history s1 <> []).
  { rewrite H1. destruct (100 <? length h)%nat eqn:E.
    - apply Nat.ltb_lt in E. destruct h as [| a [| b h']]; simpl in *;
        [lia | lia | discriminate].
    - subst h. destruct (Slice.latency_history s); discriminate. }
  destruct (Slice.latency_history s1) as [| a0 h0] eqn:E1; [congruence |].
  rewrite div_ok by (apply len_nonzero; discriminate).
  simpl res_bind.
  set (s3 := if lt_b _ l then _ else _).
  assert (H3 : Slice.latency_history s3 = a0 :: h0
               /\ Slice.init_capacity s3 = Slice.init_capacity s
               /\ Slice.reserved_capacity s3 = Slice.reserved_capacity s).
  { subst s3. destruct (lt_b _ l); simpl; rewrite ?E1; tauto. }
  destruct H3 as (H3 & I3 & R3).
  destruct (adapt_reserved_capacity_ok s3) as (s' & Hs' & Hh & Hi & Hr).
  exists s'. split; [exact Hs' |].
  rewrite Hh, H3, Hi, I3. rewrite R3, I3 in Hr. rewrite <- H1. tauto.
Qed.

Lemma reservation_step_bounds (init r r' : Q) :
  0 <= init -> 0 <= r -> r <= (1 # 10) * init ->
  (r' = r
   \/ r' = Py.min (init * (1 # 10)) (r + init * (2 # 100))
   \/ r' = Py.max 0 (r - init * (1 # 100))) ->
  0 <= r' /\ r' <= (1 # 10) * init.
Proof.
  intros Hi H0 H1 [-> | [-> | ->]].
  - tauto.
  - destruct (min_cases (init * (1 # 10)) (r + init * (2 # 100)))
      as [[H ->] | [H ->]]; split; lra.
  - destruct (max_cases 0 (r - init * (1 # 100)))
      as [[H ->] | [H ->]]; split; lra.
Qed.

Lemma update_latency_stats_all_bounds (ls : list Q) (s : Slice.t) :
  0 <= Slice.init_capacity s ->
  0 <= Slice.reserved_capacity s ->
  Slice.reserved_capacity s <= (1 # 10) * Slice.init_capacity s ->
  exists s',
    update_latency_stats_all s ls = Ok s'
    /\ Slice.init_capacity s' = Slice.init_capacity s
    /\ 0 <= Slice.reserved_capacity s'
    /\ Slice.reserved_capacity s' <= (1 # 10) * Slice.init_capacity s.
Proof.
  revert s. induction ls as [| l ls IH]; intros s Hi H0 H1.
  { exists s. simpl. tauto. }
  destruct (update_latency_stats_ok s l) as (s1 & Hs1 & _ & Hi1 & Hr1).
  destruct (reservation_step_bounds _ _ _ Hi H0 H1 Hr1) as [B0 B1].
  destruct (IH s1) as (s' & Hs' & Hi' & B0' & B1');
    rewrite ?Hi1; try assumption.
  exists s'. simpl. rewrite Hs1. simpl res_bind.
  rewrite Hi1 in Hi', B1'. tauto.
Qed.

(** C6. A slice of non-negative capacity that starts with no
    reservation keeps [0 <= reserved_capacity <= 0.1 * init_capacity]
    through every call of [update_latency_stats]; each call leaves the
    reservation alone, raises it by [0.02 * init_capacity] up to the cap
    [0.1 * init_capacity], or lowers it by [0.01 * init_capacity] down
    to the floor [0]. *)
Theorem reservation_bounds (s : Slice.t) (ls : list Q) (l : Q) :
  0 <= Slice.init_capacity s ->
  Slice.reserved_capacity s == 0 ->
  exists s1 s2,
    update_latency_stats_all s ls = Ok s1
    /\ update_latency_stats s1 l = Ok s2
    /\ 0 <= Slice.reserved_capacity s1
    /\ Slice.reserved_capacity s1 <= (1 # 10) * Slice.init_capacity s1
    /\ 0 <= Slice.reserved_capacity s2
    /\ Slice.reserved_capacity s2 <= (1 # 10) * Slice.init_capacity s2
    /\ (Slice.reserved_capacity s2 = Slice.reserved_capacity s1
        \/ Slice.reserved_capacity s2
           = Py.min (Slice.init_capacity s1 * (1 # 10))
                    (Slice.reserved_capacity s1
                     + Slice.init_capacity s1 * (2 # 100))
        \/ Slice.reserved_capacity s2
           = Py.max 0 (Slice.reserved_capacity s1
                       - Slice.init_capacity s1 * (1 # 100))).
Proof.
  intros Hi H0.
  destruct (update_latency_stats_all_bounds ls s) as (s1 & Hs1 & Hi1 & B0 & B1);
    [lra | lra | lra |].
  destruct (update_latency_stats_ok s1 l) as (s2 & Hs2 & _ & Hi2 & Hr).
  assert (Hi1' : 0 <= Slice.init_capacity s1) by (rewrite Hi1; lra).
  assert (B1' : Slice.reserved_capacity s1 <= (1 # 10) * Slice.init_capacity s1)
    by (rewrite Hi1; lra).
  destruct (reservation_step_bounds _ _ _ Hi1' B0 B1' Hr) as [C0 C1].
  exists s1, s2. rewrite Hi2. tauto.
Qed.

(** C7. If the latency history holds at most 100 entries before
    [update_latency_stats], it holds at most 100 after it, and they are
    the last 100 of the old entries and the new one. *)
Theorem latency_history_bound (s : Slice.t) (l : Q) :
  (length (Slice.latency_history s) <= 100)%nat ->
  exists s',
    update_latency_stats s l = Ok s'
    /\ (length (Slice.latency_history s') <= 100)%nat
    /\ Slice.latency_history s'
       = last_n 100 (Slice.latency_history s ++ [l]).
Proof.
  intros Hlen.
  destruct (update_latency_stats_ok s l) as (s' & Hs' & Hh & _).
  exists s'. split; [exact Hs' |]. rewrite Hh.
  set (h := Slice.latency_history s ++ [l]).
  assert (Hl : length h = S (length (Slice.latency_history s))).
  { subst h. rewrite length_app. simpl. lia. }
  unfold last_n.
  destruct (100 <? length h)%nat eqn:E.
  - apply Nat.ltb_lt in E.
    assert (E' : (length h - 100 = 1)%nat) by lia. rewrite E'.
    destruct h as [| a h']; [simpl in E; lia |]. simpl in *.
    split; [lia | reflexivity].
  - apply Nat.ltb_ge in E.
    assert (E' : (length h - 100 = 0)%nat) by lia. rewrite E'.
    split; [exact E | reflexivity].
Qed.

Lemma reservation_bounds_witness :
  exists s1 s2,
    update_latency_stats_all (new_slice "URLLC" 1 0 1 10 1 1 100 100)
                             [1; 1; 1; 1; 1; 20; 20]
    = Ok s1
    /\ update_latency_stats s1 20 = Ok s2
    /\ 0 <= Slice.reserved_capacity s1
    /\ Slice.reserved_capacity s1 <= (1 # 10) * Slice.init_capacity s1
    /\ 0 <= Slice.reserved_capacity s2
    /\ Slice.reserved_capacity s2 <= (1 # 10) * Slice.init_capacity s2
    /\ (Slice.reserved_capacity s2 = Slice.reserved_capacity s1
        \/ Slice.reserved_capacity s2
           = Py.min (Slice.init_capacity s1 * (1 # 10))
                    (Slice.reserved_capacity s1
                     + Slice.init_capacity s1 * (2 # 100))
        \/ Slice.reserved_capacity s2
           = Py.max 0 (Slice.reserved_capacity s1
                       - Slice.init_capacity s1 * (1 # 100))).
Proof.
  apply (reservation_bounds (new_slice "URLLC" 1 0 1 10 1 1 100 100)
           [1; 1; 1; 1; 1; 20; 20] 20);
    simpl; lra.
Defined.

Lemma latency_history_bound_witness :
  exists s',
    update_latency_stats embb_full 3 = Ok s'
    /\ (length (Slice.latency_history s') <= 100)%nat
    /\ Slice.latency_history s'
       = last_n 100 (Slice.latency_history embb_full ++ [3]).
Proof.
  apply (latency_history_bound embb_full 3). simpl. lia.
Defined.

(** Sample runs of the adaptation on a slice of capacity 100 and
    tolerance 10: three slow measurements after five fast ones raise the
    reservation twice, by 2 each time. *)
Example reservation_raised :
  exists s',
    update_latency_stats_all (new_slice "URLLC" 1 0 1 10 1 1 100 100)
                             [1; 1; 1; 1; 1; 20; 20; 20]
    = Ok s'
    /\ Slice.reserved_capacity s' == 4
    /\ Slice.sla_violations s' = 3%Z.
Proof.
  eexists. split; [vm_compute; reflexivity |]. split; reflexivity.
Qed.

(** ** The monad *)

Lemma bind_ok {A B} (m : M A) (k : A -> M B) (w : World.t) (a : A) :
  m w = (Ok a, w, []) -> bind m k w = k a w.
Proof.
  intros H. unfold bind. rewrite H. destruct (k a w) as [[r w2] out2].
  reflexivity.
Qed.

Lemma bind_raise {A B} (m : M A) (k : A -> M B) (w w1 : World.t)
    (e : exn) (out : list event) :
  m w = (Raise e, w1, out) -> bind m k w = (Raise e, w1, out).
Proof. intros H. unfold bind. now rewrite H. Qed.

Lemma read_only_bind {A B} (m : M A) (k : A -> M B) :
  read_only m -> (forall a, read_only (k a)) -> read_only (bind m k).
Proof.
  intros Hm Hk w. destruct (Hm w) as [[a | e] E].
  - rewrite (bind_ok _ _ _ _ E). apply Hk.
  - rewrite (bind_raise _ _ _ _ _ _ E). eauto.
Qed.

Lemma read_only_ret {A} (a : A) : read_only (ret a).
Proof. intros w. eexists. reflexivity. Qed.

Lemma read_only_raise {A} (e : exn) : read_only (@raise A e).
Proof. intros w. eexists. reflexivity. Qed.

Lemma read_only_lift {A} (r : Res A) : read_only (lift r).
Proof. intros w. eexists. reflexivity. Qed.

Lemma read_only_get_now : read_only get_now.
Proof. intros w. eexists. reflexivity. Qed.

Lemma read_only_deref {A} (o : option A) : read_only (deref o).
Proof. destruct o; [apply read_only_ret | apply read_only_raise]. Qed.

Lemma read_only_client (h : nat) : read_only (client h).
Proof.
  intros w. unfold client. destruct (World.clients w !! h); eauto.
Qed.

Lemma read_only_base_station_at (b : nat) : read_only (base_station_at b).
Proof.
  intros w. unfold base_station_at.
  destruct (World.base_stations w !! b); eauto.
Qed.

Lemma read_only_slice_at (h : nat * nat) : read_only (slice_at h).
Proof.
  apply read_only_bind; [apply read_only_base_station_at |].
  intros bs. destruct (_ !! _); [apply read_only_ret | apply read_only_raise].
Qed.

Lemma read_only_get_slice (self : nat) : read_only (get_slice self).
Proof.
  apply read_only_bind; [apply read_only_client |].
  intros c. destruct (Client.base_station c); [| apply read_only_ret].
  apply read_only_bind; [apply read_only_base_station_at |].
  intros bs. destruct (_ !! _); [apply read_only_ret | apply read_only_raise].
Qed.

Lemma client_ok (w : World.t) (h : nat) (c : Client.t) :
  World.clients w !! h = Some c -> client h w = (Ok c, w, []).
Proof. intros H. unfold client. now rewrite H. Qed.

(** ** Release and disconnect on a client that holds nothing *)

(** C9. For a client whose [last_usage] is 0, [release_consume] does
    nothing: the world after the call is the world before it (so no
    [put] reached the container, and the level, the counters of the
    client and its latency series are what they were) and no line is
    printed; the call returns as soon as the slice of the client
    resolves. *)
Theorem release_consume_zero (w : World.t) (self : nat) (c : Client.t) :
  World.clients w !! self = Some c ->
  Client.last_usage c == 0 ->
  (exists r, release_consume self w = (r, w, []))
  /\ (forall s, get_slice self w = (Ok s, w, []) ->
                release_consume self w = (Ok tt, w, [])).
Proof.
  intros Hc H0.
  assert (Hlt : lt_b 0 (Client.last_usage c) = false)
    by (apply lt_b_false; lra).
  assert (Hrun : forall s, get_slice self w = (Ok s, w, []) ->
                           release_consume self w = (Ok tt, w, [])).
  { intros s Hs. unfold release_consume.
    rewrite (bind_ok _ _ _ _ Hs), (bind_ok _ _ _ _ (client_ok _ _ _ Hc)).
    rewrite Hlt. reflexivity. }
  split; [| exact Hrun].
  destruct (read_only_get_slice self w) as [[s | e] Hs].
  - exists (Ok tt). now apply (Hrun s).
  - exists (Raise e). unfold release_consume.
    now rewrite (bind_raise _ _ _ _ _ _ Hs).
Qed.

(** C10. On a client that is not connected, [disconnect] changes
    nothing: the world after the call is the world before it, so no
    user count is decremented, [connected] stays false, and the level of
    the container and [last_usage] are untouched.  Once the slice of the
    client resolves the call prints that the client is already
    disconnected and returns [True]. *)
Theorem disconnect_disconnected (w : World.t) (self : nat) (c : Client.t) :
  World.clients w !! self = Some c ->
  Client.connected c = false ->
  (exists r out, disconnect self w = (r, w, out))
  /\ (forall s, get_slice self w = (Ok s, w, []) ->
                disconnect self w
                = (Ok true, w, [AlreadyDisconnected (Client.pk c)])).
Proof.
  intros Hc Hn.
  pose proof (client_ok _ _ _ Hc) as Hcl.
  assert (Hrun : forall s, get_slice self w = (Ok s, w, []) ->
            disconnect self w
            = (Ok true, w, [AlreadyDisconnected (Client.pk c)])).
  { intros s Hs. unfold disconnect.
    rewrite (bind_ok _ _ _ _ Hcl). rewrite Hn. simpl negb.
    unfold bind at 1. rewrite (bind_ok _ _ _ _ Hs). unfold print.
    rewrite (bind_ok _ _ _ _ Hcl). unfold ret. rewrite Hn. reflexivity. }
  split; [| exact Hrun].
  destruct (read_only_get_slice self w) as [[s | e] Hs].
  - eexists _, _. now apply (Hrun s).
  - exists (Raise e), []. unfold disconnect.
    rewrite (bind_ok _ _ _ _ Hcl). rewrite Hn. simpl negb.
    unfold bind at 1. now rewrite (bind_raise _ _ _ _ _ _ Hs).
Qed.

Lemma release_consume_zero_witness :
  (exists r, release_consume 0 (one_cell waiting_client)
             = (r, one_cell waiting_client, []))
  /\ (forall s, get_slice 0 (one_cell waiting_client)
                = (Ok s, one_cell waiting_client, []) ->
                release_consume 0 (one_cell waiting_client)
                = (Ok tt, one_cell waiting_client, [])).
Proof.
  apply (release_consume_zero (one_cell waiting_client) 0 waiting_client);
    reflexivity.
Defined.

Lemma disconnect_disconnected_witness :
  (exists r out, disconnect 0 (one_cell waiting_client)
                 = (r, one_cell waiting_client, out))
  /\ (forall s, get_slice 0 (one_cell waiting_client)
                = (Ok s, one_cell waiting_client, []) ->
                disconnect 0 (one_cell waiting_client)
                = (Ok true, one_cell waiting_client,
                   [AlreadyDisconnected (Client.pk waiting_client)])).
Proof.
  apply (disconnect_disconnected (one_cell waiting_client) 0 waiting_client);
    reflexivity.
Defined.

(** Sample runs on a client that holds nothing. *)
Example release_consume_idle_run :
  release_consume 0 (one_cell waiting_client)
  = (Ok tt, one_cell waiting_client, []).
Proof. reflexivity. Qed.

Example disconnect_idle_run :
  disconnect 0 (one_cell waiting_client)
  = (Ok true, one_cell waiting_client, [AlreadyDisconnected 0]).
Proof. reflexivity. Qed.

(** ** The consume step *)

Lemma get_consumable_share_le_max (sl : Slice.t) (share : Q) :
  get_consumable_share sl = Ok share -> share <= Slice.bandwidth_max sl.
Proof.
  unfold get_consumable_share.
  destruct (Slice.connected_users sl <=? 0)%Z.
  { intros [= <-]. apply min_le_r. }
  destruct (Py.div _ _) as [q |]; destruct (Slice.qos_class sl <=? 2)%Z;
    simpl; intros [= <-]; apply min_le_r.
Qed.

Lemma consume_amount_unfold (share : Q) (sl : Slice.t) (c : Client.t) :
  consume_amount share sl c
  = if lt_b (Slice.delay_tolerance sl) 10
    then Py.min (Py.min share (Client.usage_remaining c) * (12 # 10))
                (Client.usage_remaining c)
    else Py.min share (Client.usage_remaining c).
Proof. reflexivity. Qed.

Lemma consume_amount_pos (share : Q) (sl : Slice.t) (c : Client.t) :
  0 < share -> 0 < Client.usage_remaining c -> 0 < consume_amount share sl c.
Proof.
  intros Hs Hu. rewrite consume_amount_unfold.
  assert (H : 0 < Py.min share (Client.usage_remaining c))
    by (destruct (min_cases share (Client.usage_remaining c))
          as [[_ ->] | [_ ->]]; assumption).
  destruct (lt_b _ 10); [| exact H].
  destruct (min_cases (Py.min share (Client.usage_remaining c) * (12 # 10))
                      (Client.usage_remaining c)) as [[_ ->] | [_ ->]]; lra.
Qed.

Lemma consume_amount_bounds (share : Q) (sl : Slice.t) (c : Client.t) :
  0 < share ->
  consume_amount share sl c <= Client.usage_remaining c
  /\ consume_amount share sl c <= (12 # 10) * share.
Proof.
  intros Hs. rewrite consume_amount_unfold.
  pose proof (min_le_l share (Client.usage_remaining c)).
  pose proof (min_le_r share (Client.usage_remaining c)).
  destruct (lt_b _ 10).
  - pose proof (min_le_l (Py.min share (Client.usage_remaining c) * (12 # 10))
                         (Client.usage_remaining c)).
    pose proof (min_le_r (Py.min share (Client.usage_remaining c) * (12 # 10))
                         (Client.usage_remaining c)).
    split; lra.
  - split; lra.
Qed.

Lemma container_get_ok (k : Container.t) (amount : Q) :
  0 < amount -> exists k', Container.get k amount = Ok k'.
Proof.
  intros H. unfold Container.get.
  assert (E : le_b amount 0 = false) by (apply le_b_false; exact H).
  rewrite E. destruct (Container.trigger_get _ _). eauto.
Qed.

(** What [start_consume] does once the slice of the client resolves and
    offers a positive share to a client with a pending request. *)
Lemma start_consume_runs (w : World.t) (self b : nat) (c : Client.t)
    (bs : BaseStation.t) (sl : Slice.t) (share : Q) :
  World.clients w !! self = Some c ->
  Client.base_station c = Some b ->
  World.base_stations w !! b = Some bs ->
  BaseStation.slices bs !! Client.subscribed_slice_index c = Some sl ->
  get_consumable_share sl = Ok share ->
  0 < share ->
  0 < Client.usage_remaining c ->
  exists w',
    start_consume self w
    = (Ok tt, w', [Gets (Client.pk c) (consume_amount share sl c)])
    /\ Client.last_usage <$> World.clients w' !! self
       = Some (consume_amount share sl c).
Proof.
  intros Hc Hb Hbs Hsl Hshare Hs Hu.
  destruct (container_get_ok (Slice.capacity sl) (consume_amount share sl c)
              (consume_amount_pos share sl c Hs Hu)) as [k' Hk].
  unfold start_consume, bind, get_slice, slice_at, client, base_station_at,
    get_now, update_client, update_slice, deref, lift, print, ret, bind.
  simpl. rewrite Hc, Hb. simpl. rewrite Hbs, Hsl. simpl.
  rewrite Hbs. simpl. rewrite Hsl. simpl. rewrite Hshare.
  rewrite list_lookup_alter_eq, Hc. simpl.
  change (consume_amount share sl
            (Client.set_request_start_time c (World.now w)))
    with (consume_amount share sl c).
  rewrite Hk. simpl.
  eexists. split; [reflexivity |]. simpl.
  rewrite !list_lookup_alter_eq, Hc. reflexivity.
Qed.

(** C1. In the consume step of a client with a pending request the
    amount consumed is [min(get_consumable_share(), usage_remaining)],
    raised by the factor 1.2 and capped again by [usage_remaining] when
    the tolerance of the slice is below 10.  [allocated_bandwidth] is
    not read: the amount is the same whatever the attribute holds, and
    whether the client has it or not. *)
Theorem start_consume_amount (w : World.t) (self b : nat) (c : Client.t)
    (bs : BaseStation.t) (sl : Slice.t) (share : Q) (a : option Q) :
  World.clients w !! self = Some c ->
  Client.base_station c = Some b ->
  World.base_stations w !! b = Some bs ->
  BaseStation.slices bs !! Client.subscribed_slice_index c = Some sl ->
  get_consumable_share sl = Ok share ->
  0 < share ->
  0 < Client.usage_remaining c ->
  let amount :=
    if lt_b (Slice.delay_tolerance sl) 10
    then Py.min (Py.min share (Client.usage_remaining c) * (12 # 10))
                (Client.usage_remaining c)
    else Py.min share (Client.usage_remaining c) in
  (exists w',
     start_consume self w = (Ok tt, w', [Gets (Client.pk c) amount])
     /\ Client.last_usage <$> World.clients w' !! self = Some amount)
  /\ (exists w',
        start_consume self
          (World.set_clients w
             (<[self := Client.set_allocated_bandwidth c a]>
                (World.clients w)))
        = (Ok tt, w', [Gets (Client.pk c) amount])
        /\ Client.last_usage <$> World.clients w' !! self = Some amount).
Proof.
  intros Hc Hb Hbs Hsl Hshare Hs Hu amount. split.
  - apply (start_consume_runs w self b c bs sl share); assumption.
  - apply (start_consume_runs _ self b (Client.set_allocated_bandwidth c a)
             bs sl share); try assumption.
    simpl. apply list_lookup_insert_eq. now apply lookup_lt_Some in Hc.
Qed.

Lemma start_consume_amount_witness :
  (exists w',
     start_consume 0 (one_cell busy_client)
     = (Ok tt, w', [Gets 0 (Py.min (Py.min 10 100 * (12 # 10)) 100)])
     /\ Client.last_usage <$> World.clients w' !! 0%nat
        = Some (Py.min (Py.min 10 100 * (12 # 10)) 100))
  /\ (exists w',
        start_consume 0
          (World.set_clients (one_cell busy_client)
             (<[0%nat := Client.set_allocated_bandwidth busy_client (Some 1)]>
                (World.clients (one_cell busy_client))))
        = (Ok tt, w', [Gets 0 (Py.min (Py.min 10 100 * (12 # 10)) 100)])
        /\ Client.last_usage <$> World.clients w' !! 0%nat
           = Some (Py.min (Py.min 10 100 * (12 # 10)) 100)).
Proof.
  apply (start_consume_amount (one_cell busy_client) 0 0 busy_client
           (BaseStation.mk 0 (Coverage.mk (0, 0) 10) 10 [lowlat_slice])
           lowlat_slice 10 (Some 1));
    try reflexivity.
Defined.

(** The specification's reading of C1 fails in both of its cases.  On
    [busy_client], which has no [allocated_bandwidth], the consume step
    takes 12 units and not the share of 10.  On [allocatable_client]
    the allocator writes an allocation of [43 / 25], and the consume
    step that follows takes 12 units all the same. *)
Lemma start_consume_ignores_allocation :
  get_consumable_share lowlat_slice = Ok 10
  /\ (exists amount,
        Client.allocated_bandwidth busy_client = None
        /\ run_output (start_consume 0) (one_cell busy_client)
           = [Gets 0 amount]
        /\ amount == 12
        /\ ~ amount == spec_consume_amount 10 busy_client)
  /\ (exists w1 c1 allocated amount,
        run_world (dynamic_resource_allocation (0, 0)%nat [0%nat])
                  (one_cell allocatable_client) = w1
        /\ World.clients w1 !! 0%nat = Some c1
        /\ Client.connected c1 = true
        /\ 0 < Client.usage_remaining c1
        /\ Client.allocated_bandwidth c1 = Some allocated
        /\ allocated == 43 # 25
        /\ run_output (start_consume 0) w1 = [Gets 0 amount]
        /\ amount == 12
        /\ ~ amount == spec_consume_amount 10 c1).
Proof.
  split; [reflexivity |]. split.
  - eexists. split; [reflexivity |].
    split; [vm_compute; reflexivity |].
    split; [reflexivity |]. vm_compute. discriminate.
  - eexists _, _, _, _.
    split; [vm_compute; reflexivity |].
    split; [reflexivity |].
    split; [reflexivity |].
    split; [reflexivity |].
    split; [reflexivity |].
    split; [reflexivity |].
    split; [vm_compute; reflexivity |].
    split; [reflexivity |].
    vm_compute. discriminate.
Qed.

(** C3. The amount that the consume step asks of the container is at
    most [usage_remaining] and at most 1.2 times the consumable share,
    which itself is at most [bandwidth_max]; the level of the container
    does not enter it. *)
Theorem start_consume_bounds (w : World.t) (self b : nat) (c : Client.t)
    (bs : BaseStation.t) (sl : Slice.t) (share : Q) :
  World.clients w !! self = Some c ->
  Client.base_station c = Some b ->
  World.base_stations w !! b = Some bs ->
  BaseStation.slices bs !! Client.subscribed_slice_index c = Some sl ->
  get_consumable_share sl = Ok share ->
  0 < share ->
  0 < Client.usage_remaining c ->
  exists w' amount,
    start_consume self w = (Ok tt, w', [Gets (Client.pk c) amount])
    /\ amount <= Client.usage_remaining c
    /\ amount <= (12 # 10) * share
    /\ share <= Slice.bandwidth_max sl.
Proof.
  intros Hc Hb Hbs Hsl Hshare Hs Hu.
  destruct (start_consume_runs w self b c bs sl share) as (w' & Hrun & _);
    try assumption.
  destruct (consume_amount_bounds share sl c Hs) as [B1 B2].
  exists w', (consume_amount share sl c).
  split; [exact Hrun |]. split; [exact B1 |]. split; [exact B2 |].
  now apply get_consumable_share_le_max.
Qed.

Lemma start_consume_bounds_witness :
  exists w' amount,
    start_consume 0 (one_cell busy_client) = (Ok tt, w', [Gets 0 amount])
    /\ amount <= 100
    /\ amount <= (12 # 10) * 10
    /\ 10 <= 10.
Proof.
  apply (start_consume_bounds (one_cell busy_client) 0 0 busy_client
           (BaseStation.mk 0 (Coverage.mk (0, 0) 10) 10 [lowlat_slice])
           lowlat_slice 10);
    reflexivity.
Defined.

(** The specification's reading of C3 fails on [busy_client]: the
    container holds 10 units and the consume step asks it for 12; the
    request is not served and waits in the queue of the container. *)
Lemma start_consume_exceeds_level :
  exists w' sl sl' amount,
    slice_at (0, 0)%nat (one_cell busy_client)
    = (Ok sl, one_cell busy_client, [])
    /\ Container.level (Slice.capacity sl) == 10
    /\ start_consume 0 (one_cell busy_client) = (Ok tt, w', [Gets 0 amount])
    /\ amount == 12
    /\ Container.level (Slice.capacity sl) < amount
    /\ slice_at (0, 0)%nat w' = (Ok sl', w', [])
    /\ Container.level (Slice.capacity sl') == 10
    /\ Container.get_queue (Slice.capacity sl') = [amount].
Proof.
  eexists _, _, _, _.
  split; [reflexivity |].
  split; [reflexivity |].
  split; [vm_compute; reflexivity |].
  split; [reflexivity |].
  split; [reflexivity |].
  split; [reflexivity |].
  split; reflexivity.
Qed.

(** ** Runs and the relations they keep *)

Lemma run_world_bind {A B} (m : M A) (k : A -> M B) (w : World.t) :
  run_world (bind m k) w
  = match run_result m w with
    | Ok a => run_world (k a) (run_world m w)
    | Raise _ => run_world m w
    end.
Proof.
  unfold run_world, run_result, bind.
  destruct (m w) as [[[a | e] w1] out1]; simpl; [| reflexivity].
  destruct (k a w1) as [[r w2] out2]. reflexivity.
Qed.

(** The rule of sequence: what holds of the world where [m] raises, and
    of the world after the rest where it returns, holds after
    [bind m k]. *)
Lemma run_bind_rule {A B} (R : World.t -> World.t -> Prop)
    (m : M A) (k : A -> M B) (w : World.t) (P : World.t -> Prop) :
  keeps R m ->
  (forall w1, R w w1 -> P w1) ->
  (forall a w1, R w w1 -> P (run_world (k a) w1)) ->
  P (run_world (bind m k) w).
Proof.
  intros Hm Hraise Hok. rewrite run_world_bind.
  destruct (run_result m w); [apply Hok | apply Hraise]; apply Hm.
Qed.

Lemma keeps_bind {A B} (R : World.t -> World.t -> Prop) `{!Transitive R}
    (m : M A) (k : A -> M B) :
  keeps R m -> (forall a, keeps R (k a)) -> keeps R (bind m k).
Proof.
  intros Hm Hk w. apply (run_bind_rule R m k w); [exact Hm | auto |].
  intros a w1 H. transitivity w1; [exact H | apply Hk].
Qed.

Lemma keeps_read_only {A} (R : World.t -> World.t -> Prop) `{!Reflexive R}
    (m : M A) :
  read_only m -> keeps R m.
Proof.
  intros Hm w. destruct (Hm w) as [r E]. unfold run_world. rewrite E.
  reflexivity.
Qed.

Lemma keeps_print (R : World.t -> World.t -> Prop) `{!Reflexive R}
    (e : event) :
  keeps R (print e).
Proof. intros w. reflexivity. Qed.

#[local] Instance same_counters_refl : Reflexive same_counters.
Proof. intros w. unfold same_counters. tauto. Qed.

#[local] Instance same_counters_trans : Transitive same_counters.
Proof.
  intros w1 w2 w3 (A1 & B1 & C1) (A2 & B2 & C2). unfold same_counters.
  rewrite A2, B2, C2. tauto.
Qed.

#[local] Instance frame_refl (self : nat) : Reflexive (frame self).
Proof. intros w. unfold frame. tauto. Qed.

#[local] Instance frame_trans (self : nat) : Transitive (frame self).
Proof.
  intros w1 w2 w3 [A1 B1] [A2 B2]. unfold frame. rewrite A2, B2. tauto.
Qed.

Lemma frame_same_counters (self : nat) (w w' : World.t) :
  frame self w w' -> same_counters w w'.
Proof. intros [H _]. unfold same_counters. rewrite H. tauto. Qed.

Lemma frame_counted (self : nat) (w w' : World.t) :
  frame self w w' -> counted self w' = counted self w.
Proof.
  intros [Hs Hp]. unfold counted, position in *. rewrite Hs.
  destruct (World.clients w' !! self) as [c' |],
           (World.clients w !! self) as [c |]; simpl in Hp;
    try discriminate; [| reflexivity].
  injection Hp as Hx Hy. unfold is_client_in_coverage.
  now rewrite Hx, Hy.
Qed.

(** Writing an attribute of a client that is not its position. *)
Lemma keeps_update_client (self h : nat) (f : Client.t -> Client.t) :
  (forall c, Client.x (f c) = Client.x c /\ Client.y (f c) = Client.y c) ->
  keeps (frame self) (update_client h f).
Proof.
  intros Hf w. split; [reflexivity |].
  unfold position, run_world, update_client. simpl.
  rewrite list_lookup_alter. destruct (decide (h = self)) as [-> |];
    [| reflexivity].
  destruct (World.clients w !! self) as [c |]; [| reflexivity].
  simpl. destruct (Hf c) as [-> ->]. reflexivity.
Qed.

Lemma rebuild_position (distance : Q * Q -> Q * Q -> Q) (assign : bool)
    (limit : nat) (bss : list BaseStation.t) (c : Client.t) :
  Client.x (rebuild distance assign limit bss c) = Client.x c
  /\ Client.y (rebuild distance assign limit bss c) = Client.y c.
Proof.
  unfold rebuild. destruct assign; [| split; reflexivity].
  destruct (nearest _ _ _ _) as [| [d b] ?]; [split; reflexivity |].
  destruct (bss !! b); [| split; reflexivity].
  destruct (le_b _ _); split; reflexivity.
Qed.

Lemma keeps_KDTree_run (distance : Q * Q -> Q * Q -> Q) (self : nat)
    (run_at : Z) (assign : bool) :
  keeps (frame self) (KDTree_run distance run_at assign).
Proof.
  intros w. unfold run_world, KDTree_run.
  destruct (run_at =? World.last_run_time w)%Z; [reflexivity |].
  split; [reflexivity |]. unfold position. simpl.
  rewrite list_lookup_fmap.
  destruct (World.clients w !! self) as [c |]; [| reflexivity].
  simpl. destruct (rebuild_position distance assign (World.limit w)
                     (World.base_stations w) c) as [-> ->].
  reflexivity.
Qed.

Lemma read_only_score_candidates (distance : Q * Q -> Q * Q -> Q)
    (c : Client.t) (exclude : option (list nat))
    (candidates : list (Q * nat)) :
  read_only (score_candidates distance c exclude candidates).
Proof.
  induction candidates as [| [d b] rest IH]; simpl.
  { apply read_only_ret. }
  apply read_only_bind; [apply read_only_base_station_at |]. intros bs.
  destruct (match exclude with Some _ => _ | None => _ end); [exact IH |].
  apply read_only_bind.
  { destruct (_ !! _); [| apply read_only_ret].
    apply read_only_bind; [apply read_only_lift |].
    intros. apply read_only_ret. }
  intros load. apply read_only_bind; [exact IH |].
  intros. apply read_only_ret.
Qed.

Lemma read_only_first_covering (scored : list (Q * Q * nat)) :
  read_only (first_covering scored).
Proof.
  induction scored as [| [[score d] b] rest IH]; simpl.
  { apply read_only_ret. }
  apply read_only_bind; [apply read_only_base_station_at |]. intros bs.
  destruct (le_b _ _); [apply read_only_ret | exact IH].
Qed.

Lemma keeps_assign_closest_base_station (distance : Q * Q -> Q * Q -> Q)
    (self h : nat) (exclude : option (list nat)) :
  keeps (frame self) (assign_closest_base_station distance h exclude).
Proof.
  unfold assign_closest_base_station.
  apply keeps_bind; [tc_solve | |].
  { apply keeps_read_only; [tc_solve | apply read_only_client]. }
  intros c. apply keeps_bind; [tc_solve | |].
  { apply keeps_read_only; [tc_solve | apply read_only_score_candidates]. }
  intros scored. apply keeps_bind; [tc_solve | |].
  { apply keeps_read_only; [tc_solve | apply read_only_first_covering]. }
  intros [[score b] |].
  - apply keeps_bind; [tc_solve | |].
    + apply keeps_update_client. intros; split; reflexivity.
    + intros. apply keeps_print. tc_solve.
  - apply keeps_bind; [tc_solve | |].
    { apply keeps_read_only; [tc_solve | apply read_only_get_now]. }
    intros now. apply keeps_bind; [tc_solve | |].
    + intros w. unfold run_world. cbv beta.
      destruct (negb (World.last_run_time w =? Py.int now)%Z).
      * apply keeps_KDTree_run.
      * reflexivity.
    + intros. apply keeps_update_client. intros; split; reflexivity.
Qed.

(** ** The counters of the period *)

Lemma last_incr_last (l l' : list Q) :
  incr_last l = Ok l' -> exists a, last l = Some a /\ last l' = Some (a + 1).
Proof.
  unfold incr_last. destruct (last l) as [a |] eqn:E; [| discriminate].
  intros [= <-]. exists a. split; [reflexivity |].
  apply last_Some in E as [l0 ->].
  rewrite length_app, Nat.add_1_r. simpl.
  rewrite insert_app_r_alt by lia. rewrite Nat.sub_diag. simpl.
  apply last_snoc.
Qed.

Lemma current_incr_last (l l' : list Q) :
  incr_last l = Ok l' -> current l' = current l + 1.
Proof.
  intros H. apply last_incr_last in H as (a & E & E').
  unfold current. now rewrite E, E'.
Qed.

Lemma run_world_with_stats (f : Stats.t -> Client.t -> Res Stats.t)
    (h : nat) (w : World.t) :
  run_world (with_stats f h) w
  = match World.clients w !! h with
    | Some c =>
        match f (World.stats w) c with
        | Ok st => World.set_stats w st
        | Raise _ => w
        end
    | None => w
    end.
Proof.
  unfold run_world, with_stats, bind, client.
  destruct (World.clients w !! h) as [c |]; [| reflexivity].
  destruct (f (World.stats w) c); reflexivity.
Qed.

Lemma same_counters_tail (self : nat) (w w' : World.t) :
  same_counters w w' -> tail_accounted self w w'.
Proof.
  intros (A & B & C). unfold tail_accounted, period_attempts, period_blocks,
    period_handovers. rewrite A, B, C. tauto.
Qed.

Lemma tail_frame (self : nat) (w w1 w' : World.t) :
  frame self w w1 -> tail_accounted self w1 w' -> tail_accounted self w w'.
Proof.
  intros Hf. pose proof (frame_counted _ _ _ Hf) as Hc.
  destruct Hf as [Hs _]. unfold tail_accounted. rewrite Hc, Hs. tauto.
Qed.

Lemma tail_same_counters (self : nat) (w w1 w' : World.t) :
  tail_accounted self w w1 -> same_counters w1 w' ->
  tail_accounted self w w'.
Proof.
  intros Ht (A & B & C). unfold tail_accounted, period_attempts,
    period_blocks, period_handovers in *. rewrite A, B, C. exact Ht.
Qed.

Lemma keeps_incr_handover_count (self : nat) :
  keeps (tail_accounted self) (with_stats incr_handover_count self).
Proof.
  intros w. rewrite run_world_with_stats.
  destruct (World.clients w !! self) as [c |] eqn:Hc;
    [| apply same_counters_tail; reflexivity].
  unfold incr_handover_count.
  destruct (is_client_in_coverage (World.stats w) c) eqn:Hin;
    [| apply same_counters_tail; unfold same_counters; tauto].
  destruct (incr_last _) as [l |] eqn:Hl; simpl;
    [| apply same_counters_tail; reflexivity].
  split; [reflexivity |]. right. split.
  { unfold counted. now rewrite Hc. }
  right. split; [reflexivity |].
  unfold period_handovers. simpl. now apply current_incr_last.
Qed.

Lemma keeps_incr_block_count (self : nat) :
  keeps (tail_accounted self) (with_stats incr_block_count self).
Proof.
  intros w. rewrite run_world_with_stats.
  destruct (World.clients w !! self) as [c |] eqn:Hc;
    [| apply same_counters_tail; reflexivity].
  unfold incr_block_count.
  destruct (is_client_in_coverage (World.stats w) c) eqn:Hin;
    [| apply same_counters_tail; unfold same_counters; tauto].
  destruct (incr_last _) as [l |] eqn:Hl; simpl;
    [| apply same_counters_tail; reflexivity].
  split; [reflexivity |]. right. split.
  { unfold counted. now rewrite Hc. }
  left. split; [| reflexivity].
  unfold period_blocks. simpl. now apply current_incr_last.
Qed.

Lemma run_with_stats (f : Stats.t -> Client.t -> Res Stats.t)
    (h : nat) (w : World.t) :
  with_stats f h w
  = match World.clients w !! h with
    | Some c =>
        match f (World.stats w) c with
        | Ok st => (Ok tt, World.set_stats w st, [])
        | Raise e => (Raise e, w, [])
        end
    | None => (Raise DanglingReference, w, [])
    end.
Proof.
  unfold with_stats, bind, client.
  destruct (World.clients w !! h) as [c |]; [| reflexivity].
  destruct (f (World.stats w) c); reflexivity.
Qed.

(** The first step of [connect]: when it returns, the attempt is counted
    for a client the collector counts, and for no other; when it raises,
    nothing has changed. *)
Lemma incr_connect_attempt_returns (self : nat) (w : World.t) (u : unit) :
  run_result (with_stats incr_connect_attempt self) w = Ok u ->
  attempt_counted self w (run_world (with_stats incr_connect_attempt self) w).
Proof.
  unfold run_result, run_world. rewrite run_with_stats.
  unfold attempt_counted, counted.
  destruct (World.clients w !! self) as [c |] eqn:Hc; [| discriminate].
  unfold incr_connect_attempt.
  destruct (is_client_in_coverage (World.stats w) c) eqn:Hin.
  2:{ simpl. rewrite Hc, Hin. tauto. }
  destruct (incr_last _) as [l |] eqn:Hl; simpl; [| discriminate].
  intros _. rewrite Hc.
  split; [change (is_client_in_coverage (World.stats w) c = true); exact Hin |].
  split; [reflexivity |]. split; [reflexivity |].
  right. unfold period_attempts. simpl. now apply current_incr_last.
Qed.

Lemma incr_connect_attempt_raises (self : nat) (w : World.t) (e : exn) :
  run_result (with_stats incr_connect_attempt self) w = Raise e ->
  run_world (with_stats incr_connect_attempt self) w = w.
Proof.
  unfold run_result, run_world. rewrite run_with_stats.
  destruct (World.clients w !! self) as [c |]; [| reflexivity].
  destruct (incr_connect_attempt _ _); [discriminate | reflexivity].
Qed.

Lemma accounted_refl (w : World.t) : accounted w w.
Proof. left. tauto. Qed.

Lemma attempt_then_tail (self : nat) (w w1 w' : World.t) :
  attempt_counted self w w1 -> tail_accounted self w1 w' -> accounted w w'.
Proof.
  unfold attempt_counted, tail_accounted, accounted.
  intros (Hc & B & C & HA) (A' & HT). rewrite A', Hc in *.
  rewrite B, C in HT.
  destruct HA as [[Hn A] | A]; rewrite A.
  - left. destruct HT as [HT | [HT _]]; [tauto | congruence].
  - right. split; [reflexivity |]. tauto.
Qed.

(** ** The accounting of [connect] *)

Lemma keeps_eq_read_only {A} (m : M A) : read_only m -> keeps eq m.
Proof. intros H. apply keeps_read_only; [tc_solve | exact H]. Qed.

(** One step of a proof about the world after a sequence: a read, or a
    call that keeps the collector and the position of the client. *)
Tactic Notation "read_step" constr(lemma) "as" ident(x) :=
  match goal with
  | |- ?P (run_world (bind ?m ?k) ?w) =>
      apply (run_bind_rule eq m k w (P));
      [ apply keeps_eq_read_only, lemma
      | intros ? <-
      | intros x ? <- ]
  end.

Ltac frame_step self lemma :=
  match goal with
  | |- tail_accounted self ?w (run_world (bind ?m ?k) ?w) =>
      let Hf := fresh "Hf" in
      apply (run_bind_rule (frame self) m k w (tail_accounted self w));
      [ lemma
      | intros ? Hf; apply same_counters_tail, (frame_same_counters self), Hf
      | intros ? ? Hf; apply (tail_frame _ _ _ _ Hf); clear Hf ]
  end.

Lemma keeps_same_counters_update_client (h : nat)
    (f : Client.t -> Client.t) :
  keeps same_counters (update_client h f).
Proof. intros w. unfold same_counters. tauto. Qed.

Lemma keeps_same_counters_update_slice (h : nat * nat)
    (f : Slice.t -> Slice.t) :
  keeps same_counters (update_slice h f).
Proof. intros w. unfold same_counters. tauto. Qed.

Lemma keeps_same_counters_read_only {A} (m : M A) :
  read_only m -> keeps same_counters m.
Proof. intros H. apply keeps_read_only; [tc_solve | exact H]. Qed.

Lemma keeps_same_counters_record_latency (self : nat) (now latency : Q) :
  keeps same_counters
    (with_stats (fun st c => record_latency st now c latency) self).
Proof.
  intros w. rewrite run_world_with_stats.
  destruct (World.clients w !! self) as [c |]; [| reflexivity].
  unfold record_latency.
  destruct (last (Client.handover_latencies c));
    [| unfold same_counters; tauto].
  destruct (Py.index _ _); simpl; [| reflexivity].
  unfold same_counters. tauto.
Qed.

Lemma keeps_same_counters_update_latency_stats (self : nat) (latency : Q) :
  keeps same_counters (_update_latency_stats self latency).
Proof.
  unfold _update_latency_stats.
  apply keeps_bind; [tc_solve | apply keeps_same_counters_update_client |].
  intros _. apply keeps_bind;
    [tc_solve | apply keeps_same_counters_read_only, read_only_client |].
  intros c. apply keeps_bind; [tc_solve | |].
  { destruct (lt_b _ _);
      [apply keeps_same_counters_update_client
      | apply keeps_same_counters_read_only, read_only_ret]. }
  intros _. apply keeps_bind; [tc_solve | |].
  { destruct (Client.min_latency c) as [m |];
      [destruct (lt_b _ _) |];
      first [apply keeps_same_counters_update_client
            | apply keeps_same_counters_read_only, read_only_ret]. }
  intros _. apply keeps_bind;
    [tc_solve | apply keeps_same_counters_read_only, read_only_client |].
  intros c'. apply keeps_bind;
    [tc_solve | apply keeps_same_counters_read_only, read_only_lift |].
  intros avg. apply keeps_bind;
    [tc_solve | apply keeps_same_counters_update_client |].
  intros _. apply keeps_bind;
    [tc_solve | apply keeps_same_counters_read_only, read_only_get_now |].
  intros now. apply keeps_same_counters_record_latency.
Qed.

Lemma keeps_connect_admitted (self : nat) (c : Client.t) (sh : nat * nat) :
  keeps same_counters (connect_admitted self c sh).
Proof.
  unfold connect_admitted.
  apply keeps_bind; [tc_solve | apply keeps_same_counters_update_slice |].
  intros _. apply keeps_bind;
    [tc_solve | apply keeps_same_counters_update_client |].
  intros _. apply keeps_bind;
    [tc_solve | apply keeps_same_counters_read_only, read_only_get_now |].
  intros now. apply keeps_bind;
    [tc_solve | apply keeps_same_counters_update_client |].
  intros _. apply keeps_bind;
    [tc_solve | apply keeps_same_counters_update_latency_stats |].
  intros _. apply keeps_bind;
    [tc_solve | apply keeps_same_counters_read_only, read_only_get_slice |].
  intros _. apply keeps_bind; [tc_solve | apply keeps_print; tc_solve |].
  intros _. apply keeps_same_counters_read_only, read_only_ret.
Qed.

(** The step of [connect_refused] that counts: a handover when the new
    slice admits the client, a block when it does not, nothing when
    there is no new base station. *)
Lemma keeps_count_refusal (self : nat) (c : Client.t) :
  keeps (tail_accounted self)
    (match Client.base_station c with
     | Some _ =>
         let* s' := get_slice self in
         let* sh' := deref s' in
         let* sl' := slice_at sh' in
         let* available' := lift (is_avaliable sl') in
         if available' then
           let* _ := with_stats incr_handover_count self in
           update_client self
             (fun c => Client.set_handover_count c
                         (Client.handover_count c + 1)%Z)
         else with_stats incr_block_count self
     | None => ret tt
     end).
Proof.
  intros w. pose proof (same_counters_tail self w w (reflexivity w)) as Hrefl.
  destruct (Client.base_station c); [| exact Hrefl].
  read_step read_only_get_slice as s'; [exact Hrefl |].
  read_step (@read_only_deref (nat * nat)) as sh'; [exact Hrefl |].
  read_step read_only_slice_at as sl'; [exact Hrefl |].
  read_step (@read_only_lift bool) as available'; [exact Hrefl |].
  destruct available'; [| apply keeps_incr_block_count].
  apply (run_bind_rule (tail_accounted self) _ _ w (tail_accounted self w)).
  - apply keeps_incr_handover_count.
  - auto.
  - intros _ w1 Ht. apply (tail_same_counters _ _ _ _ Ht).
    apply keeps_same_counters_update_client.
Qed.

Lemma keeps_connect_refused (distance : Q * Q -> Q * Q -> Q) (self : nat)
    (c : Client.t) :
  keeps (tail_accounted self) (connect_refused distance self c).
Proof.
  intros w. unfold connect_refused.
  frame_step self
    ltac:(apply keeps_read_only; [tc_solve | apply read_only_get_now]).
  frame_step self
    ltac:(apply keeps_read_only; [tc_solve | apply read_only_deref]).
  frame_step self
    ltac:(apply keeps_read_only; [tc_solve | apply read_only_base_station_at]).
  frame_step self ltac:(apply keeps_assign_closest_base_station).
  frame_step self
    ltac:(apply keeps_read_only; [tc_solve | apply read_only_client]).
  frame_step self
    ltac:(destruct (Client.base_station _);
          [destruct (negb _);
           [apply keeps_bind;
            [tc_solve
            | apply keeps_read_only; [tc_solve | apply read_only_get_now]
            | intros; apply keeps_update_client; intros; split; reflexivity]
           | apply keeps_read_only; [tc_solve | apply read_only_ret]]
          | apply keeps_read_only; [tc_solve | apply read_only_ret]]).
  match goal with
  | |- tail_accounted self ?w1 (run_world (bind ?m ?k) ?w1) =>
      apply (run_bind_rule (tail_accounted self) m k w1
               (tail_accounted self w1))
  end.
  - apply keeps_count_refusal.
  - auto.
  - intros _ wz Ht. apply (tail_same_counters _ _ _ _ Ht).
    apply keeps_bind;
      [tc_solve | apply keeps_same_counters_read_only, read_only_get_slice |].
    intros _. apply keeps_bind; [tc_solve | apply keeps_print; tc_solve |].
    intros _. apply keeps_same_counters_read_only, read_only_ret.
Qed.

(** One call of [connect] counts at most one attempt, and after it at
    most one block or one handover. *)
Lemma connect_accounted (distance : Q * Q -> Q * Q -> Q) (self : nat)
    (w : World.t) :
  accounted w (run_world (connect distance self) w).
Proof.
  unfold connect. pose proof (accounted_refl w) as Hrefl.
  read_step read_only_get_slice as s; [exact Hrefl |].
  read_step read_only_client as c; [exact Hrefl |].
  destruct (Client.connected c); [exact Hrefl |].
  rewrite run_world_bind.
  destruct (run_result _ w) as [u | e] eqn:Hr.
  2:{ rewrite (incr_connect_attempt_raises _ _ _ Hr). exact Hrefl. }
  apply incr_connect_attempt_returns in Hr.
  apply (attempt_then_tail self _ _ _ Hr).
  set (w1 := run_world (with_stats incr_connect_attempt self) w).
  clearbody w1. clear Hr Hrefl.
  pose proof (same_counters_tail self w1 w1 (reflexivity w1)) as Hrefl.
  read_step (@read_only_deref (nat * nat)) as sh; [exact Hrefl |].
  read_step read_only_slice_at as sl; [exact Hrefl |].
  read_step (@read_only_lift bool) as available; [exact Hrefl |].
  destruct available.
  - apply same_counters_tail, keeps_connect_admitted.
  - apply keeps_connect_refused.
Qed.

(** Sample runs of [connect]: admitted at once; refused by both
    stations, which counts a block; refused by the first and welcome at
    the second, which counts a handover. *)
Example connect_admitted_run :
  run_result (connect manhattan 0) (one_cell waiting_client) = Ok (Some true)
  /\ period_counters (run_world (connect manhattan 0)
                                (one_cell waiting_client))
     = (1, 0, 0).
Proof. split; vm_compute; reflexivity. Qed.

Example connect_blocked_run :
  run_result (connect manhattan 0) (two_cells embb_full) = Ok (Some false)
  /\ period_counters (run_world (connect manhattan 0) (two_cells embb_full))
     = (1, 1, 0).
Proof. split; vm_compute; reflexivity. Qed.

Example connect_handover_run :
  run_result (connect manhattan 0) (two_cells lowlat_slice) = Ok (Some false)
  /\ period_counters (run_world (connect manhattan 0)
                                (two_cells lowlat_slice))
     = (1, 0, 1).
Proof. split; vm_compute; reflexivity. Qed.

(** C8. Over any stretch of an aggregation period, the blocks and the
    handovers counted are together at most the connect attempts counted;
    and each further call of [connect] counts at most one attempt and
    after it at most one block or one handover. *)
Theorem block_handover_accounting (distance : Q * Q -> Q * Q -> Q)
    (w w' : World.t) :
  period_steps distance w w' ->
  (period_blocks (World.stats w') - period_blocks (World.stats w))
  + (period_handovers (World.stats w') - period_handovers (World.stats w))
  <= period_attempts (World.stats w') - period_attempts (World.stats w)
  /\ forall self, accounted w' (run_world (connect distance self) w').
Proof.
  intros Hsteps. split; [| intros self; apply connect_accounted].
  induction Hsteps as [w | w1 w2 w3 _ IH Hstep]; [lra |].
  destruct Hstep as [self w2 | w2 w3 (A & B & C)].
  - destruct (connect_accounted distance self w2)
      as [(A & B & C) | (A & [(B & C) | [(B & C) | (B & C)]])];
      rewrite A, B, C; lra.
  - unfold period_attempts, period_blocks, period_handovers.
    rewrite A, B, C. exact IH.
Qed.

Lemma block_handover_accounting_witness :
  (period_blocks
     (World.stats (run_world (connect manhattan 0) (two_cells embb_full)))
   - period_blocks (World.stats (two_cells embb_full)))
  + (period_handovers
       (World.stats (run_world (connect manhattan 0) (two_cells embb_full)))
     - period_handovers (World.stats (two_cells embb_full)))
  <= period_attempts
       (World.stats (run_world (connect manhattan 0) (two_cells embb_full)))
     - period_attempts (World.stats (two_cells embb_full))
  /\ forall self,
       accounted (run_world (connect manhattan 0) (two_cells embb_full))
         (run_world (connect manhattan self)
            (run_world (connect manhattan 0) (two_cells embb_full))).
Proof.
  apply (block_handover_accounting manhattan (two_cells embb_full)).
  apply (steps_cons manhattan _ (two_cells embb_full));
    [apply steps_nil | apply step_connect].
Defined.

(** * Further properties of the engine *)

(** ** The share a slice offers *)

Lemma users_nonzero (n : Z) : (n <=? 0)%Z = false -> ~ inject_Z n == 0.
Proof.
  intros H E. apply Z.leb_gt in H.
  assert (0 < inject_Z n) by (rewrite <- (Zlt_Qlt 0); exact H). lra.
Qed.

(** X1. [get_consumable_share] never raises, whatever the user count:
    the division is only reached with a positive count.  The share it
    returns is at most [bandwidth_max]. *)
Theorem get_consumable_share_returns (s : Slice.t) :
  exists share,
    get_consumable_share s = Ok share /\ share <= Slice.bandwidth_max s.
Proof.
  assert (H : exists share, get_consumable_share s = Ok share).
  { unfold get_consumable_share.
    destruct (Slice.connected_users s <=? 0)%Z eqn:E; [eauto |].
    rewrite div_ok by (apply users_nonzero; exact E).
    destruct (Slice.qos_class s <=? 2)%Z; simpl; eauto. }
  destruct H as [share H]. exists share. split; [exact H |].
  now apply get_consumable_share_le_max.
Qed.

(** X2. The priority boost: of two slices with the same capacity, cap
    and positive user count, the one of class 1 or 2 offers at least the
    share of the one of a higher class, and at most 1.2 times it. *)
Theorem priority_boost (s1 s2 : Slice.t) :
  Slice.init_capacity s1 = Slice.init_capacity s2 ->
  Slice.bandwidth_max s1 = Slice.bandwidth_max s2 ->
  Slice.connected_users s1 = Slice.connected_users s2 ->
  (0 < Slice.connected_users s1)%Z ->
  0 <= Slice.init_capacity s1 ->
  0 <= Slice.bandwidth_max s1 ->
  (Slice.qos_class s1 <= 2)%Z ->
  (2 < Slice.qos_class s2)%Z ->
  exists boosted plain,
    get_consumable_share s1 = Ok boosted
    /\ get_consumable_share s2 = Ok plain
    /\ plain <= boosted
    /\ boosted <= (12 # 10) * plain.
Proof.
  intros Hi Hm Hu Hpos Hi0 Hm0 Hq1 Hq2.
  unfold get_consumable_share. rewrite <- Hi, <- Hm, <- Hu.
  assert (E : (Slice.connected_users s1 <=? 0)%Z = false)
    by (apply Z.leb_gt; exact Hpos).
  rewrite E, div_ok by (apply users_nonzero; exact E).
  assert (E1 : (Slice.qos_class s1 <=? 2)%Z = true) by (apply Z.leb_le; lia).
  assert (E2 : (Slice.qos_class s2 <=? 2)%Z = false) by (apply Z.leb_gt; lia).
  rewrite E1, E2. simpl res_bind.
  set (q := Slice.init_capacity s1 / inject_Z (Slice.connected_users s1)).
  assert (Hq : 0 <= q).
  { unfold q. apply Qle_shift_div_l; [| lra].
    rewrite <- (Zlt_Qlt 0). exact Hpos. }
  eexists _, _. split; [reflexivity |]. split; [reflexivity |].
  destruct (min_cases q (Slice.bandwidth_max s1)) as [[H ->] | [H ->]];
    match goal with
    | |- _ <= Py.min ?a ?b /\ _ =>
        destruct (min_cases a b) as [[H' ->] | [H' ->]]
    end; split; lra.
Qed.

Lemma priority_boost_witness :
  exists boosted plain,
    get_consumable_share
      (Slice.set_connected_users (new_slice "URLLC" 1 0 1 5 1 1 10 30) 4)
    = Ok boosted
    /\ get_consumable_share
         (Slice.set_connected_users (new_slice "eMBB" 1 0 1 100 3 1 10 30) 4)
       = Ok plain
    /\ plain <= boosted
    /\ boosted <= (12 # 10) * plain.
Proof.
  apply priority_boost; simpl; try reflexivity; try lia; lra.
Defined.

(** ** The weighted draws of [__main__] *)

Lemma first_reaching_ok (vals : list Q) (r : Q) (i k : nat) :
  first_reaching vals r i = Ok k <->
  exists j, k = (i + j)%nat
            /\ (exists v, vals !! j = Some v /\ r <= v)
            /\ (forall j' v, (j' < j)%nat -> vals !! j' = Some v -> v < r).
Proof.
  revert i. induction vals as [| v vals IH]; intros i; simpl.
  { split; [discriminate | intros (j & _ & (v & Hv & _) & _); discriminate]. }
  destruct (lt_b v r) eqn:E.
  - apply lt_b_true in E. rewrite IH. split.
    + intros (j & -> & (v' & Hv' & Hr) & Hlt). exists (S j).
      split; [lia |]. split; [exists v'; auto |].
      intros [| j'] v0 Hj Hv0; simpl in Hv0.
      * injection Hv0 as <-. exact E.
      * apply (Hlt j'); [lia | exact Hv0].
    + intros (j & -> & (v' & Hv' & Hr) & Hlt). destruct j as [| j].
      * simpl in Hv'. injection Hv' as <-. lra.
      * exists j. split; [lia |]. split; [exists v'; auto |].
        intros j' v0 Hj Hv0. apply (Hlt (S j')); [lia | exact Hv0].
  - apply lt_b_false in E. split.
    + intros [= <-]. exists 0%nat. split; [lia |].
      split; [exists v; auto |]. intros j' v0 Hj. lia.
    + intros (j & -> & (v' & Hv' & Hr) & Hlt). destruct j as [| j].
      * f_equal. lia.
      * specialize (Hlt 0%nat v (Nat.lt_0_succ j) eq_refl). lra.
Qed.

Lemma first_reaching_raises (vals : list Q) (r : Q) (i : nat) :
  (forall v, v ∈ vals -> v < r) -> first_reaching vals r i = Raise IndexError.
Proof.
  revert i. induction vals as [| v vals IH]; intros i H; simpl;
    [reflexivity |].
  assert (E : lt_b v r = true) by (apply lt_b_true, H; left).
  rewrite E. apply IH. intros v' Hv'. apply H. now right.
Qed.

(** X3. [get_random_slice_index] returns the first index whose
    cumulative weight is not below the draw, and raises [IndexError]
    when every weight is below it. *)
Theorem get_random_slice_index_spec (vals : list Q) (r : Q) :
  (forall i,
     get_random_slice_index vals r = Ok i <->
     (exists v, vals !! i = Some v /\ r <= v)
     /\ (forall j v, (j < i)%nat -> vals !! j = Some v -> v < r))
  /\ ((forall v, v ∈ vals -> v < r) ->
      get_random_slice_index vals r = Raise IndexError).
Proof.
  split.
  - intros i. unfold get_random_slice_index. rewrite first_reaching_ok.
    split.
    + intros (j & -> & H). exact H.
    + intros H. exists i. split; [reflexivity | exact H].
  - apply first_reaching_raises.
Qed.

Lemma first_reaching_returns (vals : list Q) (r : Q) (i : nat) :
  (exists v, v ∈ vals /\ r <= v) ->
  exists k, first_reaching vals r i = Ok k /\ (k < i + length vals)%nat.
Proof.
  revert i. induction vals as [| v vals IH]; intros i (x & Hx & Hr).
  { inversion Hx. }
  simpl. destruct (lt_b v r) eqn:E.
  - apply lt_b_true in E. destruct (IH (S i)) as (k & Hk & Hlt).
    { exists x. split; [| exact Hr].
      apply elem_of_cons in Hx as [-> | Hx]; [lra | exact Hx]. }
    exists k. split; [exact Hk | lia].
  - exists i. split; [reflexivity | lia].
Qed.

Lemma sum_from (l : list Q) (a : Q) : fold_left Qplus l a == a + Py.sum l.
Proof.
  unfold Py.sum. revert a. induction l as [| x l IH]; intros a; simpl.
  - ring.
  - rewrite (IH (a + x)), (IH (0 + x)). ring.
Qed.

Lemma sum_cons (x : Q) (l : list Q) : Py.sum (x :: l) == x + Py.sum l.
Proof. unfold Py.sum at 1. simpl. rewrite sum_from. ring. Qed.

Lemma cumulative_last (ws : list Q) (c : Q) :
  ws <> [] ->
  exists v, last (cumulative c ws) = Some v /\ v == c + Py.sum ws.
Proof.
  revert c. induction ws as [| w ws IH]; intros c Hne; [congruence |].
  destruct ws as [| w' ws'].
  - exists (c + w). split; [reflexivity |]. rewrite sum_cons.
    unfold Py.sum. simpl. ring.
  - destruct (IH (c + w)) as (v & Hl & Hv); [discriminate |].
    exists v. split; [exact Hl |]. rewrite Hv, (sum_cons w). ring.
Qed.

Lemma length_cumulative (ws : list Q) (c : Q) :
  length (cumulative c ws) = length ws.
Proof.
  revert c. induction ws as [| w ws IH]; intros c; simpl; [| rewrite IH];
    reflexivity.
Qed.



(** A draw of 0.45 against the weights 0.2, 0.3, 0.5 picks the second
    entry; against weights that only sum to 0.4 it raises. *)
Example weighted_draw_runs :
  get_random_slice_index (cumulative 0 [2 # 10; 3 # 10; 5 # 10]) (45 # 100)
  = Ok 1%nat
  /\ get_random_slice_index (cumulative 0 [2 # 10; 2 # 10]) (45 # 100)
     = Raise IndexError.
Proof. split; reflexivity. Qed.

(** ** Latency statistics of a slice *)

Lemma pushed_nonempty (h : list Q) (l : Q) : pushed h l <> [].
Proof.
  unfold pushed. destruct (100 <? length (h ++ [l]))%nat eqn:E.
  - apply Nat.ltb_lt in E. destruct (h ++ [l]) as [| a [| b t]];
      simpl in *; [lia | lia | discriminate].
  - destruct h; discriminate.
Qed.

(** [update_latency_stats] up to its last step. *)
Lemma update_latency_stats_eq (s : Slice.t) (l : Q) :
  update_latency_stats s l
  = _adapt_reserved_capacity
      (let s2 :=
         Slice.set_avg_latency
           (Slice.set_latency_history s (pushed (Slice.latency_history s) l))
           (Py.sum (pushed (Slice.latency_history s) l)
            / Py.len (pushed (Slice.latency_history s) l)) in
       if lt_b (Slice.delay_tolerance s) l
       then Slice.set_sla_violations s2 (Slice.sla_violations s + 1)
       else s2).
Proof.
  unfold update_latency_stats. simpl Slice.latency_history.
  pose proof (pushed_nonempty (Slice.latency_history s) l) as Hne.
  unfold pushed in *.
  destruct (100 <? length (Slice.latency_history s ++ [l]))%nat;
    simpl Slice.latency_history;
    match goal with
    | |- context [match ?h with [] => _ | _ :: _ => _ end] =>
        destruct h as [| a0 h0] eqn:E; [congruence |]
    end;
    rewrite div_ok by (apply len_nonzero; discriminate);
    simpl res_bind; simpl Slice.delay_tolerance;
    destruct (lt_b (Slice.delay_tolerance s) l); reflexivity.
Qed.

(** The adaptation, case by case. *)
Lemma adapt_reserved_capacity_eq (s : Slice.t) :
  _adapt_reserved_capacity s
  = Ok (if (length (Slice.latency_history s) <? 5)%nat then s
        else
          let recent_avg :=
            Py.sum (last_n 5 (Slice.latency_history s))
            / Py.len (last_n 5 (Slice.latency_history s)) in
          if lt_b (Slice.avg_latency s) recent_avg
             && lt_b ((8 # 10) * Slice.delay_tolerance s) recent_avg
          then Slice.set_reserved_capacity s
                 (Py.min (Slice.init_capacity s * (1 # 10))
                         (Slice.reserved_capacity s
                          + Slice.init_capacity s * (2 # 100)))
          else if lt_b recent_avg (Slice.avg_latency s)
                  && lt_b recent_avg ((5 # 10) * Slice.delay_tolerance s)
          then Slice.set_reserved_capacity s
                 (Py.max 0 (Slice.reserved_capacity s
                            - Slice.init_capacity s * (1 # 100)))
          else s).
Proof.
  unfold _adapt_reserved_capacity.
  destruct (length (Slice.latency_history s) <? 5)%nat eqn:E; [reflexivity |].
  apply Nat.ltb_ge in E. rewrite div_ok.
  2:{ apply len_nonzero. intros C.
      apply (f_equal (@length Q)) in C. rewrite length_last_n in C.
      change (length (@nil Q)) with 0%nat in C. lia. }
  simpl res_bind. cbv zeta.
  destruct (_ && _); [reflexivity |]. destruct (_ && _); reflexivity.
Qed.

Lemma sum_bounds (l : list Q) (lo hi : Q) :
  (forall x, x ∈ l -> lo <= x /\ x <= hi) ->
  lo * Py.len l <= Py.sum l /\ Py.sum l <= hi * Py.len l.
Proof.
  induction l as [| x l IH]; intros H.
  { change (Py.len (@nil Q)) with 0. change (Py.sum []) with 0.
    split; lra. }
  destruct IH as [IH1 IH2]. { intros y Hy. apply H. now right. }
  destruct (H x) as [Hx1 Hx2]; [left |].
  assert (E : Py.len (x :: l) == Py.len l + 1).
  { unfold Py.len. simpl length. rewrite Nat2Z.inj_succ, <- Z.add_1_r.
    rewrite inject_Z_plus. reflexivity. }
  rewrite sum_cons, E. split; lra.
Qed.

Lemma average_bounds (l : list Q) (lo hi : Q) :
  l <> [] ->
  (forall x, x ∈ l -> lo <= x /\ x <= hi) ->
  lo <= Py.sum l / Py.len l /\ Py.sum l / Py.len l <= hi.
Proof.
  intros Hne H. destruct (sum_bounds l lo hi H) as [H1 H2].
  assert (Hpos : 0 < Py.len l).
  { destruct l as [| x l]; [congruence |]. unfold Py.len.
    rewrite <- (Zlt_Qlt 0). simpl length. lia. }
  split; [apply Qle_shift_div_l | apply Qle_shift_div_r]; assumption.
Qed.

(** X5. Every call of [update_latency_stats] returns; it counts one more
    SLA violation exactly when the new latency is above the tolerance
    and never lowers the count; the average it stores is the mean of
    the retained history, so it lies between any two bounds of the
    retained measurements. *)
Theorem update_latency_stats_sla_average (s : Slice.t) (l : Q) :
  exists s',
    update_latency_stats s l = Ok s'
    /\ Slice.sla_violations s'
       = (Slice.sla_violations s
          + (if lt_b (Slice.delay_tolerance s) l then 1 else 0))%Z
    /\ Slice.avg_latency s'
       = Py.sum (Slice.latency_history s')
         / Py.len (Slice.latency_history s')
    /\ forall lo hi,
         (forall x, x ∈ Slice.latency_history s' -> lo <= x /\ x <= hi) ->
         lo <= Slice.avg_latency s' /\ Slice.avg_latency s' <= hi.
Proof.
  rewrite update_latency_stats_eq, adapt_reserved_capacity_eq.
  pose proof (pushed_nonempty (Slice.latency_history s) l) as Hne.
  eexists. split; [reflexivity |]. cbv zeta.
  destruct (lt_b (Slice.delay_tolerance s) l);
    destruct (_ <? 5)%nat; [| destruct (_ && _); [| destruct (_ && _)]
                            | | destruct (_ && _); [| destruct (_ && _)]];
    simpl; (split; [lia |]); (split; [reflexivity |]);
    intros lo hi H; apply average_bounds; assumption.
Qed.

Lemma length_pushed (h : list Q) (l : Q) :
  length (pushed h l)
  = if (100 <? S (length h))%nat then length h else S (length h).
Proof.
  unfold pushed. rewrite length_app, Nat.add_1_r.
  destruct (100 <? S (length h))%nat.
  - destruct h as [| a t]; simpl; [reflexivity |].
    rewrite length_app, Nat.add_1_r. reflexivity.
  - rewrite length_app, Nat.add_1_r. reflexivity.
Qed.

(** The slice that [update_latency_stats] returns, field by field. *)
Lemma update_latency_stats_result (s : Slice.t) (l : Q) :
  let h := pushed (Slice.latency_history s) l in
  let recent_avg := Py.sum (last_n 5 h) / Py.len (last_n 5 h) in
  exists s',
    update_latency_stats s l = Ok s'
    /\ Slice.latency_history s' = h
    /\ Slice.avg_latency s' = Py.sum h / Py.len h
    /\ Slice.reserved_capacity s'
       = if (length h <? 5)%nat then Slice.reserved_capacity s
         else if lt_b (Py.sum h / Py.len h) recent_avg
                 && lt_b ((8 # 10) * Slice.delay_tolerance s) recent_avg
         then Py.min (Slice.init_capacity s * (1 # 10))
                     (Slice.reserved_capacity s
                      + Slice.init_capacity s * (2 # 100))
         else if lt_b recent_avg (Py.sum h / Py.len h)
                 && lt_b recent_avg ((5 # 10) * Slice.delay_tolerance s)
         then Py.max 0 (Slice.reserved_capacity s
                        - Slice.init_capacity s * (1 # 100))
         else Slice.reserved_capacity s.
Proof.
  intros h recent_avg.
  rewrite update_latency_stats_eq, adapt_reserved_capacity_eq.
  eexists. split; [reflexivity |]. fold h. cbv zeta.
  destruct (lt_b (Slice.delay_tolerance s) l);
    cbn [Slice.latency_history Slice.avg_latency Slice.delay_tolerance
         Slice.init_capacity Slice.reserved_capacity
         Slice.set_sla_violations Slice.set_avg_latency
         Slice.set_latency_history];
    fold recent_avg;
    destruct (length h <? 5)%nat; try (repeat split; reflexivity);
    destruct (lt_b (Py.sum h / Py.len h) recent_avg
              && lt_b ((8 # 10) * Slice.delay_tolerance s) recent_avg);
    try (repeat split; reflexivity);
    destruct (lt_b recent_avg (Py.sum h / Py.len h)
              && lt_b recent_avg ((5 # 10) * Slice.delay_tolerance s));
    repeat split; reflexivity.
Qed.

(** X6. The reservation does not adapt before the slice has seen five
    measurements: a call on a history of fewer than four entries leaves
    [reserved_capacity] as it was. *)
Theorem no_adaptation_before_five (s : Slice.t) (l : Q) :
  (length (Slice.latency_history s) < 4)%nat ->
  exists s',
    update_latency_stats s l = Ok s'
    /\ Slice.reserved_capacity s' = Slice.reserved_capacity s.
Proof.
  intros Hlen.
  destruct (update_latency_stats_result s l) as (s' & Hs' & _ & _ & Hr).
  exists s'. split; [exact Hs' |]. rewrite Hr.
  assert (E : (length (pushed (Slice.latency_history s) l) <? 5)%nat = true).
  { apply Nat.ltb_lt. rewrite length_pushed. destruct (100 <? _)%nat; lia. }
  now rewrite E.
Qed.

Lemma no_adaptation_before_five_witness :
  exists s',
    update_latency_stats embb_full 500 = Ok s'
    /\ Slice.reserved_capacity s' = Slice.reserved_capacity embb_full.
Proof. apply no_adaptation_before_five. simpl. lia. Defined.

(** X7. Under the bounds of the reservation, a call raises it only when
    the mean of the last five measurements is above 0.8 of the tolerance
    and above the overall average, and lowers it only when that mean is
    below 0.5 of the tolerance and below the overall average. *)
Theorem adaptation_direction (s : Slice.t) (l : Q) :
  0 <= Slice.init_capacity s ->
  0 <= Slice.reserved_capacity s ->
  Slice.reserved_capacity s <= (1 # 10) * Slice.init_capacity s ->
  exists s',
    update_latency_stats s l = Ok s'
    /\ let recent_avg :=
         Py.sum (last_n 5 (Slice.latency_history s'))
         / Py.len (last_n 5 (Slice.latency_history s')) in
       (Slice.reserved_capacity s < Slice.reserved_capacity s' ->
        (5 <= length (Slice.latency_history s'))%nat
        /\ (8 # 10) * Slice.delay_tolerance s < recent_avg
        /\ Slice.avg_latency s' < recent_avg)
       /\ (Slice.reserved_capacity s' < Slice.reserved_capacity s ->
           (5 <= length (Slice.latency_history s'))%nat
           /\ recent_avg < (5 # 10) * Slice.delay_tolerance s
           /\ recent_avg < Slice.avg_latency s').
Proof.
  intros Hi H0 H1.
  destruct (update_latency_stats_result s l) as (s' & Hs' & Hh & Ha & Hr).
  exists s'. split; [exact Hs' |]. cbv zeta. rewrite Hh, Ha, Hr.
  set (h := pushed (Slice.latency_history s) l).
  set (recent_avg := Py.sum (last_n 5 h) / Py.len (last_n 5 h)).
  pose proof (min_cases (Slice.init_capacity s * (1 # 10))
                (Slice.reserved_capacity s
                 + Slice.init_capacity s * (2 # 100))) as Hmin.
  pose proof (max_cases 0 (Slice.reserved_capacity s
                           - Slice.init_capacity s * (1 # 100))) as Hmax.
  destruct (length h <? 5)%nat eqn:E5; [split; intros C; lra |].
  apply Nat.ltb_ge in E5.
  destruct (lt_b (Py.sum h / Py.len h) recent_avg
            && lt_b ((8 # 10) * Slice.delay_tolerance s) recent_avg) eqn:E1.
  { apply andb_true_iff in E1 as [A1 A2]. apply lt_b_true in A1, A2.
    split; intros C; [tauto |].
    destruct Hmin as [[? Hm] | [? Hm]]; rewrite Hm in C; lra. }
  destruct (lt_b recent_avg (Py.sum h / Py.len h)
            && lt_b recent_avg ((5 # 10) * Slice.delay_tolerance s)) eqn:E2.
  { apply andb_true_iff in E2 as [A1 A2]. apply lt_b_true in A1, A2.
    split; intros C; [| tauto].
    destruct Hmax as [[? Hm] | [? Hm]]; rewrite Hm in C; lra. }
  split; intros C; lra.
Qed.

Lemma adaptation_direction_witness :
  exists s',
    update_latency_stats embb_full 3 = Ok s'
    /\ let recent_avg :=
         Py.sum (last_n 5 (Slice.latency_history s'))
         / Py.len (last_n 5 (Slice.latency_history s')) in
       (Slice.reserved_capacity embb_full < Slice.reserved_capacity s' ->
        (5 <= length (Slice.latency_history s'))%nat
        /\ (8 # 10) * Slice.delay_tolerance embb_full < recent_avg
        /\ Slice.avg_latency s' < recent_avg)
       /\ (Slice.reserved_capacity s' < Slice.reserved_capacity embb_full ->
           (5 <= length (Slice.latency_history s'))%nat
           /\ recent_avg < (5 # 10) * Slice.delay_tolerance embb_full
           /\ recent_avg < Slice.avg_latency s').
Proof. apply adaptation_direction; simpl; lra. Defined.

(** ** The counters and the handover series of the collector *)

Lemma incr_last_snoc (l : list Q) (a : Q) :
  incr_last (l ++ [a]) = Ok (l ++ [a + 1]).
Proof.
  unfold incr_last. rewrite last_snoc, length_app, Nat.add_1_r. simpl.
  rewrite insert_app_r_alt by lia. rewrite Nat.sub_diag. reflexivity.
Qed.

(** X8. The three counters of the collector only move for a client
    inside the statistics rectangle.  For such a client an increment
    adds one to the last entry of its list and touches nothing else, and
    raises [IndexError] while the list is still empty, as it is before
    the first tick of the collector. *)
Theorem counter_increments (st : Stats.t) (c : Client.t) :
  (is_client_in_coverage st c = false ->
   incr_connect_attempt st c = Ok st
   /\ incr_block_count st c = Ok st
   /\ incr_handover_count st c = Ok st)
  /\ (is_client_in_coverage st c = true ->
      (Stats.connect_attempt st = [] ->
       incr_connect_attempt st c = Raise IndexError)
      /\ (Stats.block_count st = [] ->
          incr_block_count st c = Raise IndexError)
      /\ (Stats.handover_count st = [] ->
          incr_handover_count st c = Raise IndexError)
      /\ (forall l a,
            Stats.connect_attempt st = l ++ [a] ->
            incr_connect_attempt st c
            = Ok (Stats.set_connect_attempt st (l ++ [a + 1])))
      /\ (forall l a,
            Stats.block_count st = l ++ [a] ->
            incr_block_count st c
            = Ok (Stats.set_block_count st (l ++ [a + 1])))
      /\ (forall l a,
            Stats.handover_count st = l ++ [a] ->
            incr_handover_count st c
            = Ok (Stats.set_handover_count st (l ++ [a + 1])))).
Proof.
  unfold incr_connect_attempt, incr_block_count, incr_handover_count.
  split; intros ->; [tauto |].
  repeat split;
    first [ intros ->; reflexivity
          | intros l a ->; rewrite incr_last_snoc; reflexivity ].
Qed.

Lemma repeat_replicate {A} (x : A) (n : nat) : repeat x n = replicate n x.
Proof. induction n as [| n IH]; simpl; [| rewrite IH]; reflexivity. Qed.

Lemma int_nonneg (q : Q) : 0 <= q -> (0 <= Py.int q)%Z.
Proof.
  intros H. unfold Py.int. apply Z.quot_pos; [| lia].
  unfold Qle in H. simpl in H. lia.
Qed.

Lemma index_ok {A} (l : list A) (i : Z) :
  (0 <= i < Z.of_nat (length l))%Z -> Py.index l i = Ok (Z.to_nat i).
Proof.
  intros H. unfold Py.index.
  assert (E : ((0 <=? i) && (i <? Z.of_nat (length l)))%Z = true).
  { apply andb_true_iff. split; [apply Z.leb_le | apply Z.ltb_lt]; lia. }
  now rewrite E.
Qed.

(** X9. [record_latency] ignores the latency it is given: what it files
    under the slot [int(now)] is the latest handover latency of the
    client, and nothing when the client has none.  The series grows to
    hold the slot, the slot gains that one entry, and the other slots
    keep theirs. *)
Theorem record_latency_slot (st : Stats.t) (now : Q) (c : Client.t)
    (latency : Q) :
  0 <= now ->
  (Client.handover_latencies c = [] -> record_latency st now c latency = Ok st)
  /\ (forall latest,
        last (Client.handover_latencies c) = Some latest ->
        let slot := Z.to_nat (Py.int now) in
        exists st',
          record_latency st now c latency = Ok st'
          /\ length (Stats.handover_latencies st')
             = Nat.max (length (Stats.handover_latencies st)) (S slot)
          /\ Stats.handover_latencies st' !! slot
             = Some (default [] (Stats.handover_latencies st !! slot)
                     ++ [latest])
          /\ (forall j, j <> slot ->
                        (j < length (Stats.handover_latencies st))%nat ->
                        Stats.handover_latencies st' !! j
                        = Stats.handover_latencies st !! j)
          /\ Stats.connect_attempt st' = Stats.connect_attempt st
          /\ Stats.block_count st' = Stats.block_count st
          /\ Stats.handover_count st' = Stats.handover_count st).
Proof.
  intros Hnow. pose proof (int_nonneg now Hnow) as Hint.
  split.
  { intros E. unfold record_latency. now rewrite E. }
  intros latest Hlast slot. unfold record_latency. rewrite Hlast.
  set (hl := Stats.handover_latencies st).
  set (n := Py.int now) in *.
  assert (Hn : Z.of_nat slot = n) by (unfold slot; lia).
  destruct (Z.of_nat (length hl) <=? n)%Z eqn:E.
  - apply Z.leb_le in E. rewrite repeat_replicate.
    set (k := Z.to_nat (n - Z.of_nat (length hl) + 1)).
    assert (Hk : (length hl + k = S slot)%nat) by (unfold k; lia).
    rewrite index_ok by (rewrite length_app, length_replicate; lia).
    simpl res_bind. fold slot. eexists. split; [reflexivity |]. simpl.
    assert (Hnone : hl !! slot = None) by (apply lookup_ge_None; lia).
    split; [rewrite length_alter, length_app, length_replicate; lia |].
    split.
    + rewrite list_lookup_alter_eq, lookup_app_r by lia.
      rewrite lookup_replicate_2 by lia. rewrite Hnone. reflexivity.
    + split; [| tauto]. intros j Hj Hlt.
      rewrite list_lookup_alter_ne by congruence.
      now rewrite lookup_app_l.
  - apply Z.leb_gt in E. rewrite index_ok by lia.
    simpl res_bind. fold slot. eexists. split; [reflexivity |]. simpl.
    destruct (lookup_lt_is_Some_2 hl slot) as [old Hold]; [lia |].
    split; [rewrite length_alter; lia |].
    split; [rewrite list_lookup_alter_eq, Hold; reflexivity |].
    split; [| tauto]. intros j Hj Hlt.
    now rewrite list_lookup_alter_ne by congruence.
Qed.

Lemma record_latency_slot_witness :
  (Client.handover_latencies roaming_client = [] ->
   record_latency fresh_stats (9 # 4)
     roaming_client 7
   = Ok fresh_stats)
  /\ (forall latest,
        last (Client.handover_latencies
                roaming_client)
        = Some latest ->
        let slot := Z.to_nat (Py.int (9 # 4)) in
        exists st',
          record_latency fresh_stats (9 # 4)
            roaming_client 7
          = Ok st'
          /\ length (Stats.handover_latencies st')
             = Nat.max
                 (length (Stats.handover_latencies
                            fresh_stats))
                 (S slot)
          /\ Stats.handover_latencies st' !! slot
             = Some (default []
                       (Stats.handover_latencies
                          fresh_stats !! slot)
                     ++ [latest])
          /\ (forall j, j <> slot ->
                (j < length (Stats.handover_latencies
                               fresh_stats))%nat ->
                Stats.handover_latencies st' !! j
                = Stats.handover_latencies
                    fresh_stats !! j)
          /\ Stats.connect_attempt st'
             = Stats.connect_attempt fresh_stats
          /\ Stats.block_count st'
             = Stats.block_count fresh_stats
          /\ Stats.handover_count st'
             = Stats.handover_count fresh_stats).
Proof.
  apply (record_latency_slot fresh_stats (9 # 4)
           roaming_client 7).
  vm_compute. discriminate.
Defined.

(** At time 2.25 the handover latency 0.25 of the client is filed under
    the slot 2, whatever latency the call was given. *)
Example record_latency_run :
  Stats.handover_latencies <$>
    (match record_latency fresh_stats (9 # 4)
             roaming_client 7
     with Ok st => Some st | Raise _ => None end)
  = Some [[]; []; [1 # 4]].
Proof. reflexivity. Qed.

(** ** Rules for calls that return *)

Lemma returns_bind {A B} (m : M A) (k : A -> M B) (w : World.t)
    (post : B -> World.t -> list event -> Prop) :
  returns m w
    (fun a w1 out1 =>
       returns (k a) w1 (fun b w2 out2 => post b w2 (out1 ++ out2))) ->
  returns (bind m k) w post.
Proof.
  intros (a & w1 & out1 & Hm & b & w2 & out2 & Hk & Hpost).
  exists b, w2, (out1 ++ out2). split; [| exact Hpost].
  unfold bind. now rewrite Hm, Hk.
Qed.

Lemma returns_weaken {A} (m : M A) (w : World.t)
    (post post' : A -> World.t -> list event -> Prop) :
  returns m w post ->
  (forall a w' out, post a w' out -> post' a w' out) ->
  returns m w post'.
Proof. intros (a & w' & out & Hm & H) Himp. exists a, w', out. auto. Qed.

Lemma returns_ret {A} (a : A) (w : World.t)
    (post : A -> World.t -> list event -> Prop) :
  post a w [] -> returns (ret a) w post.
Proof. intros H. exists a, w, []. auto. Qed.

Lemma returns_lift {A} (r : Res A) (a : A) (w : World.t)
    (post : A -> World.t -> list event -> Prop) :
  r = Ok a -> post a w [] -> returns (lift r) w post.
Proof. intros -> H. exists a, w, []. auto. Qed.

Lemma returns_print (e : event) (w : World.t)
    (post : unit -> World.t -> list event -> Prop) :
  post tt w [e] -> returns (print e) w post.
Proof. intros H. exists tt, w, [e]. auto. Qed.

Lemma returns_get_now (w : World.t)
    (post : Q -> World.t -> list event -> Prop) :
  post (World.now w) w [] -> returns get_now w post.
Proof. intros H. exists (World.now w), w, []. auto. Qed.

Lemma returns_deref {A} (a : A) (w : World.t)
    (post : A -> World.t -> list event -> Prop) :
  post a w [] -> returns (deref (Some a)) w post.
Proof. apply returns_ret. Qed.

Lemma returns_client (h : nat) (c : Client.t) (w : World.t)
    (post : Client.t -> World.t -> list event -> Prop) :
  World.clients w !! h = Some c -> post c w [] -> returns (client h) w post.
Proof.
  intros Hc H. exists c, w, []. split; [now apply client_ok | exact H].
Qed.

Lemma returns_base_station_at (b : nat) (bs : BaseStation.t) (w : World.t)
    (post : BaseStation.t -> World.t -> list event -> Prop) :
  World.base_stations w !! b = Some bs -> post bs w [] ->
  returns (base_station_at b) w post.
Proof.
  intros Hb H. exists bs, w, []. split; [| exact H].
  unfold base_station_at. now rewrite Hb.
Qed.

Lemma returns_slice_at (h : nat * nat) (sl : Slice.t) (w : World.t)
    (post : Slice.t -> World.t -> list event -> Prop) :
  the_slice w h = Some sl -> post sl w [] -> returns (slice_at h) w post.
Proof.
  unfold the_slice. intros Hs H. exists sl, w, []. split; [| exact H].
  unfold slice_at, bind, base_station_at.
  destruct (World.base_stations w !! fst h) as [bs |]; [| discriminate].
  now rewrite Hs.
Qed.

Lemma returns_get_slice (self : nat) (c : Client.t) (b : nat)
    (sl : Slice.t) (w : World.t)
    (post : option (nat * nat) -> World.t -> list event -> Prop) :
  World.clients w !! self = Some c ->
  Client.base_station c = Some b ->
  the_slice w (b, Client.subscribed_slice_index c) = Some sl ->
  post (Some (b, Client.subscribed_slice_index c)) w [] ->
  returns (get_slice self) w post.
Proof.
  unfold the_slice. simpl. intros Hc Hb Hs H.
  exists (Some (b, Client.subscribed_slice_index c)), w, [].
  split; [| exact H].
  unfold get_slice. rewrite (bind_ok _ _ _ _ (client_ok _ _ _ Hc)), Hb.
  unfold bind, base_station_at.
  destruct (World.base_stations w !! b) as [bs |]; [| discriminate].
  now rewrite Hs.
Qed.

Lemma returns_update_client (h : nat) (f : Client.t -> Client.t)
    (w : World.t) (post : unit -> World.t -> list event -> Prop) :
  post tt (World.set_clients w (alter f h (World.clients w))) [] ->
  returns (update_client h f) w post.
Proof. intros H. eexists _, _, _. split; [reflexivity | exact H]. Qed.

Lemma returns_update_slice (h : nat * nat) (f : Slice.t -> Slice.t)
    (w : World.t) (post : unit -> World.t -> list event -> Prop) :
  post tt (run_world (update_slice h f) w) [] ->
  returns (update_slice h f) w post.
Proof. intros H. eexists _, _, _. split; [reflexivity | exact H]. Qed.

Lemma returns_with_stats (f : Stats.t -> Client.t -> Res Stats.t) (h : nat)
    (c : Client.t) (st : Stats.t) (w : World.t)
    (post : unit -> World.t -> list event -> Prop) :
  World.clients w !! h = Some c ->
  f (World.stats w) c = Ok st ->
  post tt (World.set_stats w st) [] ->
  returns (with_stats f h) w post.
Proof.
  intros Hc Hf H. exists tt, (World.set_stats w st), [].
  split; [| exact H]. rewrite run_with_stats, Hc, Hf. reflexivity.
Qed.

Lemma the_slice_update_slice (h : nat * nat) (f : Slice.t -> Slice.t)
    (w : World.t) :
  the_slice (run_world (update_slice h f) w) h = f <$> the_slice w h.
Proof.
  unfold the_slice, run_world, update_slice. simpl.
  rewrite list_lookup_alter_eq.
  destruct (World.base_stations w !! fst h) as [bs |]; [| reflexivity].
  simpl. apply list_lookup_alter_eq.
Qed.

Lemma the_slice_update_slice_ne (h h' : nat * nat) (f : Slice.t -> Slice.t)
    (w : World.t) :
  h <> h' ->
  the_slice (run_world (update_slice h f) w) h' = the_slice w h'.
Proof.
  intros Hne. unfold the_slice, run_world, update_slice. simpl.
  rewrite list_lookup_alter.
  destruct (decide (fst h = fst h')) as [E |]; [| reflexivity].
  rewrite E. destruct (World.base_stations w !! fst h') as [bs |];
    [| reflexivity].
  simpl. apply list_lookup_alter_ne. intros E'. apply Hne.
  destruct h, h'; simpl in *; congruence.
Qed.

(** ** Attaching and detaching *)

(** X10. [connect] on a client that is already connected does nothing:
    the world is what it was, no attempt is counted, nothing is printed,
    and the call returns [None] once the slice of the client resolves. *)
Theorem connect_connected (distance : Q * Q -> Q * Q -> Q) (w : World.t)
    (self : nat) (c : Client.t) :
  World.clients w !! self = Some c ->
  Client.connected c = true ->
  (exists r, connect distance self w = (r, w, []))
  /\ (forall s, get_slice self w = (Ok s, w, []) ->
                connect distance self w = (Ok None, w, [])).
Proof.
  intros Hc Hconn.
  assert (Hrun : forall s, get_slice self w = (Ok s, w, []) ->
                           connect distance self w = (Ok None, w, [])).
  { intros s Hs. unfold connect.
    rewrite (bind_ok _ _ _ _ Hs), (bind_ok _ _ _ _ (client_ok _ _ _ Hc)).
    now rewrite Hconn. }
  split; [| exact Hrun].
  destruct (read_only_get_slice self w) as [[s | e] Hs].
  - exists (Ok None). now apply (Hrun s).
  - exists (Raise e). unfold connect.
    now rewrite (bind_raise _ _ _ _ _ _ Hs).
Qed.

Lemma connect_connected_witness :
  (exists r, connect manhattan 0 (one_cell busy_client)
             = (r, one_cell busy_client, []))
  /\ (forall s, get_slice 0 (one_cell busy_client)
                = (Ok s, one_cell busy_client, []) ->
                connect manhattan 0 (one_cell busy_client)
                = (Ok None, one_cell busy_client, [])).
Proof.
  apply (connect_connected manhattan (one_cell busy_client) 0 busy_client);
    reflexivity.
Defined.

(** X11. [disconnect] on a connected client whose slice resolves returns
    [True], takes one user off the count of that slice and clears
    [connected]; it returns no units: the container of the slice and
    every other attribute of the client, [last_usage] among them, are
    what they were, and so are the other slices, the other clients and
    the collector. *)
Theorem disconnect_connected (w : World.t) (self b : nat) (c : Client.t)
    (sl : Slice.t) :
  World.clients w !! self = Some c ->
  Client.connected c = true ->
  Client.base_station c = Some b ->
  the_slice w (b, Client.subscribed_slice_index c) = Some sl ->
  exists w',
    disconnect self w = (Ok true, w', [Disconnected (Client.pk c)])
    /\ World.clients w' !! self = Some (Client.set_connected c false)
    /\ (forall j, j <> self -> World.clients w' !! j = World.clients w !! j)
    /\ the_slice w' (b, Client.subscribed_slice_index c)
       = Some (Slice.set_connected_users sl (Slice.connected_users sl - 1))
    /\ (forall h, h <> (b, Client.subscribed_slice_index c) ->
                  the_slice w' h = the_slice w h)
    /\ World.stats w' = World.stats w.
Proof.
  intros Hc Hconn Hb Hs.
  set (h := (b, Client.subscribed_slice_index c)) in *.
  set (f := fun sl0 => Slice.set_connected_users sl0
                         (Slice.connected_users sl0 - 1)%Z).
  set (w1 := run_world (update_slice h f) w).
  set (w2 := World.set_clients w1
               (alter (fun c0 => Client.set_connected c0 false) self
                      (World.clients w1))).
  assert (Hc2 : World.clients w2 !! self = Some (Client.set_connected c false)).
  { unfold w2, w1, run_world, update_slice. simpl.
    now rewrite list_lookup_alter_eq, Hc. }
  assert (Hs2 : the_slice w2 h = Some (f sl)).
  { change (the_slice w2 h) with (the_slice w1 h). unfold w1.
    now rewrite the_slice_update_slice, Hs. }
  assert (R : returns (disconnect self) w
                (fun a w' out =>
                   a = true /\ w' = w2 /\ out = [Disconnected (Client.pk c)])).
  { unfold disconnect.
    apply returns_bind, (returns_client self c); [exact Hc |].
    rewrite Hconn. simpl negb. cbv iota.
    apply returns_bind, returns_bind,
      (returns_get_slice self c b sl); [exact Hc | exact Hb | exact Hs |].
    apply returns_bind, returns_deref.
    apply returns_bind, returns_update_slice. fold h f w1.
    apply returns_bind, returns_update_client. fold w2.
    apply returns_bind,
      (returns_get_slice self (Client.set_connected c false) b (f sl));
      [exact Hc2 | exact Hb | exact Hs2 |].
    apply returns_print.
    apply returns_bind,
      (returns_client self (Client.set_connected c false)); [exact Hc2 |].
    apply returns_ret. simpl. tauto. }
  destruct R as (a & w' & out & Hrun & -> & -> & ->).
  exists w2. split; [exact Hrun |]. split; [exact Hc2 |].
  split.
  { intros j Hj. unfold w2, w1, run_world, update_slice. simpl.
    now rewrite list_lookup_alter_ne by congruence. }
  split; [exact Hs2 |]. split; [| reflexivity].
  intros h' Hh'. change (the_slice w2 h') with (the_slice w1 h').
  unfold w1. now apply the_slice_update_slice_ne.
Qed.

Lemma disconnect_connected_witness :
  exists w',
    disconnect 0 (one_cell busy_client)
    = (Ok true, w', [Disconnected (Client.pk busy_client)])
    /\ World.clients w' !! 0%nat = Some (Client.set_connected busy_client false)
    /\ (forall j, j <> 0%nat ->
                  World.clients w' !! j
                  = World.clients (one_cell busy_client) !! j)
    /\ the_slice w' (0%nat, Client.subscribed_slice_index busy_client)
       = Some (Slice.set_connected_users lowlat_slice
                 (Slice.connected_users lowlat_slice - 1))
    /\ (forall h, h <> (0%nat, Client.subscribed_slice_index busy_client) ->
                  the_slice w' h = the_slice (one_cell busy_client) h)
    /\ World.stats w' = World.stats (one_cell busy_client).
Proof.
  apply (disconnect_connected (one_cell busy_client) 0 0 busy_client
           lowlat_slice); reflexivity.
Defined.

(** ** Tracking one client and one slice through a call *)

Lemma changed_refl (self : nat) (h : nat * nat) (c : Client.t)
    (sl : Slice.t) (w : World.t) :
  World.clients w !! self = Some c -> the_slice w h = Some sl ->
  changed self h c sl w w.
Proof. intros Hc Hs. unfold changed. auto. Qed.

Lemma changed_update_client (self : nat) (h : nat * nat) (c1 : Client.t)
    (sl1 : Slice.t) (w w1 : World.t) (f : Client.t -> Client.t) :
  changed self h c1 sl1 w w1 ->
  changed self h (f c1) sl1 w
    (World.set_clients w1 (alter f self (World.clients w1))).
Proof.
  intros (Hc & Ho & Hs & Hso & Hn). unfold changed. simpl.
  split; [now rewrite list_lookup_alter_eq, Hc |].
  split; [| auto].
  intros j Hj. rewrite list_lookup_alter_ne by congruence. auto.
Qed.

Lemma changed_update_slice (self : nat) (h : nat * nat) (c1 : Client.t)
    (sl1 : Slice.t) (w w1 : World.t) (f : Slice.t -> Slice.t) :
  changed self h c1 sl1 w w1 ->
  changed self h c1 (f sl1) w (run_world (update_slice h f) w1).
Proof.
  intros (Hc & Ho & Hs & Hso & Hn). unfold changed.
  split; [exact Hc |]. split; [exact Ho |].
  split; [now rewrite the_slice_update_slice, Hs |].
  split; [| exact Hn].
  intros h' Hh'. rewrite the_slice_update_slice_ne by congruence. auto.
Qed.

Lemma changed_set_stats (self : nat) (h : nat * nat) (c1 : Client.t)
    (sl1 : Slice.t) (w w1 : World.t) (st : Stats.t) :
  changed self h c1 sl1 w w1 ->
  changed self h c1 sl1 w (World.set_stats w1 st).
Proof. intros H. exact H. Qed.

Lemma record_latency_ok (st : Stats.t) (now : Q) (c : Client.t) (l : Q) :
  0 <= now -> exists st', record_latency st now c l = Ok st'.
Proof.
  intros Hnow. pose proof (int_nonneg now Hnow) as Hint.
  unfold record_latency.
  destruct (last (Client.handover_latencies c)); [| eauto].
  set (hl := Stats.handover_latencies st).
  destruct (Z.of_nat (length hl) <=? Py.int now)%Z eqn:E.
  - apply Z.leb_le in E.
    rewrite index_ok by (rewrite length_app, repeat_length; lia).
    simpl. eauto.
  - apply Z.leb_gt in E. rewrite index_ok by lia. simpl. eauto.
Qed.

Lemma with_latency_cases (c : Client.t) (l : Q) :
  with_latency c l
  = Client.set_avg_latency
      (let c1 := Client.set_last_latency c l in
       let c2 := if lt_b (Client.max_latency c) l
                 then Client.set_max_latency c1 l else c1 in
       match Client.min_latency c with
       | Some m => if lt_b l m
                   then Client.set_min_latency c2 (Some l) else c2
       | None => Client.set_min_latency c2 (Some l)
       end)
      (Py.sum (Client.latencies c) / Py.len (Client.latencies c)).
Proof.
  unfold with_latency, Py.max, Py.min. destruct c. simpl.
  destruct (lt_b max_latency l); destruct min_latency as [m |];
    try destruct (lt_b l m); reflexivity.
Qed.

Lemma changed_client (self : nat) (h : nat * nat) (c1 : Client.t)
    (sl1 : Slice.t) (w w1 : World.t) :
  changed self h c1 sl1 w w1 -> World.clients w1 !! self = Some c1.
Proof. intros H. apply H. Qed.

Lemma changed_slice (self : nat) (h : nat * nat) (c1 : Client.t)
    (sl1 : Slice.t) (w w1 : World.t) :
  changed self h c1 sl1 w w1 -> the_slice w1 h = Some sl1.
Proof. intros H. apply H. Qed.

Lemma changed_now (self : nat) (h : nat * nat) (c1 : Client.t)
    (sl1 : Slice.t) (w w1 : World.t) :
  changed self h c1 sl1 w w1 -> World.now w1 = World.now w.
Proof. intros H. apply H. Qed.

(** The steps of a proof that follows a call through its writes to the
    client and to the slice; [H] is the [changed] fact so far. *)
Ltac write_client H :=
  apply returns_bind, returns_update_client; cbv beta;
  lazymatch goal with
  | |- context [World.set_clients ?w1 (alter ?f _ (World.clients ?w1))] =>
      apply (changed_update_client _ _ _ _ _ _ f) in H;
      let wn := fresh "w" in
      set (wn := World.set_clients w1 _) in *; clearbody wn
  end.

Ltac write_slice H :=
  apply returns_bind, returns_update_slice; cbv beta;
  lazymatch goal with
  | |- context [run_world (update_slice ?h ?f) ?w1] =>
      apply (changed_update_slice _ _ _ _ _ _ f) in H;
      let wn := fresh "w" in
      set (wn := run_world (update_slice h f) w1) in *; clearbody wn
  end.

Ltac read_client H :=
  apply returns_bind; eapply returns_client;
  [exact (changed_client _ _ _ _ _ _ H) |]; cbv beta.

Ltac read_now H :=
  apply returns_bind, returns_get_now; cbv beta;
  rewrite (changed_now _ _ _ _ _ _ H).

Lemma returns_seq {A B} (m : M A) (k : A -> M B) (w : World.t)
    (mid : A -> World.t -> list event -> Prop)
    (post : B -> World.t -> list event -> Prop) :
  returns m w mid ->
  (forall a w1 out1,
     mid a w1 out1 ->
     returns (k a) w1 (fun b w2 out2 => post b w2 (out1 ++ out2))) ->
  returns (bind m k) w post.
Proof.
  intros Hm Hk. apply returns_bind.
  apply (returns_weaken _ _ _ _ Hm). exact Hk.
Qed.

(** A write to the client that is only made when [b] holds. *)
Lemma returns_write_if (b : bool) (self : nat) (h : nat * nat)
    (c1 : Client.t) (sl1 : Slice.t) (w w1 : World.t)
    (f : Client.t -> Client.t) :
  changed self h c1 sl1 w w1 ->
  returns (if b then update_client self f else ret tt) w1
    (fun _ w' out =>
       out = [] /\ changed self h (if b then f c1 else c1) sl1 w w').
Proof.
  intros Hch. destruct b.
  - apply returns_update_client. split; [reflexivity |].
    now apply changed_update_client.
  - apply returns_ret. split; [reflexivity | exact Hch].
Qed.

(** [Client._update_latency_stats] on a client that has a latency on
    record, at a time that is not negative. *)
Lemma update_latency_stats_changed (self : nat) (h : nat * nat)
    (c1 : Client.t) (sl1 : Slice.t) (w w1 : World.t) (l : Q) :
  changed self h c1 sl1 w w1 ->
  Client.latencies c1 <> [] ->
  0 <= World.now w ->
  returns (_update_latency_stats self l) w1
    (fun _ w' out => out = [] /\ changed self h (with_latency c1 l) sl1 w w').
Proof.
  intros Hch Hne Hnow. rewrite with_latency_cases. cbv zeta.
  unfold _update_latency_stats.
  write_client Hch. read_client Hch.
  simpl Client.max_latency. simpl Client.min_latency.
  eapply returns_seq; [apply returns_write_if, Hch |].
  cbv beta. clear Hch. intros _ w3 out3 [-> Hch].
  set (c2 := if lt_b (Client.max_latency c1) l then _ else _) in *.
  eapply (returns_seq _ _ _
            (fun _ w' out =>
               out = []
               /\ changed self h
                    match Client.min_latency c1 with
                    | Some m => if lt_b l m
                                then Client.set_min_latency c2 (Some l)
                                else c2
                    | None => Client.set_min_latency c2 (Some l)
                    end sl1 w w')).
  { destruct (Client.min_latency c1) as [m |].
    - apply (returns_write_if (lt_b l m) self h c2 sl1 w w3
               (fun c => Client.set_min_latency c (Some l))), Hch.
    - apply returns_update_client. split; [reflexivity |].
      apply (changed_update_client _ _ _ _ _ _
               (fun c => Client.set_min_latency c (Some l))), Hch. }
  cbv beta. clear Hch. intros _ w4 out4 [-> Hch].
  set (c3 := match Client.min_latency c1 with Some _ => _ | None => _ end)
    in *.
  assert (Hlat : Client.latencies c3 = Client.latencies c1).
  { unfold c3, c2. destruct (Client.min_latency c1) as [m |];
      [destruct (lt_b l m) |]; destruct (lt_b (Client.max_latency c1) l);
      reflexivity. }
  read_client Hch. rewrite Hlat.
  apply returns_bind,
    (returns_lift _ (Py.sum (Client.latencies c1)
                     / Py.len (Client.latencies c1)));
    [apply div_ok, len_nonzero, Hne |].
  write_client Hch. read_now Hch.
  lazymatch type of Hch with
  | changed _ _ ?cx _ _ ?wx =>
      destruct (record_latency_ok (World.stats wx) (World.now w) cx l Hnow)
        as [st' Hst]
  end.
  eapply returns_with_stats;
    [exact (changed_client _ _ _ _ _ _ Hch) | exact Hst |].
  split; [reflexivity |]. apply changed_set_stats, Hch.
Qed.

Lemma container_put_ok (k : Container.t) (amount : Q) :
  0 < amount -> exists k', Container.put k amount = Ok k'.
Proof.
  intros H. unfold Container.put.
  assert (E : le_b amount 0 = false) by (apply le_b_false; exact H).
  rewrite E. destruct (Container.trigger_put _ _ _). eauto.
Qed.

Lemma snoc_nonempty {A} (l : list A) (a : A) : l ++ [a] <> [].
Proof. destruct l; discriminate. Qed.

(** [release_consume] on a client that holds units. *)
Lemma release_consume_runs (w : World.t) (self b : nat) (c : Client.t)
    (sl : Slice.t) (cap : Container.t) :
  World.clients w !! self = Some c ->
  Client.base_station c = Some b ->
  the_slice w (b, Client.subscribed_slice_index c) = Some sl ->
  0 < Client.last_usage c ->
  0 <= World.now w ->
  Container.put (Slice.capacity sl) (Client.last_usage c) = Ok cap ->
  returns (release_consume self) w
    (fun _ w' _ =>
       changed self (b, Client.subscribed_slice_index c)
         (released c (World.now w)) (Slice.set_capacity sl cap) w w').
Proof.
  intros Hc Hb Hs Hlu Hnow Hput.
  pose proof (changed_refl self _ c sl w Hc Hs) as Hch.
  unfold release_consume.
  apply returns_bind, (returns_get_slice self c b sl); try assumption.
  read_client Hch.
  assert (E : lt_b 0 (Client.last_usage c) = true) by now apply lt_b_true.
  rewrite E.
  apply returns_bind, returns_deref.
  apply returns_bind; eapply returns_slice_at;
    [exact (changed_slice _ _ _ _ _ _ Hch) |]; cbv beta.
  apply returns_bind, (returns_lift _ cap); [exact Hput |].
  write_slice Hch. read_now Hch. write_client Hch.
  eapply returns_seq.
  { apply (update_latency_stats_changed _ _ _ _ _ _ _ Hch);
      [apply snoc_nonempty | exact Hnow]. }
  cbv beta. clear Hch. intros _ w2 out2 [-> Hch].
  apply returns_bind, returns_print.
  apply returns_bind.
  apply (returns_weaken _ _
           (fun _ w' _ => w' = w2)).
  { destruct (lt_b (Slice.delay_tolerance sl) _);
      [apply returns_print | apply returns_ret]; reflexivity. }
  cbv beta. intros _ w3 out3 ->.
  write_client Hch. write_client Hch. write_client Hch.
  apply returns_update_client.
  apply (changed_update_client _ _ _ _ _ _
           (fun c => Client.set_last_usage c 0)) in Hch.
  exact Hch.
Qed.

(** X12. [release_consume] on a client that holds units, at a time that
    is not negative, returns; it hands [last_usage] to [put] on the
    container of the slice and to nothing else of the slice, moves that
    amount from [usage_remaining] to [total_usage], clears
    [last_usage], counts one consume tick and records the service
    latency [now - request_start_time].  The client stays attached and
    connected, and no other client or slice changes. *)
Theorem release_consume_returns_units (w : World.t) (self b : nat)
    (c : Client.t) (sl : Slice.t) :
  World.clients w !! self = Some c ->
  Client.base_station c = Some b ->
  the_slice w (b, Client.subscribed_slice_index c) = Some sl ->
  0 < Client.last_usage c ->
  0 <= World.now w ->
  exists w' out c' sl',
    release_consume self w = (Ok tt, w', out)
    /\ changed self (b, Client.subscribed_slice_index c) c' sl' w w'
    /\ Client.usage_remaining c'
       = Client.usage_remaining c - Client.last_usage c
    /\ Client.total_usage c' = Client.total_usage c + Client.last_usage c
    /\ Client.last_usage c' = 0
    /\ Client.total_consume_time c' = (Client.total_consume_time c + 1)%Z
    /\ Client.latencies c'
       = Client.latencies c ++ [World.now w - Client.request_start_time c]
    /\ Client.connected c' = Client.connected c
    /\ Client.base_station c' = Client.base_station c
    /\ Container.put (Slice.capacity sl) (Client.last_usage c)
       = Ok (Slice.capacity sl')
    /\ Slice.connected_users sl' = Slice.connected_users sl.
Proof.
  intros Hc Hb Hs Hlu Hnow.
  destruct (container_put_ok (Slice.capacity sl) (Client.last_usage c) Hlu)
    as [cap Hput].
  destruct (release_consume_runs w self b c sl cap Hc Hb Hs Hlu Hnow Hput)
    as ([] & w' & out & Hrun & Hch).
  exists w', out, (released c (World.now w)), (Slice.set_capacity sl cap).
  split; [exact Hrun |]. split; [exact Hch |].
  repeat split; try reflexivity. exact Hput.
Qed.

Lemma release_consume_returns_units_witness :
  exists w' out c' sl',
    release_consume 0
      (one_cell (Client.set_last_usage busy_client 4)) = (Ok tt, w', out)
    /\ changed 0
         (0%nat,
          Client.subscribed_slice_index (Client.set_last_usage busy_client 4))
         c' sl' (one_cell (Client.set_last_usage busy_client 4)) w'
    /\ Client.usage_remaining c'
       = Client.usage_remaining (Client.set_last_usage busy_client 4)
         - Client.last_usage (Client.set_last_usage busy_client 4)
    /\ Client.total_usage c'
       = Client.total_usage (Client.set_last_usage busy_client 4)
         + Client.last_usage (Client.set_last_usage busy_client 4)
    /\ Client.last_usage c' = 0
    /\ Client.total_consume_time c'
       = (Client.total_consume_time (Client.set_last_usage busy_client 4)
          + 1)%Z
    /\ Client.latencies c'
       = Client.latencies (Client.set_last_usage busy_client 4)
         ++ [World.now (one_cell (Client.set_last_usage busy_client 4))
             - Client.request_start_time
                 (Client.set_last_usage busy_client 4)]
    /\ Client.connected c'
       = Client.connected (Client.set_last_usage busy_client 4)
    /\ Client.base_station c'
       = Client.base_station (Client.set_last_usage busy_client 4)
    /\ Container.put (Slice.capacity lowlat_slice)
         (Client.last_usage (Client.set_last_usage busy_client 4))
       = Ok (Slice.capacity sl')
    /\ Slice.connected_users sl' = Slice.connected_users lowlat_slice.
Proof.
  apply (release_consume_returns_units
           (one_cell (Client.set_last_usage busy_client 4)) 0 0
           (Client.set_last_usage busy_client 4) lowlat_slice);
    try reflexivity.
  vm_compute. discriminate.
Defined.

Lemma incr_connect_attempt_ok (st : Stats.t) (c : Client.t) :
  is_client_in_coverage st c = false \/ Stats.connect_attempt st <> [] ->
  exists st', incr_connect_attempt st c = Ok st'.
Proof.
  intros H. unfold incr_connect_attempt.
  destruct (is_client_in_coverage st c); [| eauto].
  destruct H as [H | H]; [discriminate |].
  unfold incr_last. destruct (last (Stats.connect_attempt st)) eqn:E;
    simpl; [eauto |].
  apply last_None in E. contradiction.
Qed.

(** [connect] on a client that is not connected, when its slice is
    available. *)
Lemma connect_runs (distance : Q * Q -> Q * Q -> Q) (w : World.t)
    (self b : nat) (c : Client.t) (sl : Slice.t) :
  World.clients w !! self = Some c ->
  Client.connected c = false ->
  Client.base_station c = Some b ->
  the_slice w (b, Client.subscribed_slice_index c) = Some sl ->
  is_avaliable sl = Ok true ->
  is_client_in_coverage (World.stats w) c = false
  \/ Stats.connect_attempt (World.stats w) <> [] ->
  0 <= World.now w ->
  returns (connect distance self) w
    (fun a w' out =>
       a = Some true
       /\ out = [Connected (Client.pk c)
                   (World.now w - Client.request_start_time c)]
       /\ changed self (b, Client.subscribed_slice_index c)
            (admitted c (World.now w))
            (Slice.set_connected_users sl (Slice.connected_users sl + 1))
            w w').
Proof.
  intros Hc Hconn Hb Hs Hav Hcount Hnow.
  pose proof (changed_refl self _ c sl w Hc Hs) as Hch.
  destruct (incr_connect_attempt_ok _ _ Hcount) as [st Hst].
  unfold connect.
  apply returns_bind, (returns_get_slice self c b sl); try assumption.
  read_client Hch. rewrite Hconn.
  apply returns_bind, (returns_with_stats _ _ c st); [exact Hc | exact Hst |].
  apply (changed_set_stats _ _ _ _ _ _ st) in Hch.
  set (w0 := World.set_stats w st) in *. clearbody w0.
  apply returns_bind, returns_deref.
  apply returns_bind; eapply returns_slice_at;
    [exact (changed_slice _ _ _ _ _ _ Hch) |]; cbv beta.
  apply returns_bind, (returns_lift _ true); [exact Hav |].
  unfold connect_admitted.
  write_slice Hch. write_client Hch. read_now Hch. write_client Hch.
  eapply returns_seq.
  { apply (update_latency_stats_changed _ _ _ _ _ _ _ Hch);
      [apply snoc_nonempty | exact Hnow]. }
  cbv beta. clear Hch. intros _ w4 out4 [-> Hch].
  apply returns_bind; eapply returns_get_slice;
    [exact (changed_client _ _ _ _ _ _ Hch) | exact Hb
     | exact (changed_slice _ _ _ _ _ _ Hch) |]; cbv beta.
  apply returns_bind, returns_print. apply returns_ret.
  split; [reflexivity |]. split; [reflexivity | exact Hch].
Qed.

(** [disconnect] on a connected client, in terms of what has changed
    since an earlier world. *)
Lemma disconnect_runs (w w1 : World.t) (self b : nat) (c1 : Client.t)
    (sl1 : Slice.t) :
  changed self (b, Client.subscribed_slice_index c1) c1 sl1 w w1 ->
  Client.connected c1 = true ->
  Client.base_station c1 = Some b ->
  returns (disconnect self) w1
    (fun a w' out =>
       a = true
       /\ changed self (b, Client.subscribed_slice_index c1)
            (Client.set_connected c1 false)
            (Slice.set_connected_users sl1 (Slice.connected_users sl1 - 1))
            w w').
Proof.
  intros Hch Hconn Hb. unfold disconnect.
  read_client Hch. rewrite Hconn. simpl negb. cbv iota.
  apply returns_bind, returns_bind.
  eapply returns_get_slice;
    [exact (changed_client _ _ _ _ _ _ Hch) | exact Hb
     | exact (changed_slice _ _ _ _ _ _ Hch) |]; cbv beta.
  apply returns_bind, returns_deref.
  write_slice Hch. write_client Hch.
  apply returns_bind; eapply returns_get_slice;
    [exact (changed_client _ _ _ _ _ _ Hch) | exact Hb
     | exact (changed_slice _ _ _ _ _ _ Hch) |]; cbv beta.
  apply returns_print. read_client Hch.
  apply returns_ret. split; [reflexivity | exact Hch].
Qed.

(** X13. [connect] on a client that is not connected, whose slice
    resolves and is available, returns [True]: the slice counts one
    more user, the client is connected, and the connection latency
    [now - request_start_time] is appended to its latencies and becomes
    its last latency.  What the client owes and holds, the container of
    the slice, and every other client and slice are what they were. *)
Theorem connect_attaches (distance : Q * Q -> Q * Q -> Q) (w : World.t)
    (self b : nat) (c : Client.t) (sl : Slice.t) :
  World.clients w !! self = Some c ->
  Client.connected c = false ->
  Client.base_station c = Some b ->
  the_slice w (b, Client.subscribed_slice_index c) = Some sl ->
  is_avaliable sl = Ok true ->
  is_client_in_coverage (World.stats w) c = false
  \/ Stats.connect_attempt (World.stats w) <> [] ->
  0 <= World.now w ->
  exists w' c',
    connect distance self w
    = (Ok (Some true), w',
       [Connected (Client.pk c) (World.now w - Client.request_start_time c)])
    /\ changed self (b, Client.subscribed_slice_index c) c'
         (Slice.set_connected_users sl (Slice.connected_users sl + 1)) w w'
    /\ Client.connected c' = true
    /\ Client.latencies c'
       = Client.latencies c ++ [World.now w - Client.request_start_time c]
    /\ Client.last_latency c' = World.now w - Client.request_start_time c
    /\ Client.usage_remaining c' = Client.usage_remaining c
    /\ Client.last_usage c' = Client.last_usage c
    /\ Client.base_station c' = Client.base_station c.
Proof.
  intros Hc Hconn Hb Hs Hav Hcount Hnow.
  destruct (connect_runs distance w self b c sl Hc Hconn Hb Hs Hav Hcount Hnow)
    as (a & w' & out & Hrun & -> & -> & Hch).
  exists w', (admitted c (World.now w)).
  split; [exact Hrun |]. split; [exact Hch |].
  repeat split; reflexivity.
Qed.

Lemma connect_attaches_witness :
  exists w' c',
    connect manhattan 0 (one_cell waiting_client)
    = (Ok (Some true), w',
       [Connected (Client.pk waiting_client)
          (World.now (one_cell waiting_client)
           - Client.request_start_time waiting_client)])
    /\ changed 0 (0%nat, Client.subscribed_slice_index waiting_client) c'
         (Slice.set_connected_users lowlat_slice
            (Slice.connected_users lowlat_slice + 1))
         (one_cell waiting_client) w'
    /\ Client.connected c' = true
    /\ Client.latencies c'
       = Client.latencies waiting_client
         ++ [World.now (one_cell waiting_client)
             - Client.request_start_time waiting_client]
    /\ Client.last_latency c'
       = World.now (one_cell waiting_client)
         - Client.request_start_time waiting_client
    /\ Client.usage_remaining c' = Client.usage_remaining waiting_client
    /\ Client.last_usage c' = Client.last_usage waiting_client
    /\ Client.base_station c' = Client.base_station waiting_client.
Proof.
  apply (connect_attaches manhattan (one_cell waiting_client) 0 0
           waiting_client lowlat_slice);
    try reflexivity.
  - right. discriminate.
  - vm_compute. discriminate.
Defined.

(** X14. Attaching and detaching compose to nothing on the slice: after
    a [connect] that attaches the client and the [disconnect] that
    follows, the slice has the user count and the container it had, the
    client is disconnected again, and what it owes is untouched. *)
Theorem connect_disconnect_round_trip (distance : Q * Q -> Q * Q -> Q)
    (w : World.t) (self b : nat) (c : Client.t) (sl : Slice.t) :
  World.clients w !! self = Some c ->
  Client.connected c = false ->
  Client.base_station c = Some b ->
  the_slice w (b, Client.subscribed_slice_index c) = Some sl ->
  is_avaliable sl = Ok true ->
  is_client_in_coverage (World.stats w) c = false
  \/ Stats.connect_attempt (World.stats w) <> [] ->
  0 <= World.now w ->
  exists w1 out1 w2 out2 c2 sl2,
    connect distance self w = (Ok (Some true), w1, out1)
    /\ disconnect self w1 = (Ok true, w2, out2)
    /\ changed self (b, Client.subscribed_slice_index c) c2 sl2 w w2
    /\ Slice.connected_users sl2 = Slice.connected_users sl
    /\ Slice.capacity sl2 = Slice.capacity sl
    /\ Client.connected c2 = false
    /\ Client.usage_remaining c2 = Client.usage_remaining c
    /\ Client.last_usage c2 = Client.last_usage c.
Proof.
  intros Hc Hconn Hb Hs Hav Hcount Hnow.
  destruct (connect_runs distance w self b c sl Hc Hconn Hb Hs Hav Hcount Hnow)
    as (a & w1 & out1 & Hrun1 & -> & _ & Hch1).
  destruct (disconnect_runs w w1 self b (admitted c (World.now w)) _ Hch1
              eq_refl Hb)
    as (a2 & w2 & out2 & Hrun2 & -> & Hch2).
  eexists w1, out1, w2, out2, _, _.
  split; [exact Hrun1 |]. split; [exact Hrun2 |]. split; [exact Hch2 |].
  repeat split; try reflexivity. simpl. lia.
Qed.

Lemma connect_disconnect_round_trip_witness :
  exists w1 out1 w2 out2 c2 sl2,
    connect manhattan 0 (one_cell waiting_client) = (Ok (Some true), w1, out1)
    /\ disconnect 0 w1 = (Ok true, w2, out2)
    /\ changed 0 (0%nat, Client.subscribed_slice_index waiting_client)
         c2 sl2 (one_cell waiting_client) w2
    /\ Slice.connected_users sl2 = Slice.connected_users lowlat_slice
    /\ Slice.capacity sl2 = Slice.capacity lowlat_slice
    /\ Client.connected c2 = false
    /\ Client.usage_remaining c2 = Client.usage_remaining waiting_client
    /\ Client.last_usage c2 = Client.last_usage waiting_client.
Proof.
  apply (connect_disconnect_round_trip manhattan (one_cell waiting_client)
           0 0 waiting_client lowlat_slice);
    try reflexivity.
  - right. discriminate.
  - vm_compute. discriminate.
Defined.

(** ** Sorting by a key *)

Lemma elem_of_insert_by {A} (key : A -> Q) (a x : A) (l : list A) :
  x ∈ insert_by key a l <-> x = a \/ x ∈ l.
Proof.
  induction l as [| b l IH]; simpl.
  - rewrite list_elem_of_singleton. split; [auto | intros [H | H]; auto].
    inversion H.
  - destruct (lt_b (key a) (key b)).
    + rewrite elem_of_cons. reflexivity.
    + rewrite !elem_of_cons, IH. tauto.
Qed.

Lemma elem_of_sort_by {A} (key : A -> Q) (x : A) (l : list A) :
  x ∈ sort_by key l <-> x ∈ l.
Proof.
  unfold sort_by.
  assert (G : forall acc, x ∈ fold_left (fun acc a => insert_by key a acc) l acc
                          <-> x ∈ l \/ x ∈ acc).
  { induction l as [| a l IH]; intros acc; simpl.
    - split; [auto | intros [H | H]; [inversion H | exact H]].
    - rewrite IH, elem_of_insert_by, elem_of_cons. tauto. }
  rewrite G. split; [intros [H | H]; [exact H | inversion H] | auto].
Qed.

Lemma ascending_insert_by {A} (key : A -> Q) (a : A) (l : list A) :
  ascending key l -> ascending key (insert_by key a l).
Proof.
  induction 1 as [| b l Hb Hl IH]; simpl.
  - constructor; [intros x Hx; inversion Hx | constructor].
  - destruct (lt_b (key a) (key b)) eqn:E.
    + apply lt_b_true in E. constructor; [| now constructor].
      intros x Hx. apply elem_of_cons in Hx as [-> | Hx]; [lra |].
      specialize (Hb x Hx). lra.
    + apply lt_b_false in E. constructor; [| exact IH].
      intros x Hx. apply elem_of_insert_by in Hx as [-> | Hx]; auto.
Qed.

Lemma ascending_sort_by {A} (key : A -> Q) (l : list A) :
  ascending key (sort_by key l).
Proof.
  unfold sort_by.
  assert (G : forall acc, ascending key acc ->
                          ascending key
                            (fold_left (fun acc a => insert_by key a acc)
                                       l acc)).
  { induction l as [| a l IH]; intros acc Hacc; simpl; [exact Hacc |].
    apply IH, ascending_insert_by, Hacc. }
  apply G. constructor.
Qed.

(** ** The choice of a base station *)

Lemma base_station_at_ok (w : World.t) (b : nat) (bs : BaseStation.t) :
  World.base_stations w !! b = Some bs ->
  base_station_at b w = (Ok bs, w, []).
Proof. intros H. unfold base_station_at. now rewrite H. Qed.

(** The candidates that the first loop keeps, with their scores. *)
Lemma score_candidates_spec (distance : Q * Q -> Q * Q -> Q) (w : World.t)
    (c : Client.t) (exclude : option (list nat))
    (candidates : list (Q * nat)) :
  (forall d b, (d, b) ∈ candidates ->
     exists bs s, World.base_stations w !! b = Some bs
                  /\ score_of distance c bs = Ok s) ->
  exists scored,
    score_candidates distance c exclude candidates w = (Ok scored, w, [])
    /\ forall score d b,
         (score, d, b) ∈ scored <->
         exists d0 bs,
           (d0, b) ∈ candidates
           /\ World.base_stations w !! b = Some bs
           /\ ~ excluded exclude bs
           /\ d = distance (Client.x c, Client.y c)
                           (Coverage.center (BaseStation.coverage bs))
           /\ score_of distance c bs = Ok score.
Proof.
  induction candidates as [| [d0 b0] rest IH]; intros Hwf.
  { exists []. split; [reflexivity |]. intros score d b. split.
    - intros H. inversion H.
    - intros (? & ? & H & _). inversion H. }
  destruct IH as (scored & Hrun & Hspec).
  { intros d b Hin. apply (Hwf d b). now right. }
  destruct (Hwf d0 b0) as (bs0 & s0 & Hbs0 & Hs0); [left |].
  simpl score_candidates.
  rewrite (bind_ok _ _ _ _ (base_station_at_ok _ _ _ Hbs0)).
  assert (Hex : match exclude with
                | Some pks => bool_decide (BaseStation.pk bs0 ∈ pks)
                | None => false
                end = true <-> excluded exclude bs0).
  { unfold excluded. destruct exclude as [pks |].
    - apply bool_decide_eq_true.
    - split; [discriminate | tauto]. }
  destruct (match exclude with Some _ => _ | None => _ end) eqn:E.
  - exists scored. split; [exact Hrun |]. intros score d b.
    rewrite Hspec. split.
    + intros (d1 & bs & Hin & H). exists d1, bs. split; [now right | exact H].
    + intros (d1 & bs & Hin & Hbs & Hnex & H).
      apply elem_of_cons in Hin as [[= -> ->] | Hin].
      * rewrite Hbs0 in Hbs. injection Hbs as <-. tauto.
      * exists d1, bs. tauto.
  - assert (Hnex0 : ~ excluded exclude bs0).
    { intros C. apply Hex in C. discriminate. }
    pose proof Hs0 as Hscore0. unfold score_of, slice_load in Hs0.
    set (dist := distance (Client.x c, Client.y c)
                          (Coverage.center (BaseStation.coverage bs0))) in *.
    exists ((s0, dist, b0) :: scored). split.
    + destruct (BaseStation.slices bs0 !! Client.subscribed_slice_index c)
        as [ts |].
      * destruct (Py.div _ _) as [used |] eqn:Ed; [| discriminate].
        simpl in Hs0. injection Hs0 as <-.
        match goal with
        | |- bind ?m _ w = _ =>
            assert (H1 : m w = (Ok (1 - used), w, []))
              by reflexivity;
            rewrite (bind_ok _ _ _ _ H1)
        end.
        cbv zeta. rewrite (bind_ok _ _ _ _ Hrun). reflexivity.
      * simpl in Hs0. injection Hs0 as <-.
        match goal with
        | |- bind ?m _ w = _ =>
            assert (H1 : m w = (Ok 0, w, [])) by reflexivity;
            rewrite (bind_ok _ _ _ _ H1)
        end.
        cbv zeta. rewrite (bind_ok _ _ _ _ Hrun). reflexivity.
    + intros score d b. rewrite elem_of_cons, Hspec. split.
      * intros [[= -> -> ->] | (d1 & bs & Hin & H)].
        -- exists d0, bs0. split; [left |].
           repeat split; assumption.
        -- exists d1, bs. split; [now right | exact H].
      * intros (d1 & bs & Hin & Hbs & Hnex & Hd & Hsc).
        apply elem_of_cons in Hin as [[= -> ->] | Hin].
        -- left. rewrite Hbs0 in Hbs. injection Hbs as <-.
           rewrite Hscore0 in Hsc. injection Hsc as <-. now rewrite Hd.
        -- right. exists d1, bs. tauto.
Qed.

(** What the second loop finds in a list whose scores ascend. *)
Lemma first_covering_spec (w : World.t) (scored : list (Q * Q * nat)) :
  (forall score d b, (score, d, b) ∈ scored ->
     exists bs, World.base_stations w !! b = Some bs) ->
  ascending (fun t => fst (fst t)) scored ->
  exists found,
    first_covering scored w = (Ok found, w, [])
    /\ match found with
       | Some (score, b) =>
           exists d bs,
             (score, d, b) ∈ scored
             /\ World.base_stations w !! b = Some bs
             /\ d <= Coverage.radius (BaseStation.coverage bs)
             /\ forall score' d' b' bs',
                  (score', d', b') ∈ scored ->
                  World.base_stations w !! b' = Some bs' ->
                  d' <= Coverage.radius (BaseStation.coverage bs') ->
                  score <= score'
       | None =>
           forall score d b bs,
             (score, d, b) ∈ scored ->
             World.base_stations w !! b = Some bs ->
             Coverage.radius (BaseStation.coverage bs) < d
       end.
Proof.
  induction scored as [| [[score0 d0] b0] rest IH]; intros Hwf Hasc.
  { exists None. split; [reflexivity |]. intros ? ? ? ? H. inversion H. }
  inversion Hasc as [| ? ? Hmin Hrest]; subst.
  destruct (Hwf score0 d0 b0) as [bs0 Hbs0]; [left |].
  simpl first_covering.
  rewrite (bind_ok _ _ _ _ (base_station_at_ok _ _ _ Hbs0)).
  destruct (le_b d0 (Coverage.radius (BaseStation.coverage bs0))) eqn:E.
  - apply le_b_true in E. exists (Some (score0, b0)).
    split; [reflexivity |]. exists d0, bs0.
    split; [left |]. split; [exact Hbs0 |]. split; [exact E |].
    intros score' d' b' bs' Hin _ _.
    apply elem_of_cons in Hin as [[= -> -> ->] | Hin]; [lra |].
    apply (Hmin (score', d', b') Hin).
  - apply le_b_false in E.
    destruct IH as (found & Hrun & Hspec); [| exact Hrest |].
    { intros score d b Hin. apply (Hwf score d b). now right. }
    exists found. split; [exact Hrun |].
    destruct found as [[score b] |].
    + destruct Hspec as (d & bs & Hin & Hbs & Hd & Hleast).
      exists d, bs. split; [now right |]. split; [exact Hbs |].
      split; [exact Hd |].
      intros score' d' b' bs' Hin' Hbs' Hd'.
      apply elem_of_cons in Hin' as [[= -> -> ->] | Hin'].
      * rewrite Hbs0 in Hbs'. injection Hbs' as <-. lra.
      * now apply (Hleast score' d' b' bs').
    + intros score d b bs Hin Hbs.
      apply elem_of_cons in Hin as [[= -> -> ->] | Hin].
      * rewrite Hbs0 in Hbs. injection Hbs as <-. exact E.
      * now apply (Hspec score d b bs).
Qed.

(** X15. [assign_closest_base_station], on a client whose cached
    candidates all resolve to base stations with a defined score,
    returns and changes no base station.  When it attaches the client,
    the base station is one of the cached candidates, it is not
    excluded, its disk holds the client, and no candidate that is not
    excluded and holds the client has a lower score.  When it leaves
    the client unattached, no candidate that is not excluded holds the
    client. *)
Theorem assign_closest_base_station_choice
    (distance : Q * Q -> Q * Q -> Q) (w : World.t) (self : nat)
    (c : Client.t) (exclude : option (list nat)) :
  World.clients w !! self = Some c ->
  (forall d b, (d, b) ∈ Client.closest_base_stations c ->
     exists bs s, World.base_stations w !! b = Some bs
                  /\ score_of distance c bs = Ok s) ->
  exists w' out c',
    assign_closest_base_station distance self exclude w = (Ok tt, w', out)
    /\ World.clients w' !! self = Some c'
    /\ World.base_stations w' = World.base_stations w
    /\ match Client.base_station c' with
       | Some b' =>
           exists d0 bs' s',
             (d0, b') ∈ Client.closest_base_stations c
             /\ World.base_stations w !! b' = Some bs'
             /\ ~ excluded exclude bs'
             /\ covers distance c bs'
             /\ score_of distance c bs' = Ok s'
             /\ forall d1 b1 bs1 s1,
                  (d1, b1) ∈ Client.closest_base_stations c ->
                  World.base_stations w !! b1 = Some bs1 ->
                  ~ excluded exclude bs1 ->
                  covers distance c bs1 ->
                  score_of distance c bs1 = Ok s1 ->
                  s' <= s1
       | None =>
           forall d1 b1 bs1,
             (d1, b1) ∈ Client.closest_base_stations c ->
             World.base_stations w !! b1 = Some bs1 ->
             ~ excluded exclude bs1 ->
             ~ covers distance c bs1
       end.
Proof.
  intros Hc Hwf.
  destruct (score_candidates_spec distance w c exclude _ Hwf)
    as (scored & Hscored & Hspec).
  set (sorted := sort_by (fun t : Q * Q * nat => fst (fst t)) scored).
  assert (Hin : forall t, t ∈ sorted <-> t ∈ scored)
    by (intros t; apply elem_of_sort_by).
  destruct (first_covering_spec w sorted) as (found & Hfound & Hchoice).
  { intros score d b H. apply Hin, Hspec in H as (_ & bs & _ & Hbs & _).
    eauto. }
  { apply ascending_sort_by. }
  unfold assign_closest_base_station.
  rewrite (bind_ok _ _ _ _ (client_ok _ _ _ Hc)).
  rewrite (bind_ok _ _ _ _ Hscored). cbv zeta. fold sorted.
  rewrite (bind_ok _ _ _ _ Hfound).
  destruct found as [[score b] |].
  - destruct Hchoice as (d & bs & Hmem & Hbs & Hd & Hleast).
    eexists _, _, (Client.set_base_station c (Some b)).
    split; [reflexivity |]. simpl.
    split; [now rewrite list_lookup_alter_eq, Hc |].
    split; [reflexivity |].
    apply Hin, Hspec in Hmem as (d0 & bs' & Hcand & Hbs' & Hnex & -> & Hsc).
    rewrite Hbs in Hbs'. injection Hbs' as <-.
    exists d0, bs, score. repeat split; try assumption.
    intros d1 b1 bs1 s1 Hc1 Hbs1 Hnex1 Hcov1 Hs1.
    apply (Hleast s1 (distance (Client.x c, Client.y c)
                        (Coverage.center (BaseStation.coverage bs1)))
                  b1 bs1); [| exact Hbs1 | exact Hcov1].
    apply Hin, Hspec. exists d1, bs1. tauto.
  - assert (Hnone : forall d1 b1 bs1,
              (d1, b1) ∈ Client.closest_base_stations c ->
              World.base_stations w !! b1 = Some bs1 ->
              ~ excluded exclude bs1 -> ~ covers distance c bs1).
    { intros d1 b1 bs1 Hc1 Hbs1 Hnex1 Hcov.
      destruct (Hwf d1 b1 Hc1) as (bs & s & Hbs & Hs).
      rewrite Hbs1 in Hbs. injection Hbs as <-.
      assert (Hmem : (s, distance (Client.x c, Client.y c)
                           (Coverage.center (BaseStation.coverage bs1)), b1)
                     ∈ sorted).
      { apply Hin, Hspec. exists d1, bs1. tauto. }
      specialize (Hchoice _ _ _ _ Hmem Hbs1). unfold covers in Hcov. lra. }
    unfold bind, get_now, update_client, KDTree_run.
    destruct (negb (World.last_run_time w =? Py.int (World.now w))%Z);
      [destruct (Py.int (World.now w) =? World.last_run_time w)%Z |];
      simpl;
      eexists _, _, _;
      (split; [reflexivity |]); simpl;
      (split;
       [first [ rewrite list_lookup_alter_eq, list_lookup_fmap, Hc
              | rewrite list_lookup_alter_eq, Hc ]; reflexivity |]);
      (split; [reflexivity |]); exact Hnone.
Qed.

Lemma assign_closest_base_station_choice_witness :
  exists w' out c',
    assign_closest_base_station manhattan 0 (Some [0%nat])
      (two_cells lowlat_slice)
    = (Ok tt, w', out)
    /\ World.clients w' !! 0%nat = Some c'
    /\ World.base_stations w' = World.base_stations (two_cells lowlat_slice)
    /\ match Client.base_station c' with
       | Some b' =>
           exists d0 bs' s',
             (d0, b') ∈ Client.closest_base_stations
                          (Client.set_closest_base_stations waiting_client
                             [(0, 0%nat); (3, 1%nat)])
             /\ World.base_stations (two_cells lowlat_slice) !! b' = Some bs'
             /\ ~ excluded (Some [0%nat]) bs'
             /\ covers manhattan
                  (Client.set_closest_base_stations waiting_client
                     [(0, 0%nat); (3, 1%nat)]) bs'
             /\ score_of manhattan
                  (Client.set_closest_base_stations waiting_client
                     [(0, 0%nat); (3, 1%nat)]) bs' = Ok s'
             /\ forall d1 b1 bs1 s1,
                  (d1, b1) ∈ Client.closest_base_stations
                               (Client.set_closest_base_stations
                                  waiting_client [(0, 0%nat); (3, 1%nat)]) ->
                  World.base_stations (two_cells lowlat_slice) !! b1
                  = Some bs1 ->
                  ~ excluded (Some [0%nat]) bs1 ->
                  covers manhattan
                    (Client.set_closest_base_stations waiting_client
                       [(0, 0%nat); (3, 1%nat)]) bs1 ->
                  score_of manhattan
                    (Client.set_closest_base_stations waiting_client
                       [(0, 0%nat); (3, 1%nat)]) bs1 = Ok s1 ->
                  s' <= s1
       | None =>
           forall d1 b1 bs1,
             (d1, b1) ∈ Client.closest_base_stations
                          (Client.set_closest_base_stations waiting_client
                             [(0, 0%nat); (3, 1%nat)]) ->
             World.base_stations (two_cells lowlat_slice) !! b1 = Some bs1 ->
             ~ excluded (Some [0%nat]) bs1 ->
             ~ covers manhattan
                 (Client.set_closest_base_stations waiting_client
                    [(0, 0%nat); (3, 1%nat)]) bs1
       end.
Proof.
  apply (assign_closest_base_station_choice manhattan
           (two_cells lowlat_slice) 0
           (Client.set_closest_base_stations waiting_client
              [(0, 0%nat); (3, 1%nat)]) (Some [0%nat])).
  - reflexivity.
  - intros d b H. simpl in H.
    apply elem_of_cons in H as [[= -> ->] | H];
      [eexists _, _; split; reflexivity |].
    apply elem_of_cons in H as [[= -> ->] | H];
      [eexists _, _; split; reflexivity | inversion H].
Defined.

(** With the first station excluded, the client of [two_cells] is
    attached to the second. *)
Example assign_closest_base_station_run :
  Client.base_station <$>
    World.clients
      (run_world (assign_closest_base_station manhattan 0 (Some [0%nat]))
                 (two_cells lowlat_slice)) !! 0%nat
  = Some (Some 1%nat).
Proof. reflexivity. Qed.

(** ** The allocator without the attribute *)

#[local] Instance clients_kept_refl : Reflexive clients_kept.
Proof. intros w _. reflexivity. Qed.

#[local] Instance clients_kept_trans : Transitive clients_kept.
Proof.
  intros w1 w2 w3 H12 H23 HP. specialize (H12 HP).
  rewrite <- H12. apply H23. intros h c. rewrite H12. apply HP.
Qed.

Lemma keeps_for_each {A} (R : World.t -> World.t -> Prop)
    `{!Reflexive R} `{!Transitive R} (l : list A) (body : A -> M unit) :
  (forall a, keeps R (body a)) -> keeps R (for_each l body).
Proof.
  intros Hbody. induction l as [| a l IH]; simpl.
  - apply keeps_read_only; [tc_solve | apply read_only_ret].
  - apply keeps_bind; [tc_solve | apply Hbody | intros _; exact IH].
Qed.

Lemma run_world_client_bind {B} (h : nat) (k : Client.t -> M B)
    (w : World.t) :
  run_world (bind (client h) k) w
  = match World.clients w !! h with
    | Some c => run_world (k c) w
    | None => w
    end.
Proof.
  rewrite run_world_bind. unfold run_result, run_world, client.
  destruct (World.clients w !! h); reflexivity.
Qed.

#[local] Instance untouched_refl : Reflexive untouched.
Proof. intros w _. reflexivity. Qed.

#[local] Instance untouched_trans : Transitive untouched.
Proof.
  intros w1 w2 w3 H12 H23 HP. specialize (H12 HP). subst w2. now apply H23.
Qed.

Lemma untouched_clients_kept (w w' : World.t) :
  untouched w w' -> clients_kept w w'.
Proof. intros H HP. now rewrite (H HP). Qed.

Lemma keeps_guarantee_pass (sl : Slice.t) (clients : list nat) (rem : Q) :
  keeps untouched (guarantee_pass sl clients rem).
Proof.
  revert rem. induction clients as [| h rest IH]; intros rem w HP; simpl.
  { reflexivity. }
  rewrite run_world_client_bind.
  destruct (World.clients w !! h) as [c |] eqn:Hc; [| reflexivity].
  rewrite (HP h c Hc). now apply IH.
Qed.

Lemma keeps_priority_pass (sl : Slice.t) (now : Q) (clients : list nat)
    (rem : Q) :
  keeps untouched (priority_pass sl now clients rem).
Proof.
  revert rem. induction clients as [| h rest IH]; intros rem w HP; simpl.
  { reflexivity. }
  rewrite run_world_client_bind.
  destruct (World.clients w !! h) as [c |] eqn:Hc; [| reflexivity].
  rewrite (HP h c Hc). now apply IH.
Qed.

Lemma keeps_grant_all (clients : list nat) :
  keeps untouched
    (for_each clients
       (fun h =>
          let* c := client h in
          match Client.allocated_bandwidth c with
          | Some _ =>
              update_client h
                (fun c => Client.set_allocated_bandwidth c
                            (Some (Client.usage_remaining c)))
          | None => ret tt
          end)).
Proof.
  apply keeps_for_each; try tc_solve. intros h w HP.
  rewrite run_world_client_bind.
  destruct (World.clients w !! h) as [c |] eqn:Hc; [| reflexivity].
  now rewrite (HP h c Hc).
Qed.

Lemma read_only_waiting_times (now : Q) (clients : list nat) :
  read_only (waiting_times now clients).
Proof.
  induction clients as [| h rest IH]; simpl; [apply read_only_ret |].
  apply read_only_bind; [apply read_only_client |]. intros c.
  apply read_only_bind; [exact IH |]. intros. apply read_only_ret.
Qed.

Lemma read_only_total_usage_remaining (clients : list nat) (acc : Q) :
  read_only (total_usage_remaining clients acc).
Proof.
  revert acc. induction clients as [| h rest IH]; intros acc; simpl;
    [apply read_only_ret |].
  apply read_only_bind; [apply read_only_client |]. intros c. apply IH.
Qed.

(** After the slice has stored the list, the rest of the allocation
    leaves a world without the attribute as it is. *)
Lemma keeps_allocation_passes (self : nat * nat) (clients : list nat) :
  keeps untouched
    (let* now := get_now in
     let* keyed := waiting_times now clients in
     let prioritized_clients := map fst (sort_by_desc snd keyed) in
     let* total_demand := total_usage_remaining prioritized_clients 0 in
     let* sl := slice_at self in
     let available_capacity :=
       Container.level (Slice.capacity sl) - Slice.reserved_capacity sl in
     if le_b total_demand available_capacity then
       for_each prioritized_clients
         (fun h =>
            let* c := client h in
            match Client.allocated_bandwidth c with
            | Some _ =>
                update_client h
                  (fun c => Client.set_allocated_bandwidth c
                              (Some (Client.usage_remaining c)))
            | None => ret tt
            end)
     else
       let* remaining_capacity :=
         guarantee_pass sl prioritized_clients available_capacity in
       if lt_b 0 remaining_capacity
       then priority_pass sl now prioritized_clients remaining_capacity
       else ret tt).
Proof.
  apply keeps_bind;
    [tc_solve | apply keeps_read_only; [tc_solve | apply read_only_get_now] |].
  intros now. apply keeps_bind;
    [tc_solve
    | apply keeps_read_only; [tc_solve | apply read_only_waiting_times] |].
  intros keyed. cbv zeta. apply keeps_bind;
    [tc_solve
    | apply keeps_read_only;
      [tc_solve | apply read_only_total_usage_remaining] |].
  intros total_demand. apply keeps_bind;
    [tc_solve | apply keeps_read_only; [tc_solve | apply read_only_slice_at] |].
  intros sl. destruct (le_b total_demand _); [apply keeps_grant_all |].
  apply keeps_bind; [tc_solve | apply keeps_guarantee_pass |].
  intros rem. destruct (lt_b 0 rem); [apply keeps_priority_pass |].
  apply keeps_read_only; [tc_solve | apply read_only_ret].
Qed.

Lemma run_world_dynamic_resource_allocation (w : World.t)
    (self : nat * nat) (clients : list nat) :
  no_allocation_attribute w ->
  run_world (dynamic_resource_allocation self clients) w
  = match clients with
    | [] => w
    | _ :: _ =>
        run_world
          (update_slice self
             (fun sl => Slice.set_active_clients sl clients)) w
    end.
Proof.
  intros HP. unfold dynamic_resource_allocation.
  destruct clients as [| h0 rest]; [reflexivity |].
  rewrite run_world_bind.
  change (run_result
            (update_slice self
               (fun sl => Slice.set_active_clients sl (h0 :: rest))) w)
    with (@Ok unit tt).
  apply (keeps_allocation_passes self (h0 :: rest)). exact HP.
Qed.

(** X16. [Slice.dynamic_resource_allocation] only writes to clients
    that already have an [allocated_bandwidth] attribute.  In a world
    where no client has it, as after [Client.__init__], the call
    allocates nothing: every client is what it was, whether the call
    returns or raises, and all it leaves behind is the list of clients
    it stored in [active_clients] of the slice. *)
Theorem allocation_needs_attribute (w : World.t) (self : nat * nat)
    (clients : list nat) :
  no_allocation_attribute w ->
  World.clients (run_world (dynamic_resource_allocation self clients) w)
  = World.clients w
  /\ (forall h, h <> self ->
        the_slice (run_world (dynamic_resource_allocation self clients) w) h
        = the_slice w h)
  /\ the_slice (run_world (dynamic_resource_allocation self clients) w) self
     = (fun sl => match clients with
                  | [] => sl
                  | _ :: _ => Slice.set_active_clients sl clients
                  end) <$> the_slice w self.
Proof.
  intros HP. rewrite run_world_dynamic_resource_allocation by exact HP.
  destruct clients as [| h0 rest].
  - split; [reflexivity |]. split; [reflexivity |].
    destruct (the_slice w self); reflexivity.
  - split; [reflexivity |].
    split; [intros h Hh; now apply the_slice_update_slice_ne |].
    apply the_slice_update_slice.
Qed.

Lemma allocation_needs_attribute_witness :
  World.clients
    (run_world (dynamic_resource_allocation (0, 0)%nat [0%nat])
               (one_cell busy_client))
  = World.clients (one_cell busy_client)
  /\ (forall h, h <> (0, 0)%nat ->
        the_slice
          (run_world (dynamic_resource_allocation (0, 0)%nat [0%nat])
                     (one_cell busy_client)) h
        = the_slice (one_cell busy_client) h)
  /\ the_slice
       (run_world (dynamic_resource_allocation (0, 0)%nat [0%nat])
                  (one_cell busy_client)) (0, 0)%nat
     = (fun sl => match [0%nat] with
                  | [] => sl
                  | _ :: _ => Slice.set_active_clients sl [0%nat]
                  end) <$> the_slice (one_cell busy_client) (0, 0)%nat.
Proof.
  apply (allocation_needs_attribute (one_cell busy_client)).
  intros h c Hc. destruct h as [| h]; simpl in Hc.
  - injection Hc as <-. reflexivity.
  - discriminate.
Defined.

(** ** A round of the allocation process *)

#[local] Instance round_kept_refl : Reflexive round_kept.
Proof.
  intros w _. split; [reflexivity |]. intros h.
  destruct (the_slice w h) as [sl |]; [| exists []; reflexivity].
  exists (Slice.active_clients sl). destruct sl. reflexivity.
Qed.

#[local] Instance round_kept_trans : Transitive round_kept.
Proof.
  intros w1 w2 w3 H12 H23 HP. destruct (H12 HP) as [Hc12 Hs12].
  destruct H23 as [Hc23 Hs23].
  { intros h c. rewrite Hc12. apply HP. }
  split; [now rewrite Hc23 |]. intros h.
  destruct (Hs12 h) as [l1 E1]. destruct (Hs23 h) as [l2 E2].
  exists l2. rewrite E2, E1. destruct (the_slice w1 h); reflexivity.
Qed.

Lemma keeps_round_dynamic_resource_allocation (self : nat * nat)
    (clients : list nat) :
  keeps round_kept (dynamic_resource_allocation self clients).
Proof.
  intros w HP. rewrite run_world_dynamic_resource_allocation by exact HP.
  destruct clients as [| h0 rest]; [now apply round_kept_refl |].
  split; [reflexivity |]. intros h.
  destruct (decide (self = h)) as [<- | Hne].
  - exists (h0 :: rest). apply the_slice_update_slice.
  - rewrite the_slice_update_slice_ne by exact Hne.
    now apply round_kept_refl.
Qed.

Lemma read_only_group_by_slice (handles : list nat)
    (groups : list (string * list nat)) :
  read_only (group_by_slice handles groups).
Proof.
  revert groups. induction handles as [| h rest IH]; intros groups; simpl;
    [apply read_only_ret |].
  apply read_only_bind; [apply read_only_client |]. intros c.
  destruct (Client.base_station c); [| apply IH].
  destruct (negb (Client.connected c)); [apply IH |].
  apply read_only_bind; [apply read_only_get_slice |]. intros [sh |];
    [| apply IH].
  apply read_only_bind; [apply read_only_slice_at |]. intros sl. apply IH.
Qed.

Lemma read_only_attached_to (b : nat) (slice_clients : list nat) :
  read_only (attached_to b slice_clients).
Proof.
  induction slice_clients as [| h rest IH]; simpl; [apply read_only_ret |].
  apply read_only_bind; [apply read_only_client |]. intros c.
  apply read_only_bind; [exact IH |]. intros. apply read_only_ret.
Qed.

(** X17. A round of the allocation process of [__main__], in a world
    where no client has an [allocated_bandwidth] attribute, gives no
    bandwidth to anyone: every client is what it was and the slices
    differ at most in their [active_clients], whether the round returns
    or raises. *)
Theorem allocation_round_allocates_nothing (w : World.t) :
  no_allocation_attribute w ->
  World.clients (run_world allocation_round w) = World.clients w
  /\ forall h, exists l,
       the_slice (run_world allocation_round w) h
       = (fun sl => Slice.set_active_clients sl l) <$> the_slice w h.
Proof.
  revert w.
  assert (H : forall n m,
            keeps round_kept
              (let* clients_by_slice := group_by_slice (seq 0 n) [] in
               for_each (seq 0 m)
                 (fun b =>
                    let* base_station := base_station_at b in
                    for_each
                      (seq 0 (length (BaseStation.slices base_station)))
                      (fun i =>
                         let* slice_obj := slice_at (b, i) in
                         let slice_clients :=
                           default [] (dict_get clients_by_slice
                                                (Slice.name slice_obj)) in
                         let* bs_clients := attached_to b slice_clients in
                         match bs_clients with
                         | [] => ret tt
                         | _ :: _ =>
                             dynamic_resource_allocation (b, i) bs_clients
                         end)))).
  { intros n m. apply keeps_bind;
      [tc_solve
      | apply keeps_read_only; [tc_solve | apply read_only_group_by_slice] |].
    intros groups. apply keeps_for_each; try tc_solve. intros b.
    apply keeps_bind;
      [tc_solve
      | apply keeps_read_only; [tc_solve | apply read_only_base_station_at]
      |].
    intros bs. apply keeps_for_each; try tc_solve. intros i.
    apply keeps_bind;
      [tc_solve | apply keeps_read_only; [tc_solve | apply read_only_slice_at]
      |].
    intros sl. cbv zeta. apply keeps_bind;
      [tc_solve
      | apply keeps_read_only; [tc_solve | apply read_only_attached_to] |].
    intros [| h0 rest];
      [apply keeps_read_only; [tc_solve | apply read_only_ret] |].
    apply keeps_round_dynamic_resource_allocation. }
  intros w. apply (H (length (World.clients w))
                     (length (World.base_stations w)) w).
Qed.

Lemma allocation_round_allocates_nothing_witness :
  World.clients (run_world allocation_round (one_cell busy_client))
  = World.clients (one_cell busy_client)
  /\ forall h, exists l,
       the_slice (run_world allocation_round (one_cell busy_client)) h
       = (fun sl => Slice.set_active_clients sl l)
         <$> the_slice (one_cell busy_client) h.
Proof.
  apply (allocation_round_allocates_nothing (one_cell busy_client)).
  intros h c Hc. destruct h as [| h]; simpl in Hc.
  - injection Hc as <-. reflexivity.
  - discriminate.
Defined.

(** In the one-cell world the round hands the connected client to its
    slice, which stores it; an allocatable client receives bandwidth. *)
Example allocation_round_run :
  Slice.active_clients <$>
    the_slice (run_world allocation_round (one_cell busy_client)) (0, 0)%nat
  = Some [0%nat]
  /\ (Client.allocated_bandwidth <$>
        World.clients
          (run_world allocation_round (one_cell allocatable_client))
        !! 0%nat)
     = Some (Some (43 # 25)).
Proof. split; vm_compute; reflexivity. Qed.

(** ** The figures of the collector *)

Lemma ratio_or_zero_returns (a b : Q) :
  exists q, ratio_or_zero a b = Ok q
            /\ ((b == 0 /\ q = 0) \/ (~ b == 0 /\ q = a / b)).
Proof.
  unfold ratio_or_zero, Py.div.
  destruct (Qeq_bool b 0) eqn:E; simpl.
  - apply Qeq_bool_iff in E. eauto.
  - apply Qeq_bool_neq in E. eauto.
Qed.

Lemma connected_tally_bounds (st : Stats.t) (clients : list Client.t)
    (acc : Q * Q) :
  0 <= fst acc <= snd acc ->
  let r := fold_left
             (fun acc c =>
                if is_client_in_coverage st c
                then (fst acc + (if Client.connected c then 1 else 0),
                      snd acc + 1)
                else acc)
             clients acc in
  0 <= fst r <= snd r.
Proof.
  revert acc. induction clients as [| c rest IH]; intros acc H; simpl;
    [exact H |].
  apply IH. destruct (is_client_in_coverage st c); [| exact H].
  destruct (Client.connected c); simpl; lra.
Qed.

Lemma ratio_bounds (a b q : Q) :
  0 <= a <= b -> ~ b == 0 -> q = a / b -> 0 <= q <= 1.
Proof.
  intros [Ha Hab] Hb ->. assert (Hpos : 0 < b) by lra.
  split.
  - apply Qle_shift_div_l; [exact Hpos | lra].
  - apply Qle_shift_div_r; [exact Hpos | lra].
Qed.

Lemma get_total_connected_users_ratio_returns (st : Stats.t)
    (clients : list Client.t) :
  exists q, get_total_connected_users_ratio st clients = Ok q
            /\ 0 <= q <= 1.
Proof.
  unfold get_total_connected_users_ratio.
  pose proof (connected_tally_bounds st clients (0, 0)) as H.
  fold (connected_tally st clients) in H.
  destruct (connected_tally st clients) as [t cc]. simpl in H.
  destruct (ratio_or_zero_returns t cc) as (q & E & [[_ ->] | [Hcc ->]]).
  - exists 0. split; [exact E | lra].
  - eexists. split; [exact E |].
    apply (ratio_bounds t cc); [apply H; lra | exact Hcc | reflexivity].
Qed.

(** X18. [get_total_connected_users_ratio] never divides by zero, and
    the figure it returns is a ratio: it lies between 0 and 1, whatever
    the clients and the statistics area. *)
Theorem connected_users_ratio_bounds (st : Stats.t)
    (clients : list Client.t) :
  exists q, get_total_connected_users_ratio st clients = Ok q
            /\ 0 <= q <= 1.
Proof. apply get_total_connected_users_ratio_returns. Qed.

Lemma load_tally_fold (l : list Slice.t) (t c : Q) :
  fst (fold_left
         (fun acc sl =>
            (fst acc + used_bw sl,
             snd acc + Container.capacity (Slice.capacity sl)))
         l (t, c))
  = fold_left (fun t sl => t + used_bw sl) l t.
Proof.
  revert t c. induction l as [| sl rest IH]; intros t c; simpl;
    [reflexivity | apply IH].
Qed.

Lemma load_tally_bounds (l : list Slice.t) (acc : Q * Q) :
  (forall sl, sl ∈ l ->
     0 <= Container.level (Slice.capacity sl)
       <= Container.capacity (Slice.capacity sl)) ->
  0 <= fst acc <= snd acc ->
  let r := fold_left
             (fun acc sl =>
                (fst acc + used_bw sl,
                 snd acc + Container.capacity (Slice.capacity sl)))
             l acc in
  0 <= fst r <= snd r.
Proof.
  revert acc. induction l as [| sl rest IH]; intros acc Hl H; simpl;
    [exact H |].
  apply IH.
  - intros sl' Hin. apply Hl. now right.
  - assert (Hsl : 0 <= Container.level (Slice.capacity sl)
                    <= Container.capacity (Slice.capacity sl))
      by (apply Hl; left).
    unfold used_bw. simpl. lra.
Qed.

(** X19. With every container between empty and full,
    [get_avg_slice_load_ratio] returns a figure between 0 and 1, and it
    agrees with [get_total_used_bw]: the ratio times the capacity of all
    slices is the bandwidth in use. *)
Theorem load_ratio_bounds (base_stations : list BaseStation.t) :
  (forall sl, sl ∈ all_slices base_stations ->
     0 <= Container.level (Slice.capacity sl)
       <= Container.capacity (Slice.capacity sl)) ->
  exists q, get_avg_slice_load_ratio base_stations = Ok q
            /\ 0 <= q <= 1
            /\ q * snd (load_tally base_stations)
               == get_total_used_bw base_stations.
Proof.
  intros Hl. unfold get_avg_slice_load_ratio, get_total_used_bw.
  pose proof (load_tally_bounds (all_slices base_stations) (0, 0) Hl) as H.
  pose proof (load_tally_fold (all_slices base_stations) 0 0) as Ht.
  fold (load_tally base_stations) in H, Ht. rewrite <- Ht.
  destruct (load_tally base_stations) as [t c]. simpl in *.
  assert (Htc : 0 <= t <= c) by (apply H; lra).
  destruct (ratio_or_zero_returns t c) as (q & E & [[Hc ->] | [Hc ->]]).
  - exists 0. split; [exact E |]. split; lra.
  - eexists. split; [exact E |].
    split; [apply (ratio_bounds t c); [exact Htc | exact Hc | reflexivity] |].
    field. exact Hc.
Qed.

Lemma load_ratio_bounds_witness :
  exists q,
    get_avg_slice_load_ratio (World.base_stations (one_cell busy_client))
    = Ok q
    /\ 0 <= q <= 1
    /\ q * snd (load_tally (World.base_stations (one_cell busy_client)))
       == get_total_used_bw (World.base_stations (one_cell busy_client)).
Proof.
  apply (load_ratio_bounds (World.base_stations (one_cell busy_client))).
  intros sl Hin. apply list_elem_of_singleton in Hin. subst sl.
  vm_compute. split; discriminate.
Defined.

(** ** The latency figures of a tick *)

Lemma max_le_l (a b : Q) : a <= Py.max a b.
Proof. destruct (max_cases a b) as [[H ->] | [H ->]]; lra. Qed.

Lemma max_le_r (a b : Q) : b <= Py.max a b.
Proof. destruct (max_cases a b) as [[H ->] | [H ->]]; lra. Qed.

Lemma max_of_bounds (a : Q) (l : list Q) :
  forall x, x ∈ a :: l -> x <= max_of a l.
Proof.
  unfold max_of. revert a. induction l as [| y l IH]; intros a x Hx.
  - apply list_elem_of_singleton in Hx. subst. simpl. lra.
  - simpl. pose proof (max_le_l a y). pose proof (max_le_r a y).
    assert (Hm : Py.max a y <= fold_left Py.max l (Py.max a y))
      by (apply IH; left).
    apply elem_of_cons in Hx as [-> | Hx]; [lra |].
    apply elem_of_cons in Hx as [-> | Hx]; [lra |].
    apply IH. now right.
Qed.

Lemma min_of_bounds (a : Q) (l : list Q) :
  forall x, x ∈ a :: l -> min_of a l <= x.
Proof.
  unfold min_of. revert a. induction l as [| y l IH]; intros a x Hx.
  - apply list_elem_of_singleton in Hx. subst. simpl. lra.
  - simpl. pose proof (min_le_l a y). pose proof (min_le_r a y).
    assert (Hm : fold_left Py.min l (Py.min a y) <= Py.min a y)
      by (apply IH; left).
    apply elem_of_cons in Hx as [-> | Hx]; [lra |].
    apply elem_of_cons in Hx as [-> | Hx]; [lra |].
    apply IH. now right.
Qed.

Lemma mean_or_zero_returns (l : list Q) :
  exists q, mean_or_zero l = Ok q.
Proof.
  destruct l as [| a l]; simpl; [eauto |].
  rewrite div_ok by (apply len_nonzero; discriminate). eauto.
Qed.

Lemma push_slice_averages_returns (items d : list (string * list Q)) :
  exists d', push_slice_averages items d = Ok d'.
Proof.
  revert d. induction items as [| [k l] rest IH]; intros d; simpl; [eauto |].
  destruct (mean_or_zero_returns l) as [q ->]. simpl. apply IH.
Qed.

Lemma returns_stats_step (f : World.t -> Res Stats.t) (st : Stats.t)
    (w : World.t) (post : unit -> World.t -> list event -> Prop) :
  f w = Ok st -> post tt (World.set_stats w st) [] ->
  returns (stats_step f) w post.
Proof.
  intros Hf H. exists tt, (World.set_stats w st), [].
  split; [| exact H]. unfold stats_step. now rewrite Hf.
Qed.

Lemma returns_collector (w : World.t)
    (post : Stats.t -> World.t -> list event -> Prop) :
  post (World.stats w) w [] -> returns collector w post.
Proof. intros H. exists (World.stats w), w, []. auto. Qed.

Lemma len_cons {A} (a : A) (l : list A) : Py.len (a :: l) == Py.len l + 1.
Proof.
  unfold Py.len. simpl length. rewrite Nat2Z.inj_succ, <- Z.add_1_r.
  rewrite inject_Z_plus. reflexivity.
Qed.

Lemma len_nonneg {A} (l : list A) : 0 <= Py.len l.
Proof. unfold Py.len. rewrite <- (Zle_Qle 0). lia. Qed.

Lemma clients_in_area_cons (st : Stats.t) (c : Client.t)
    (l : list Client.t) :
  clients_in_area st (c :: l)
  == clients_in_area st l + (if is_client_in_coverage st c then 1 else 0).
Proof.
  unfold clients_in_area. rewrite filter_cons.
  destruct (decide (is_client_in_coverage st c = true)) as [E | E].
  - rewrite E. apply len_cons.
  - apply not_true_is_false in E. rewrite E. lra.
Qed.

Lemma returns_get_slice_none (self : nat) (c : Client.t) (w : World.t)
    (post : option (nat * nat) -> World.t -> list event -> Prop) :
  World.clients w !! self = Some c ->
  Client.base_station c = None ->
  post None w [] ->
  returns (get_slice self) w post.
Proof.
  intros Hc Hb H. unfold get_slice.
  apply returns_bind. eapply returns_client; [exact Hc |]. cbv beta.
  rewrite Hb. now apply returns_ret.
Qed.

(** The loop over the clients reads only; it counts at most one
    violation for each client of the statistics area. *)
Lemma latest_latencies_returns (w : World.t) (l : list Client.t) :
  attached w ->
  forall (k : nat) (acc : list Q * Q * list (string * list Q)),
    (forall i, l !! i = World.clients w !! (k + i)%nat) ->
    returns (latest_latencies (seq k (length l)) acc) w
      (fun r w' out =>
         w' = w /\ out = []
         /\ snd (fst acc) <= snd (fst r)
            <= snd (fst acc) + clients_in_area (World.stats w) l).
Proof.
  intros Hw. induction l as [| c l IH]; intros k acc Hl.
  { apply returns_ret. split; [reflexivity |]. split; [reflexivity |].
    assert (E : clients_in_area (World.stats w) [] == 0) by reflexivity.
    cbv beta. rewrite E. lra. }
  pose proof (clients_in_area_cons (World.stats w) c l) as Hcons.
  pose proof (len_nonneg
                (filter (fun c => is_client_in_coverage (World.stats w) c
                                  = true) l)) as Hpos.
  fold (clients_in_area (World.stats w) l) in Hpos.
  assert (Hc : World.clients w !! k = Some c).
  { rewrite <- (Nat.add_0_r k) at 1. rewrite <- Hl. reflexivity. }
  assert (Hrest : forall i, l !! i = World.clients w !! (S k + i)%nat).
  { intros i. replace (S k + i)%nat with (k + S i)%nat by lia.
    rewrite <- Hl. reflexivity. }
  assert (Hskip : returns (latest_latencies (seq (S k) (length l)) acc) w
            (fun r w' out =>
               w' = w /\ out = []
               /\ snd (fst acc) <= snd (fst r)
                  <= snd (fst acc)
                     + clients_in_area (World.stats w) (c :: l))).
  { apply (returns_weaken _ _ _ _ (IH (S k) acc Hrest)).
    intros r w' out (-> & -> & H). split; [reflexivity |].
    split; [reflexivity |].
    destruct (is_client_in_coverage (World.stats w) c); lra. }
  simpl seq. simpl latest_latencies.
  apply returns_bind. eapply returns_client; [exact Hc |]. cbv beta.
  destruct (last (Client.latencies c)) as [latest |]; [| exact Hskip].
  apply returns_bind, returns_collector. cbv beta.
  destruct (is_client_in_coverage (World.stats w) c) eqn:Hin;
    [| exact Hskip].
  simpl negb. cbv iota.
  assert (Hget : forall (b : nat) (post : option (nat * nat) -> World.t
                                          -> list event -> Prop),
            Client.base_station c = Some b ->
            (forall sl,
               the_slice w (b, Client.subscribed_slice_index c) = Some sl ->
               post (Some (b, Client.subscribed_slice_index c)) w []) ->
            returns (get_slice k) w post).
  { intros b post Hb Hpost.
    destruct (Hw k c b Hc Hb) as [sl Hsl].
    exact (returns_get_slice k c b sl w post Hc Hb Hsl (Hpost sl Hsl)). }
  apply returns_bind.
  apply (returns_weaken _ _
           (fun d w' out => w' = w /\ out = [])).
  { destruct (Client.base_station c) as [b |] eqn:Hb.
    - apply returns_bind, (Hget b); [reflexivity |]. intros sl Hsl.
      apply returns_bind, returns_deref.
      apply returns_bind; eapply returns_slice_at; [exact Hsl |].
      apply returns_ret. split; reflexivity.
    - apply returns_ret. split; reflexivity. }
  intros d w' out [-> ->]. simpl app.
  destruct (Client.base_station c) as [b |] eqn:Hb.
  - apply returns_bind, (Hget b); [reflexivity |]. intros sl Hsl.
    apply returns_bind.
    apply returns_bind, (Hget b); [reflexivity |]. intros _ _.
    apply returns_bind, (Hget b); [reflexivity |]. intros _ _.
    apply returns_bind, returns_deref.
    apply returns_bind; eapply returns_slice_at; [exact Hsl |].
    apply returns_ret. simpl app.
    apply (returns_weaken _ _ _ _ (IH (S k) _ Hrest)).
    intros r w' out (-> & -> & H). split; [reflexivity |].
    split; [reflexivity |]. simpl in H.
    destruct (lt_b (Slice.delay_tolerance sl) latest); lra.
  - apply returns_bind.
    apply (returns_get_slice_none k c); [exact Hc | exact Hb |].
    apply returns_bind, returns_ret. simpl app.
    apply (returns_weaken _ _ _ _ (IH (S k) _ Hrest)).
    intros r w' out (-> & -> & H). split; [reflexivity |].
    split; [reflexivity |]. simpl in H. lra.
Qed.

Lemma is_client_in_coverage_area (st st' : Stats.t) (c : Client.t) :
  Stats.area st' = Stats.area st ->
  is_client_in_coverage st' c = is_client_in_coverage st c.
Proof. intros H. unfold is_client_in_coverage. now rewrite H. Qed.

Lemma clients_in_area_area (st st' : Stats.t) (l : list Client.t) :
  Stats.area st' = Stats.area st ->
  clients_in_area st' l = clients_in_area st l.
Proof.
  intros H. unfold clients_in_area. f_equal.
  induction l as [| c l IH]; [reflexivity |].
  rewrite !filter_cons, IH, (is_client_in_coverage_area st st' c H).
  reflexivity.
Qed.

Lemma returns_eq {A} (m m' : M A) (w : World.t)
    (post : A -> World.t -> list event -> Prop) :
  m w = m' w -> returns m' w post -> returns m w post.
Proof. unfold returns. now intros ->. Qed.

Lemma collect_latency_stats_runs (w : World.t) :
  attached w ->
  returns collect_latency_stats w
    (fun _ w' out =>
       out = []
       /\ exists avg mx mn rate,
            latency_figures w w' avg mx mn rate
            /\ mn <= avg <= mx
            /\ 0 <= rate <= 1).
Proof.
  intros Hw. unfold returns, collect_latency_stats. cbv beta.
  destruct (World.clients w) as [| c0 cs] eqn:Hcl;
    lazymatch goal with
    | |- exists a w' out, ?m w = _ /\ @?post a w' out =>
        change (returns m w post)
    end.
  { eapply returns_stats_step; [reflexivity |].
    split; [reflexivity |]. exists 0, 0, 0, 0.
    split; [| split; lra].
    unfold latency_figures. simpl. rewrite Hcl. repeat split; reflexivity. }
  eapply returns_seq.
  { apply (latest_latencies_returns w (c0 :: cs) Hw 0).
    intros i. rewrite Hcl. reflexivity. }
  cbv beta zeta. intros [[all viol] per] w1 out1 (-> & -> & Hviol).
  simpl in Hviol |- *.
  lazymatch goal with
  | |- returns (bind (stats_step ?f) _) _ _ =>
      assert (H1 : exists avg mx mn,
                 mn <= avg <= mx
                 /\ forall w0,
                      f w0
                      = Ok (Series.push_min_latency
                              (Series.push_max_latency
                                 (Series.push_avg_latency (World.stats w0)
                                    avg) mx) mn))
  end.
  { destruct all as [| a rest].
    - exists 0, 0, 0. split; [lra | reflexivity].
    - exists (Py.sum (a :: rest) / Py.len (a :: rest)),
             (max_of a rest), (min_of a rest).
      split.
      + apply average_bounds; [discriminate |]. intros x Hx.
        split; [now apply min_of_bounds | now apply max_of_bounds].
      + intros w0. rewrite div_ok by (apply len_nonzero; discriminate).
        reflexivity. }
  destruct H1 as (avg & mx & mn & Hord & H1).
  apply returns_bind. eapply returns_stats_step; [apply H1 |]. cbv beta.
  lazymatch goal with
  | |- returns (bind (stats_step ?f) _) ?w1 _ =>
      assert (H2 : exists rate,
                 0 <= rate <= 1
                 /\ f w1
                    = Ok (Series.push_latency_sla_violations
                            (World.stats w1) rate))
  end.
  { cbv beta. simpl World.clients. rewrite Hcl.
    rewrite (clients_in_area_area (World.stats w)) by reflexivity.
    destruct (lt_b 0 (clients_in_area (World.stats w) (c0 :: cs))) eqn:E.
    - apply lt_b_true in E. rewrite div_ok by lra. eexists.
      split; [| reflexivity].
      apply (ratio_bounds viol (clients_in_area (World.stats w) (c0 :: cs)));
        [lra | lra | reflexivity].
    - exists 0. split; [lra | reflexivity]. }
  destruct H2 as (rate & Hrate & H2).
  apply returns_bind. eapply returns_stats_step; [apply H2 |]. cbv beta.
  lazymatch goal with
  | |- returns (stats_step _) ?w2 _ =>
      destruct (push_slice_averages_returns per
                  (Stats.avg_latency_per_slice (World.stats w2)))
        as [d' H3]
  end.
  eapply returns_stats_step; [cbv beta; rewrite H3; reflexivity |].
  split; [reflexivity |]. exists avg, mx, mn, rate.
  split; [| split; assumption].
  unfold latency_figures. simpl. repeat split; reflexivity.
Qed.

(** X21. In a world whose attachments resolve, [collect_latency_stats]
    returns and prints nothing; it appends exactly one figure to each of
    the four latency series and leaves the counters, the clients and the
    slices alone.  The minimum, the average and the maximum it appends
    are in this order, and the violation rate lies between 0 and 1. *)
Theorem collect_latency_stats_figures (w : World.t) :
  attached w ->
  returns collect_latency_stats w
    (fun _ w' out =>
       out = []
       /\ exists avg mx mn rate,
            latency_figures w w' avg mx mn rate
            /\ mn <= avg <= mx
            /\ 0 <= rate <= 1).
Proof. apply collect_latency_stats_runs. Qed.

Lemma one_cell_attached (c : Client.t) :
  Client.base_station c = Some 0%nat ->
  Client.subscribed_slice_index c = 0%nat ->
  attached (one_cell c).
Proof.
  intros Hb Hi h c' b Hc Hb'. destruct h as [| h]; [| discriminate].
  injection Hc as <-. rewrite Hb in Hb'. injection Hb' as <-.
  rewrite Hi. eexists. reflexivity.
Qed.

Lemma collect_latency_stats_figures_witness :
  returns collect_latency_stats (one_cell served_client)
    (fun _ w' out =>
       out = []
       /\ exists avg mx mn rate,
            latency_figures (one_cell served_client) w' avg mx mn rate
            /\ mn <= avg <= mx
            /\ 0 <= rate <= 1).
Proof.
  apply (collect_latency_stats_figures (one_cell served_client)).
  apply one_cell_attached; reflexivity.
Defined.

(** The figures of the one-cell world: the latest measurement of its
    client is all there is, and it is a violation. *)
Example collect_latency_stats_run :
  let st := World.stats (run_world collect_latency_stats
                           (one_cell served_client)) in
  Stats.avg_latency st = [6 / 1]
  /\ Stats.max_latency st = [6]
  /\ Stats.min_latency st = [6]
  /\ Stats.latency_sla_violations st = [1 / 1]
  /\ Stats.avg_latency_per_slice st = [("URLLC"%string, [6 / 1])].
Proof. vm_compute. repeat split; reflexivity. Qed.

(** ** The tick of the collector *)

Section Collector.

Variable distance : Q * Q -> Q * Q -> Q.

Lemma coverage_tally_returns (st : Stats.t)
    (base_stations : list BaseStation.t) (clients : list Client.t) :
  (forall c b, c ∈ clients -> Client.base_station c = Some b ->
               is_Some (base_stations !! b)) ->
  forall acc,
    0 <= fst acc <= snd acc ->
    exists r, coverage_tally distance st base_stations clients acc = Ok r
              /\ 0 <= fst r <= snd r.
Proof.
  induction clients as [| c rest IH]; intros Hl acc Hacc; simpl; [eauto |].
  assert (Hrest : forall c b, c ∈ rest -> Client.base_station c = Some b ->
                              is_Some (base_stations !! b)).
  { intros c' b Hin. apply Hl. now right. }
  destruct (is_client_in_coverage st c); [| now apply IH].
  destruct (Client.base_station c) as [b |] eqn:Hb.
  - destruct (Hl c b) as [bs Hbs]; [left | exact Hb |]. rewrite Hbs. simpl.
    apply IH; [exact Hrest |]. simpl.
    destruct (is_in_coverage _ _ _ _); lra.
  - simpl. apply IH; [exact Hrest |]. simpl. lra.
Qed.

Lemma attached_base_stations (w : World.t) :
  attached w ->
  forall c b, c ∈ World.clients w -> Client.base_station c = Some b ->
              is_Some (World.base_stations w !! b).
Proof.
  intros Hw c b Hin Hb. apply list_elem_of_lookup in Hin as [h Hc].
  destruct (Hw h c b Hc Hb) as [sl Hsl]. unfold the_slice in Hsl.
  simpl in Hsl. destruct (World.base_stations w !! b); [eauto | discriminate].
Qed.

Lemma get_coverage_ratio_returns (w : World.t) (st : Stats.t) :
  attached w ->
  exists q,
    get_coverage_ratio distance st (World.base_stations w) (World.clients w)
    = Ok q
    /\ 0 <= q <= 1.
Proof.
  intros Hw. unfold get_coverage_ratio.
  destruct (coverage_tally_returns st (World.base_stations w)
              (World.clients w) (attached_base_stations w Hw) (0, 0))
    as ([t cc] & -> & H); [simpl; lra |].
  simpl in *.
  destruct (ratio_or_zero_returns t cc) as (q & E & [[_ ->] | [Hcc ->]]).
  - exists 0. split; [exact E | lra].
  - eexists. split; [exact E |].
    apply (ratio_bounds t cc); [exact H | exact Hcc | reflexivity].
Qed.

Lemma div_last_ok (l attempts : list Q) (a x : Q) :
  last l = Some x -> last attempts = Some a ->
  div_last l (attempts_or_one attempts)
  = Ok (<[pred (length l) := x / period_divisor a]> l).
Proof.
  intros Hl Ha. unfold div_last, attempts_or_one. rewrite Hl, Ha. simpl.
  fold (period_divisor a). rewrite div_ok; [reflexivity |].
  unfold period_divisor. destruct (Qeq_bool a 0) eqn:E; simpl.
  - lra.
  - now apply Qeq_bool_neq.
Qed.

Lemma get_avg_slice_load_ratio_returns (base_stations : list BaseStation.t) :
  exists q, get_avg_slice_load_ratio base_stations = Ok q.
Proof.
  unfold get_avg_slice_load_ratio.
  destruct (load_tally base_stations) as [t c].
  destruct (ratio_or_zero_returns t c) as (q & E & _). eauto.
Qed.

Lemma get_avg_slice_client_count_returns
    (base_stations : list BaseStation.t) :
  exists q, get_avg_slice_client_count base_stations = Ok q.
Proof.
  unfold get_avg_slice_client_count.
  destruct (fold_left _ _ _) as [t c].
  destruct (ratio_or_zero_returns t c) as (q & E & _). eauto.
Qed.

(** A step of the collector that appends a figure. *)
Lemma returns_figure (g : World.t -> Res Q) (push : Stats.t -> Q -> Stats.t)
    (w : World.t) (q : Q) (post : unit -> World.t -> list event -> Prop) :
  g w = Ok q ->
  post tt (World.set_stats w (push (World.stats w) q)) [] ->
  returns (stats_step (fun w => let! q := g w in Ok (push (World.stats w) q)))
    w post.
Proof.
  intros Hg H. eapply returns_stats_step; [| exact H].
  cbv beta. now rewrite Hg.
Qed.

(** The tick of the collector, step by step. *)
Lemma collect_tick_runs (w : World.t) (a b h : Q) :
  attached w ->
  last (Stats.connect_attempt (World.stats w)) = Some a ->
  last (Stats.block_count (World.stats w)) = Some b ->
  last (Stats.handover_count (World.stats w)) = Some h ->
  returns (collect_tick distance) w
    (fun _ w' out => out = [] /\ tick_closed w w' a b h).
Proof.
  intros Hw Ha Hb Hh. unfold collect_tick.
  apply returns_bind. eapply returns_stats_step.
  { cbv beta zeta. rewrite (div_last_ok _ _ a b Hb Ha). reflexivity. }
  apply returns_bind. eapply returns_stats_step.
  { cbv beta zeta. simpl World.stats. simpl Stats.handover_count.
    simpl Stats.connect_attempt.
    rewrite (div_last_ok _ _ a h Hh Ha). reflexivity. }
  lazymatch goal with
  | |- returns (bind (stats_step _) _) ?w1 _ =>
      destruct (get_total_connected_users_ratio_returns (World.stats w1)
                  (World.clients w1)) as (q1 & E1 & Hq1)
  end.
  apply returns_bind. eapply (returns_figure _ _ _ q1); [exact E1 |].
  apply returns_bind. eapply returns_stats_step; [reflexivity |].
  destruct (get_avg_slice_load_ratio_returns (World.base_stations w))
    as (q3 & E3).
  destruct (get_avg_slice_client_count_returns (World.base_stations w))
    as (q4 & E4).
  apply returns_bind. eapply (returns_figure _ _ _ q3); [exact E3 |].
  apply returns_bind. eapply (returns_figure _ _ _ q4); [exact E4 |].
  lazymatch goal with
  | |- returns (bind (stats_step _) _) ?w1 _ =>
      destruct (get_coverage_ratio_returns w (World.stats w1) Hw)
        as (q5 & E5 & Hq5)
  end.
  apply returns_bind. eapply (returns_figure _ _ _ q5); [exact E5 |].
  eapply returns_seq.
  { apply collect_latency_stats_runs. exact Hw. }
  cbv beta.
  intros _ w8 out8 (-> & avg & mx & mn & rate & Hfig & _ & _).
  destruct Hfig as (Hcl & Hbs & Hnow & Havg & Hmax & Hmin & Hviol & Hca
                    & Hbc & Hhc & _ & Htc & Hbw & Hlr & Hcc & Hcr & _).
  eapply returns_stats_step; [reflexivity |].
  split; [reflexivity |]. unfold tick_closed, series_lengths.
  simpl in *.
  rewrite Hcl, Hbs, Hnow, Havg, Hmax, Hmin, Hviol, Hca, Hbc, Hhc, Htc, Hbw,
    Hlr, Hcc, Hcr.
  split; [reflexivity |]. split; [reflexivity |]. split; [reflexivity |].
  split; [reflexivity |]. split; [reflexivity |]. split; [reflexivity |].
  split.
  { rewrite !length_app, !length_insert. simpl.
    rewrite !Nat.add_1_r. reflexivity. }
  split; [reflexivity |]. exists q1, q5. auto.
Qed.

Lemma current_snoc (l : list Q) (x : Q) : current (l ++ [x]) = x.
Proof. unfold current. now rewrite last_snoc. Qed.

Lemma period_ratios (a b h : Q) :
  0 <= b -> 0 <= h -> b + h <= a ->
  0 <= b / period_divisor a
  /\ 0 <= h / period_divisor a
  /\ b / period_divisor a + h / period_divisor a <= 1.
Proof.
  intros Hb Hh Ha. unfold period_divisor.
  destruct (Qeq_bool a 0) eqn:E; simpl.
  - apply Qeq_bool_iff in E.
    assert (Eb : b / 1 == b) by (field; lra).
    assert (Eh : h / 1 == h) by (field; lra).
    rewrite Eb, Eh. repeat split; lra.
  - apply Qeq_bool_neq in E. assert (Hpos : 0 < a) by lra.
    assert (Es : b / a + h / a == (b + h) / a) by (field; lra).
    split; [apply Qle_shift_div_l; lra |].
    split; [apply Qle_shift_div_l; lra |].
    rewrite Es. apply Qle_shift_div_r; lra.
Qed.

(** X20. The close of a period.  At the end of a period in which the
    blocks and handovers counted are together at most the attempts, a
    tick of the collector returns; it turns the two counts into ratios
    that are non-negative and together at most 1, dividing by 1 when no
    attempt was counted, and opens the next period with the three
    counters at 0. *)
Theorem collect_tick_ratios (w : World.t) (a b h : Q) :
  attached w ->
  last (Stats.connect_attempt (World.stats w)) = Some a ->
  last (Stats.block_count (World.stats w)) = Some b ->
  last (Stats.handover_count (World.stats w)) = Some h ->
  0 <= b -> 0 <= h -> b + h <= a ->
  returns (collect_tick distance) w
    (fun _ w' _ =>
       exists block_ratio handover_ratio,
         Stats.block_count (World.stats w')
         = <[pred (length (Stats.block_count (World.stats w)))
             := block_ratio]> (Stats.block_count (World.stats w)) ++ [0]
         /\ Stats.handover_count (World.stats w')
            = <[pred (length (Stats.handover_count (World.stats w)))
                := handover_ratio]> (Stats.handover_count (World.stats w))
              ++ [0]
         /\ Stats.connect_attempt (World.stats w')
            = Stats.connect_attempt (World.stats w) ++ [0]
         /\ 0 <= block_ratio
         /\ 0 <= handover_ratio
         /\ block_ratio + handover_ratio <= 1
         /\ (~ a == 0 ->
             block_ratio == b / a /\ handover_ratio == h / a)
         /\ period_counters w' = (0, 0, 0)).
Proof.
  intros Hw Ha Hb Hh Hb0 Hh0 Hsum.
  apply (returns_weaken _ _ _ _ (collect_tick_runs w a b h Hw Ha Hb Hh)).
  intros _ w' out (_ & _ & _ & _ & Hca & Hbc & Hhc & _).
  exists (b / period_divisor a), (h / period_divisor a).
  split; [exact Hbc |]. split; [exact Hhc |]. split; [exact Hca |].
  destruct (period_ratios a b h Hb0 Hh0 Hsum) as (H1 & H2 & H3).
  split; [exact H1 |]. split; [exact H2 |]. split; [exact H3 |].
  split.
  { intros Hne. unfold period_divisor.
    destruct (Qeq_bool a 0) eqn:E; simpl; [| split; reflexivity].
    apply Qeq_bool_iff in E. contradiction. }
  unfold period_counters, period_attempts, period_blocks, period_handovers.
  rewrite Hca, Hbc, Hhc, !current_snoc. reflexivity.
Qed.

(** X22. A tick of the collector keeps the series aligned: in a world
    whose attachments resolve and whose period is open, it returns,
    prints nothing, leaves the clients and the slices alone, and every
    series and counter list is one entry longer.  The connected ratio
    and the coverage ratio it appends lie between 0 and 1, and the
    bandwidth it appends is [get_total_used_bw]. *)
Theorem collect_tick_series (w : World.t) (a b h : Q) :
  attached w ->
  last (Stats.connect_attempt (World.stats w)) = Some a ->
  last (Stats.block_count (World.stats w)) = Some b ->
  last (Stats.handover_count (World.stats w)) = Some h ->
  returns (collect_tick distance) w
    (fun _ w' out =>
       out = []
       /\ World.clients w' = World.clients w
       /\ World.base_stations w' = World.base_stations w
       /\ series_lengths (World.stats w')
          = S <$> series_lengths (World.stats w)
       /\ Stats.total_used_bw (World.stats w')
          = Stats.total_used_bw (World.stats w)
            ++ [get_total_used_bw (World.base_stations w)]
       /\ exists connected_ratio coverage_ratio,
            Stats.total_connected_users_ratio (World.stats w')
            = Stats.total_connected_users_ratio (World.stats w)
              ++ [connected_ratio]
            /\ 0 <= connected_ratio <= 1
            /\ Stats.coverage_ratio (World.stats w')
               = Stats.coverage_ratio (World.stats w) ++ [coverage_ratio]
            /\ 0 <= coverage_ratio <= 1).
Proof.
  intros Hw Ha Hb Hh.
  apply (returns_weaken _ _ _ _ (collect_tick_runs w a b h Hw Ha Hb Hh)).
  intros _ w' out (-> & Hcl & Hbs & _ & _ & _ & _ & Hlen & Hbw & Hex).
  auto 10.
Qed.

End Collector.

Lemma period_end_attached : attached period_end.
Proof.
  intros h c b Hc Hb. destruct h as [| h]; [| discriminate].
  injection Hc as <-. injection Hb as <-. eexists. reflexivity.
Qed.

Lemma collect_tick_ratios_witness :
  returns (collect_tick manhattan) period_end
    (fun _ w' _ =>
       exists block_ratio handover_ratio,
         Stats.block_count (World.stats w')
         = <[pred (length (Stats.block_count (World.stats period_end)))
             := block_ratio]> (Stats.block_count (World.stats period_end))
           ++ [0]
         /\ Stats.handover_count (World.stats w')
            = <[pred (length (Stats.handover_count
                                (World.stats period_end)))
                := handover_ratio]>
                (Stats.handover_count (World.stats period_end))
              ++ [0]
         /\ Stats.connect_attempt (World.stats w')
            = Stats.connect_attempt (World.stats period_end) ++ [0]
         /\ 0 <= block_ratio
         /\ 0 <= handover_ratio
         /\ block_ratio + handover_ratio <= 1
         /\ (~ 4 == 0 ->
             block_ratio == 1 / 4 /\ handover_ratio == 2 / 4)
         /\ period_counters w' = (0, 0, 0)).
Proof.
  apply (collect_tick_ratios manhattan period_end 4 1 2).
  - exact period_end_attached.
  - reflexivity.
  - reflexivity.
  - reflexivity.
  - discriminate.
  - discriminate.
  - discriminate.
Defined.

Lemma collect_tick_series_witness :
  returns (collect_tick manhattan) period_end
    (fun _ w' out =>
       out = []
       /\ World.clients w' = World.clients period_end
       /\ World.base_stations w' = World.base_stations period_end
       /\ series_lengths (World.stats w')
          = S <$> series_lengths (World.stats period_end)
       /\ Stats.total_used_bw (World.stats w')
          = Stats.total_used_bw (World.stats period_end)
            ++ [get_total_used_bw (World.base_stations period_end)]
       /\ exists connected_ratio coverage_ratio,
            Stats.total_connected_users_ratio (World.stats w')
            = Stats.total_connected_users_ratio (World.stats period_end)
              ++ [connected_ratio]
            /\ 0 <= connected_ratio <= 1
            /\ Stats.coverage_ratio (World.stats w')
               = Stats.coverage_ratio (World.stats period_end)
                 ++ [coverage_ratio]
            /\ 0 <= coverage_ratio <= 1).
Proof.
  apply (collect_tick_series manhattan period_end 4 1 2).
  - exact period_end_attached.
  - reflexivity.
  - reflexivity.
  - reflexivity.
Defined.

(** The tick at the end of that period: a quarter of the attempts were
    blocked, half of them handed over, and the client is connected and
    covered. *)
Example collect_tick_run :
  let st := World.stats (run_world (collect_tick manhattan) period_end) in
  Stats.connect_attempt st = [4; 0]
  /\ Stats.block_count st = [1 / 4; 0]
  /\ Stats.handover_count st = [2 / 4; 0]
  /\ Stats.total_connected_users_ratio st = [(0 + 1) / (0 + 1)]
  /\ Stats.coverage_ratio st = [(0 + 1) / (0 + 1)].
Proof. vm_compute. repeat split; reflexivity. Qed.

(** ** The phases of a cycle *)

Lemma get_qos_metrics_returns (c : Client.t) :
  0 <= Client.total_connected_time c ->
  0 <= Client.total_unconnected_time c ->
  exists figures,
    get_qos_metrics c = Ok figures /\ 0 <= snd figures <= 1.
Proof.
  intros Hc Hu. unfold get_qos_metrics.
  destruct (mean_or_zero_returns (Client.handover_latencies c)) as [m ->].
  simpl res_bind.
  destruct (lt_b 0 _) eqn:E.
  - apply lt_b_true in E. rewrite div_ok by lra. simpl. eexists.
    split; [reflexivity |]. simpl.
    apply (ratio_bounds (Client.total_connected_time c)
             (Client.total_connected_time c
              + Client.total_unconnected_time c));
      [lra | lra | reflexivity].
  - simpl. eexists. split; [reflexivity |]. simpl. lra.
Qed.

(** X23. The Stats phase books a quarter of a tick on exactly one of
    the two totals of the client, by its [connected] flag, and touches
    nothing else; with totals that started non-negative, the
    [connected_ratio] that [get_qos_metrics] then reports is a ratio
    between 0 and 1, and computing it never divides by zero. *)
Theorem stats_phase_accounts (w : World.t) (self : nat) (c : Client.t) :
  World.clients w !! self = Some c ->
  0 <= Client.total_connected_time c ->
  0 <= Client.total_unconnected_time c ->
  returns (stats_phase self) w
    (fun _ w' out =>
       out = []
       /\ World.base_stations w' = World.base_stations w
       /\ World.stats w' = World.stats w
       /\ (forall j, j <> self ->
             World.clients w' !! j = World.clients w !! j)
       /\ exists c',
            World.clients w' !! self = Some c'
            /\ same_session c c'
            /\ Client.total_connected_time c'
               == Client.total_connected_time c
                  + (if Client.connected c then 1 # 4 else 0)
            /\ Client.total_unconnected_time c'
               == Client.total_unconnected_time c
                  + (if Client.connected c then 0 else 1 # 4)
            /\ exists figures,
                 get_qos_metrics c' = Ok figures
                 /\ 0 <= snd figures <= 1).
Proof.
  intros Hc Hct Hut. unfold stats_phase.
  apply returns_bind. eapply returns_client; [exact Hc |]. cbv beta.
  destruct (Client.connected c) eqn:Hconn;
    apply returns_update_client; simpl;
    (split; [reflexivity |]); (split; [reflexivity |]);
    (split; [reflexivity |]);
    (split; [intros j Hj; now rewrite list_lookup_alter_ne by congruence |]);
    rewrite list_lookup_alter_eq, Hc; simpl; eexists;
    (split; [reflexivity |]);
    (split; [unfold same_session; simpl; tauto |]); simpl;
    (split; [lra |]); (split; [lra |]);
    apply get_qos_metrics_returns; simpl; lra.
Qed.

Lemma stats_phase_accounts_witness :
  returns (stats_phase 0) (one_cell busy_client)
    (fun _ w' out =>
       out = []
       /\ World.base_stations w'
          = World.base_stations (one_cell busy_client)
       /\ World.stats w' = World.stats (one_cell busy_client)
       /\ (forall j, j <> 0%nat ->
             World.clients w' !! j
             = World.clients (one_cell busy_client) !! j)
       /\ exists c',
            World.clients w' !! 0%nat = Some c'
            /\ same_session busy_client c'
            /\ Client.total_connected_time c'
               == Client.total_connected_time busy_client
                  + (if Client.connected busy_client then 1 # 4 else 0)
            /\ Client.total_unconnected_time c'
               == Client.total_unconnected_time busy_client
                  + (if Client.connected busy_client then 0 else 1 # 4)
            /\ exists figures,
                 get_qos_metrics c' = Ok figures
                 /\ 0 <= snd figures <= 1).
Proof.
  apply (stats_phase_accounts (one_cell busy_client) 0 busy_client).
  - reflexivity.
  - discriminate.
  - discriminate.
Defined.

Lemma released_session (c : Client.t) (now : Q) :
  Client.connected (released c now) = Client.connected c
  /\ Client.base_station (released c now) = Client.base_station c
  /\ Client.subscribed_slice_index (released c now)
     = Client.subscribed_slice_index c
  /\ Client.usage_remaining (released c now)
     = Client.usage_remaining c - Client.last_usage c
  /\ Client.last_usage (released c now) = 0
  /\ Client.latencies (released c now)
     = Client.latencies c ++ [now - Client.request_start_time c].
Proof. repeat split; reflexivity. Qed.

Lemma set_connected_session (c : Client.t) (v : bool) :
  Client.usage_remaining (Client.set_connected c v)
  = Client.usage_remaining c
  /\ Client.last_usage (Client.set_connected c v) = Client.last_usage c
  /\ Client.latencies (Client.set_connected c v) = Client.latencies c.
Proof. repeat split; reflexivity. Qed.

(** The Release phase on a connected client that holds units. *)
Lemma release_phase_runs (w : World.t) (self b : nat)
    (c : Client.t) (sl : Slice.t) (cap : Container.t) :
  World.clients w !! self = Some c ->
  Client.connected c = true ->
  Client.base_station c = Some b ->
  the_slice w (b, Client.subscribed_slice_index c) = Some sl ->
  0 < Client.last_usage c ->
  0 <= World.now w ->
  Container.put (Slice.capacity sl) (Client.last_usage c) = Ok cap ->
  returns (release_phase self) w
    (fun _ w' _ =>
       exists c' sl',
         changed self (b, Client.subscribed_slice_index c) c' sl' w w'
         /\ Client.last_usage c' = 0
         /\ Client.usage_remaining c'
            = Client.usage_remaining c - Client.last_usage c
         /\ Client.latencies c'
            = Client.latencies c
              ++ [World.now w - Client.request_start_time c]
         /\ Slice.capacity sl' = cap
         /\ ((0 < Client.usage_remaining c'
              /\ Client.connected c' = true
              /\ Slice.connected_users sl' = Slice.connected_users sl)
             \/ (Client.usage_remaining c' <= 0
                 /\ Client.connected c' = false
                 /\ Slice.connected_users sl'
                    = (Slice.connected_users sl - 1)%Z))).
Proof.
  intros Hc Hconn Hb Hs Hlu Hnow Hput. unfold release_phase.
  apply returns_bind. eapply returns_client; [exact Hc |]. cbv beta.
  assert (E : lt_b 0 (Client.last_usage c) = true) by now apply lt_b_true.
  rewrite Hconn, E. simpl andb. cbv iota.
  eapply returns_seq.
  { exact (release_consume_runs w self b c sl cap Hc Hb Hs Hlu Hnow Hput). }
  cbv beta. intros _ w1 out1 Hch.
  pose proof (released_session c (World.now w))
    as (Rconn & Rbs & Ridx & Rrem & Rlu & Rlat).
  rewrite <- Ridx in Hch. rewrite <- Ridx. rewrite <- Rrem. rewrite <- Rlat.
  rewrite Hconn in Rconn. rewrite Hb in Rbs.
  generalize dependent (released c (World.now w)).
  intros c1 Hch Rconn Rbs _ _ Rlu _.
  apply returns_bind. eapply returns_client;
    [exact (changed_client _ _ _ _ _ _ Hch) |]. cbv beta.
  destruct (set_connected_session c1 false) as (Srem & Slu & Slat).
  destruct (le_b (Client.usage_remaining c1) 0) eqn:Hrem.
  - apply le_b_true in Hrem. apply returns_bind.
    apply (returns_weaken _ _ _ _
             (disconnect_runs w w1 self b c1 _ Hch Rconn Rbs)).
    intros a w2 out2 [_ Hch2]. apply returns_ret.
    exists (Client.set_connected c1 false),
           (Slice.set_connected_users (Slice.set_capacity sl cap)
              (Slice.connected_users (Slice.set_capacity sl cap) - 1)).
    split; [exact Hch2 |].
    split; [rewrite Slu; exact Rlu |].
    split; [exact Srem |]. split; [exact Slat |].
    split; [reflexivity |].
    right. split; [rewrite Srem; exact Hrem |].
    split; reflexivity.
  - apply le_b_false in Hrem. apply returns_ret.
    exists c1, (Slice.set_capacity sl cap). split; [exact Hch |].
    split; [exact Rlu |]. split; [reflexivity |]. split; [reflexivity |].
    split; [reflexivity |].
    left. split; [exact Hrem |]. split; [exact Rconn | reflexivity].
Qed.

(** X24. The Release phase ends a session exactly when nothing is owed
    any more.  For a connected client that holds units, whose slice
    resolves and takes the units back, the phase returns; the client
    then holds nothing and owes what it owed less what it held, and
    either it still owes something and stays connected to a slice with
    the same user count, or it owes nothing, is disconnected, and the
    slice counts one user less. *)
Theorem release_phase_ends_session (w : World.t) (self b : nat)
    (c : Client.t) (sl : Slice.t) (cap : Container.t) :
  World.clients w !! self = Some c ->
  Client.connected c = true ->
  Client.base_station c = Some b ->
  the_slice w (b, Client.subscribed_slice_index c) = Some sl ->
  0 < Client.last_usage c ->
  0 <= World.now w ->
  Container.put (Slice.capacity sl) (Client.last_usage c) = Ok cap ->
  returns (release_phase self) w
    (fun _ w' _ =>
       exists c' sl',
         changed self (b, Client.subscribed_slice_index c) c' sl' w w'
         /\ Client.last_usage c' = 0
         /\ Client.usage_remaining c'
            = Client.usage_remaining c - Client.last_usage c
         /\ Slice.capacity sl' = cap
         /\ ((0 < Client.usage_remaining c'
              /\ Client.connected c' = true
              /\ Slice.connected_users sl' = Slice.connected_users sl)
             \/ (Client.usage_remaining c' <= 0
                 /\ Client.connected c' = false
                 /\ Slice.connected_users sl'
                    = (Slice.connected_users sl - 1)%Z))).
Proof.
  intros Hc Hconn Hb Hs Hlu Hnow Hput.
  apply (returns_weaken _ _ _ _
           (release_phase_runs w self b c sl cap Hc Hconn Hb Hs Hlu Hnow
              Hput)).
  intros _ w' out (c' & sl' & Hch & H1 & H2 & _ & H3 & H4).
  exists c', sl'. auto.
Qed.

Lemma release_phase_ends_session_witness :
  returns (release_phase 0) serving_cell
    (fun _ w' _ =>
       exists c' sl',
         changed 0 (0%nat, Client.subscribed_slice_index holding_client)
           c' sl' serving_cell w'
         /\ Client.last_usage c' = 0
         /\ Client.usage_remaining c'
            = Client.usage_remaining holding_client
              - Client.last_usage holding_client
         /\ Slice.capacity sl' = Container.mk 10 (5 + 5) [] []
         /\ ((0 < Client.usage_remaining c'
              /\ Client.connected c' = true
              /\ Slice.connected_users sl'
                 = Slice.connected_users drained_slice)
             \/ (Client.usage_remaining c' <= 0
                 /\ Client.connected c' = false
                 /\ Slice.connected_users sl'
                    = (Slice.connected_users drained_slice - 1)%Z))).
Proof.
  apply (release_phase_ends_session serving_cell 0 0 holding_client
           drained_slice (Container.mk 10 (5 + 5) [] [])).
  - reflexivity.
  - reflexivity.
  - reflexivity.
  - reflexivity.
  - reflexivity.
  - discriminate.
  - reflexivity.
Defined.

(** In the serving cell the phase gives the 5 units back and ends the
    session. *)
Example release_phase_run :
  let w' := run_world (release_phase 0) serving_cell in
  (Client.connected <$> World.clients w' !! 0%nat) = Some false
  /\ (Slice.connected_users <$> the_slice w' (0, 0)%nat) = Some 0%Z
  /\ (Container.level <$> (Slice.capacity <$> the_slice w' (0, 0)%nat))
     = Some 10
  /\ run_output (release_phase 0) serving_cell
     = [PutsBack 0 5 (1 - 0); Disconnected 0].
Proof. vm_compute. repeat split; reflexivity. Qed.

(** ** Handovers take no time *)

#[local] Instance handovers_instant_refl (t : Q) :
  Reflexive (handovers_instant t).
Proof.
  intros w Ht. split; [exact Ht |]. intros h c Hc. exists c, [].
  split; [exact Hc |]. split; [now rewrite app_nil_r | constructor].
Qed.

#[local] Instance handovers_instant_trans (t : Q) :
  Transitive (handovers_instant t).
Proof.
  intros w1 w2 w3 H12 H23 Ht. destruct (H12 Ht) as [Ht2 Hc12].
  destruct (H23 Ht2) as [Ht3 Hc23]. split; [exact Ht3 |].
  intros h c Hc. destruct (Hc12 h c Hc) as (c2 & l2 & Hc2 & E2 & Z2).
  destruct (Hc23 h c2 Hc2) as (c3 & l3 & Hc3 & E3 & Z3).
  exists c3, (l2 ++ l3). split; [exact Hc3 |].
  split; [now rewrite E3, E2, app_assoc | now apply Forall_app].
Qed.

(** A call that leaves the clock and the clients alone. *)
Lemma keeps_instant_clients {A} (t : Q) (m : M A) :
  (forall w, World.now (run_world m w) = World.now w
             /\ World.clients (run_world m w) = World.clients w) ->
  keeps (handovers_instant t) m.
Proof.
  intros H w Ht. destruct (H w) as [Hn Hc]. split; [congruence |].
  intros h c Hh. exists c, []. rewrite Hc.
  split; [exact Hh |]. split; [now rewrite app_nil_r | constructor].
Qed.

(** The rule of reading the clock: what follows may take it to be
    [t]. *)
Lemma keeps_instant_get_now {B} (t : Q) (k : Q -> M B) :
  keeps (handovers_instant t) (k t) ->
  keeps (handovers_instant t) (bind get_now k).
Proof.
  intros H w Ht.
  assert (E : run_world (bind get_now k) w = run_world (k t) w).
  { rewrite run_world_bind. unfold run_result, run_world, get_now. simpl.
    now rewrite Ht. }
  rewrite E. now apply H.
Qed.

(** A write to a client that leaves its handover latencies, or appends
    zeros to them. *)
Lemma keeps_instant_update_client (t : Q) (h : nat)
    (f : Client.t -> Client.t) :
  (forall c, exists l,
     Client.handover_latencies (f c) = Client.handover_latencies c ++ l
     /\ Forall (fun x => x == 0) l) ->
  keeps (handovers_instant t) (update_client h f).
Proof.
  intros Hf w Ht. split; [exact Ht |]. intros j c Hc.
  unfold run_world, update_client. simpl.
  destruct (decide (h = j)) as [-> | Hne].
  - rewrite list_lookup_alter_eq, Hc. simpl.
    destruct (Hf c) as (l & E & Z). eauto.
  - rewrite list_lookup_alter_ne by exact Hne. exists c, [].
    split; [exact Hc |]. split; [now rewrite app_nil_r | constructor].
Qed.

Lemma keeps_instant_write (t : Q) (h : nat) (f : Client.t -> Client.t) :
  (forall c, Client.handover_latencies (f c) = Client.handover_latencies c) ->
  keeps (handovers_instant t) (update_client h f).
Proof.
  intros Hf. apply keeps_instant_update_client. intros c. exists [].
  split; [now rewrite app_nil_r | constructor].
Qed.

Lemma keeps_instant_update_slice (t : Q) (h : nat * nat)
    (f : Slice.t -> Slice.t) :
  keeps (handovers_instant t) (update_slice h f).
Proof. apply keeps_instant_clients. intros w. split; reflexivity. Qed.

Lemma keeps_instant_with_stats (t : Q)
    (f : Stats.t -> Client.t -> Res Stats.t) (h : nat) :
  keeps (handovers_instant t) (with_stats f h).
Proof.
  apply keeps_instant_clients. intros w. rewrite run_world_with_stats.
  destruct (World.clients w !! h) as [c |]; [| split; reflexivity].
  destruct (f (World.stats w) c); split; reflexivity.
Qed.

Lemma keeps_instant_read {A} (t : Q) (m : M A) :
  read_only m -> keeps (handovers_instant t) m.
Proof. intros H. apply keeps_read_only; [tc_solve | exact H]. Qed.

Section Instant.

Variable distance : Q * Q -> Q * Q -> Q.

Lemma rebuild_handover_latencies (assign : bool) (limit : nat)
    (bss : list BaseStation.t) (c : Client.t) :
  Client.handover_latencies (rebuild distance assign limit bss c)
  = Client.handover_latencies c.
Proof.
  unfold rebuild. destruct assign; [| reflexivity].
  destruct (nearest _ _ _ _) as [| [d b] ?]; [reflexivity |].
  destruct (bss !! b); [| reflexivity].
  destruct (le_b _ _); reflexivity.
Qed.

Lemma keeps_instant_KDTree_run (t : Q) (run_at : Z) (assign : bool) :
  keeps (handovers_instant t) (KDTree_run distance run_at assign).
Proof.
  intros w Ht. unfold run_world, KDTree_run.
  destruct (run_at =? World.last_run_time w)%Z;
    [now apply handovers_instant_refl |].
  split; [exact Ht |]. intros h c Hc. simpl.
  rewrite list_lookup_fmap, Hc. simpl. eexists _, [].
  split; [reflexivity |].
  split; [now rewrite app_nil_r, rebuild_handover_latencies | constructor].
Qed.

Lemma keeps_instant_update_latency_stats (t : Q) (self : nat) (l : Q) :
  keeps (handovers_instant t) (_update_latency_stats self l).
Proof.
  unfold _update_latency_stats.
  apply keeps_bind; [tc_solve | now apply keeps_instant_write |]. intros _.
  apply keeps_bind;
    [tc_solve | apply keeps_instant_read, read_only_client |]. intros c.
  apply keeps_bind; [tc_solve | |].
  { destruct (lt_b _ _);
      [now apply keeps_instant_write
      | apply keeps_instant_read, read_only_ret]. }
  intros _. apply keeps_bind; [tc_solve | |].
  { destruct (Client.min_latency c) as [m |];
      [destruct (lt_b _ _) |];
      (now apply keeps_instant_write)
      || apply keeps_instant_read, read_only_ret. }
  intros _. apply keeps_bind;
    [tc_solve | apply keeps_instant_read, read_only_client |]. intros c'.
  apply keeps_bind;
    [tc_solve | apply keeps_instant_read, read_only_lift |]. intros avg.
  apply keeps_bind; [tc_solve | now apply keeps_instant_write |]. intros _.
  apply keeps_bind;
    [tc_solve | apply keeps_instant_read, read_only_get_now |]. intros now.
  apply keeps_instant_with_stats.
Qed.

Lemma keeps_instant_assign_closest_base_station (t : Q) (self : nat)
    (exclude : option (list nat)) :
  keeps (handovers_instant t)
    (assign_closest_base_station distance self exclude).
Proof.
  unfold assign_closest_base_station.
  apply keeps_bind;
    [tc_solve | apply keeps_instant_read, read_only_client |]. intros c.
  apply keeps_bind;
    [tc_solve | apply keeps_instant_read, read_only_score_candidates |].
  intros scored. apply keeps_bind;
    [tc_solve | apply keeps_instant_read, read_only_first_covering |].
  intros [[score b] |].
  - apply keeps_bind; [tc_solve | now apply keeps_instant_write |].
    intros _. apply keeps_print. tc_solve.
  - apply keeps_bind;
      [tc_solve | apply keeps_instant_read, read_only_get_now |].
    intros now. apply keeps_bind; [tc_solve | |].
    + intros w. unfold run_world. cbv beta.
      destruct (negb (World.last_run_time w =? Py.int now)%Z).
      * apply keeps_instant_KDTree_run.
      * now apply handovers_instant_refl.
    + intros _. now apply keeps_instant_write.
Qed.

Lemma keeps_instant_disconnect (t : Q) (self : nat) :
  keeps (handovers_instant t) (disconnect self).
Proof.
  unfold disconnect.
  apply keeps_bind;
    [tc_solve | apply keeps_instant_read, read_only_client |]. intros c.
  apply keeps_bind; [tc_solve | |].
  - destruct (negb (Client.connected c)).
    + apply keeps_bind;
        [tc_solve | apply keeps_instant_read, read_only_get_slice |].
      intros _. apply keeps_print. tc_solve.
    + apply keeps_bind;
        [tc_solve | apply keeps_instant_read, read_only_get_slice |].
      intros s. apply keeps_bind;
        [tc_solve | apply keeps_instant_read, read_only_deref |].
      intros sh. apply keeps_bind;
        [tc_solve | apply keeps_instant_update_slice |].
      intros _. apply keeps_bind;
        [tc_solve | now apply keeps_instant_write |].
      intros _. apply keeps_bind;
        [tc_solve | apply keeps_instant_read, read_only_get_slice |].
      intros _. apply keeps_print. tc_solve.
  - intros _. apply keeps_bind;
      [tc_solve | apply keeps_instant_read, read_only_client |].
    intros c'. apply keeps_instant_read, read_only_ret.
Qed.

Lemma zero_entry (t : Q) : Forall (fun x => x == 0) [t - t].
Proof. constructor; [lra | constructor]. Qed.

Lemma keeps_instant_connect_admitted (t : Q) (self : nat) (c : Client.t)
    (sh : nat * nat) :
  keeps (handovers_instant t) (connect_admitted self c sh).
Proof.
  unfold connect_admitted.
  apply keeps_bind; [tc_solve | apply keeps_instant_update_slice |].
  intros _. apply keeps_bind; [tc_solve | now apply keeps_instant_write |].
  intros _. apply keeps_bind;
    [tc_solve | apply keeps_instant_read, read_only_get_now |].
  intros now. cbv zeta.
  apply keeps_bind; [tc_solve | now apply keeps_instant_write |].
  intros _. apply keeps_bind;
    [tc_solve | apply keeps_instant_update_latency_stats |].
  intros _. apply keeps_bind;
    [tc_solve | apply keeps_instant_read, read_only_get_slice |].
  intros _. apply keeps_bind; [tc_solve | apply keeps_print; tc_solve |].
  intros _. apply keeps_instant_read, read_only_ret.
Qed.

Lemma keeps_instant_connect_refused (t : Q) (self : nat) (c : Client.t) :
  keeps (handovers_instant t) (connect_refused distance self c).
Proof.
  unfold connect_refused. apply keeps_instant_get_now. cbv zeta.
  apply keeps_bind;
    [tc_solve | apply keeps_instant_read, read_only_deref |]. intros b.
  apply keeps_bind;
    [tc_solve | apply keeps_instant_read, read_only_base_station_at |].
  intros bs. apply keeps_bind;
    [tc_solve | apply keeps_instant_assign_closest_base_station |].
  intros _. apply keeps_bind;
    [tc_solve | apply keeps_instant_read, read_only_client |].
  intros c'. apply keeps_bind; [tc_solve | |].
  { destruct (Client.base_station c') as [b' |];
      [| apply keeps_instant_read, read_only_ret].
    destruct (negb (b' =? b)%nat);
      [| apply keeps_instant_read, read_only_ret].
    apply keeps_instant_get_now. cbv zeta.
    apply keeps_instant_update_client. intros c0. exists [t - t].
    split; [reflexivity | apply zero_entry]. }
  intros _. apply keeps_bind; [tc_solve | |].
  { destruct (Client.base_station c') as [b' |];
      [| apply keeps_instant_read, read_only_ret].
    apply keeps_bind;
      [tc_solve | apply keeps_instant_read, read_only_get_slice |].
    intros s'. apply keeps_bind;
      [tc_solve | apply keeps_instant_read, read_only_deref |].
    intros sh'. apply keeps_bind;
      [tc_solve | apply keeps_instant_read, read_only_slice_at |].
    intros sl'. apply keeps_bind;
      [tc_solve | apply keeps_instant_read, read_only_lift |].
    intros [|].
    - apply keeps_bind; [tc_solve | apply keeps_instant_with_stats |].
      intros _. now apply keeps_instant_write.
    - apply keeps_instant_with_stats. }
  intros _. apply keeps_bind;
    [tc_solve | apply keeps_instant_read, read_only_get_slice |].
  intros _. apply keeps_bind; [tc_solve | apply keeps_print; tc_solve |].
  intros _. apply keeps_instant_read, read_only_ret.
Qed.

Lemma keeps_instant_connect (t : Q) (self : nat) :
  keeps (handovers_instant t) (connect distance self).
Proof.
  unfold connect.
  apply keeps_bind;
    [tc_solve | apply keeps_instant_read, read_only_get_slice |]. intros s.
  apply keeps_bind;
    [tc_solve | apply keeps_instant_read, read_only_client |]. intros c.
  destruct (Client.connected c); [apply keeps_instant_read, read_only_ret |].
  apply keeps_bind; [tc_solve | apply keeps_instant_with_stats |].
  intros _. apply keeps_bind;
    [tc_solve | apply keeps_instant_read, read_only_deref |]. intros sh.
  apply keeps_bind;
    [tc_solve | apply keeps_instant_read, read_only_slice_at |]. intros sl.
  apply keeps_bind;
    [tc_solve | apply keeps_instant_read, read_only_lift |].
  intros [|];
    [apply keeps_instant_connect_admitted
    | apply keeps_instant_connect_refused].
Qed.

Lemma keeps_instant_move_phase (t : Q) (self : nat) (dx dy : Q) :
  keeps (handovers_instant t) (move_phase distance self dx dy).
Proof.
  unfold move_phase.
  apply keeps_bind; [tc_solve | now apply keeps_instant_write |]. intros _.
  apply keeps_bind; [tc_solve | now apply keeps_instant_write |]. intros _.
  apply keeps_bind;
    [tc_solve | apply keeps_instant_read, read_only_client |]. intros c.
  destruct (Client.base_station c) as [b |];
    [| apply keeps_instant_assign_closest_base_station].
  apply keeps_bind;
    [tc_solve | apply keeps_instant_read, read_only_base_station_at |].
  intros bs. destruct (negb _); [| apply keeps_instant_read, read_only_ret].
  apply keeps_instant_get_now. cbv zeta.
  apply keeps_bind; [tc_solve | apply keeps_instant_disconnect |].
  intros _. apply keeps_bind;
    [tc_solve | apply keeps_instant_assign_closest_base_station |].
  intros _. apply keeps_bind;
    [tc_solve | apply keeps_instant_read, read_only_client |].
  intros c'. destruct (Client.base_station c') as [b' |];
    [| apply keeps_instant_read, read_only_ret].
  apply keeps_instant_get_now. cbv zeta.
  apply keeps_bind; [tc_solve | |].
  - apply keeps_instant_update_client. intros c0. exists [t - t].
    split; [reflexivity | apply zero_entry].
  - intros _. now apply keeps_instant_write.
Qed.

(** X25. A handover through [connect] takes no time: whether the call
    returns or raises, every client is still there and has the handover
    latencies it had, followed by entries that are all zero; the clock
    does not move inside the call, so the difference that
    [connect] records is [now - now]. *)
Theorem connect_handover_instant (w : World.t) (self h : nat)
    (c : Client.t) :
  World.clients w !! h = Some c ->
  exists c' l,
    World.clients (run_world (connect distance self) w) !! h = Some c'
    /\ Client.handover_latencies c' = Client.handover_latencies c ++ l
    /\ Forall (fun x => x == 0) l.
Proof.
  intros Hc.
  destruct (keeps_instant_connect (World.now w) self w eq_refl) as [_ H].
  exact (H h c Hc).
Qed.

(** X26. A handover in the Move phase takes no time either: whatever
    the step [(dx, dy)], and whether the phase returns or raises, every
    client has the handover latencies it had, followed by entries that
    are all zero. *)
Theorem move_phase_handover_instant (w : World.t) (self h : nat)
    (dx dy : Q) (c : Client.t) :
  World.clients w !! h = Some c ->
  exists c' l,
    World.clients (run_world (move_phase distance self dx dy) w) !! h
    = Some c'
    /\ Client.handover_latencies c' = Client.handover_latencies c ++ l
    /\ Forall (fun x => x == 0) l.
Proof.
  intros Hc.
  destruct (keeps_instant_move_phase (World.now w) self dx dy w eq_refl)
    as [_ H].
  exact (H h c Hc).
Qed.

End Instant.

Lemma connect_handover_instant_witness :
  exists c' l,
    World.clients (run_world (connect manhattan 0) (two_cells lowlat_slice))
    !! 0%nat = Some c'
    /\ Client.handover_latencies c'
       = Client.handover_latencies
           (Client.set_closest_base_stations waiting_client
              [(0, 0%nat); (3, 1%nat)]) ++ l
    /\ Forall (fun x => x == 0) l.
Proof.
  apply (connect_handover_instant manhattan (two_cells lowlat_slice) 0 0).
  reflexivity.
Defined.

Lemma move_phase_handover_instant_witness :
  exists c' l,
    World.clients
      (run_world (move_phase manhattan 0 11 0) (two_cells lowlat_slice))
    !! 0%nat = Some c'
    /\ Client.handover_latencies c'
       = Client.handover_latencies
           (Client.set_closest_base_stations waiting_client
              [(0, 0%nat); (3, 1%nat)]) ++ l
    /\ Forall (fun x => x == 0) l.
Proof.
  apply (move_phase_handover_instant manhattan (two_cells lowlat_slice)
           0 0 11 0).
  reflexivity.
Defined.

(** A step of 11 to the right takes the client out of the first disk
    and into the second: one handover, of latency [1 - 1]. *)
Example move_phase_run :
  let w' := run_world (move_phase manhattan 0 11 0)
              (two_cells lowlat_slice) in
  (Client.base_station <$> World.clients w' !! 0%nat) = Some (Some 1%nat)
  /\ (Client.handover_latencies <$> World.clients w' !! 0%nat)
     = Some [1 - 1]
  /\ (Client.handover_count <$> World.clients w' !! 0%nat) = Some 1%Z.
Proof. vm_compute. repeat split; reflexivity. Qed.

(** ** The latencies a cycle records *)

Lemma changed_trans (self : nat) (h : nat * nat) (c1 c2 : Client.t)
    (sl1 sl2 : Slice.t) (w w1 w2 : World.t) :
  changed self h c1 sl1 w w1 -> changed self h c2 sl2 w1 w2 ->
  changed self h c2 sl2 w w2.
Proof.
  intros (_ & Ho1 & _ & Hso1 & Hn1) (Hc2 & Ho2 & Hs2 & Hso2 & Hn2).
  unfold changed. split; [exact Hc2 |].
  split; [intros j Hj; rewrite Ho2, Ho1 by exact Hj; reflexivity |].
  split; [exact Hs2 |].
  split; [intros h' Hh'; rewrite Hso2, Hso1 by exact Hh'; reflexivity |].
  congruence.
Qed.

Lemma admitted_session (c : Client.t) (now : Q) :
  Client.connected (admitted c now) = true
  /\ Client.request_start_time (admitted c now)
     = Client.request_start_time c
  /\ Client.latencies (admitted c now)
     = Client.latencies c ++ [now - Client.request_start_time c].
Proof. repeat split; reflexivity. Qed.

(** [start_consume] on a client whose slice resolves, offers a share
    and serves or queues the request. *)
Lemma start_consume_changed (w : World.t) (self b : nat) (c : Client.t)
    (sl : Slice.t) (share : Q) (cap : Container.t) :
  World.clients w !! self = Some c ->
  Client.base_station c = Some b ->
  the_slice w (b, Client.subscribed_slice_index c) = Some sl ->
  get_consumable_share sl = Ok share ->
  Container.get (Slice.capacity sl) (consume_amount share sl c) = Ok cap ->
  returns (start_consume self) w
    (fun _ w' _ =>
       changed self (b, Client.subscribed_slice_index c)
         (Client.set_last_usage
            (Client.set_request_start_time c (World.now w))
            (consume_amount share sl c))
         (Slice.set_capacity sl cap) w w').
Proof.
  intros Hc Hb Hs Hshare Hget.
  pose proof (changed_refl self _ c sl w Hc Hs) as Hch.
  unfold start_consume.
  apply returns_bind, (returns_get_slice self c b sl); try assumption.
  apply returns_bind, returns_get_now. cbv beta. write_client Hch.
  apply returns_bind, returns_deref.
  apply returns_bind; eapply returns_slice_at;
    [exact (changed_slice _ _ _ _ _ _ Hch) |]; cbv beta.
  apply returns_bind, (returns_lift _ share); [exact Hshare |].
  read_client Hch. cbv zeta.
  change (consume_amount share sl
            (Client.set_request_start_time c (World.now w)))
    with (consume_amount share sl c).
  apply returns_bind, (returns_lift _ cap); [exact Hget |].
  write_slice Hch.
  apply returns_bind, returns_print.
  apply returns_update_client.
  apply (changed_update_client _ _ _ _ _ _
           (fun c0 => Client.set_last_usage c0 (consume_amount share sl c)))
    in Hch.
  exact Hch.
Qed.

Section Cycle.

Variable distance : Q * Q -> Q * Q -> Q.
Variable generate_usage_and_connect : nat -> M unit.

(** X27. A connection takes no time.  In the Lock phase a client with
    a pending request that is not connected, whose slice resolves and
    admits it, is attached; the phase stamps the request with the
    clock and [connect] reads the same clock, so that the connection
    latency it records and prints is [now - now]. *)
Theorem lock_phase_connects_at_once (w : World.t) (self b : nat)
    (c : Client.t) (sl : Slice.t) :
  World.clients w !! self = Some c ->
  Client.connected c = false ->
  Client.base_station c = Some b ->
  0 < Client.usage_remaining c ->
  the_slice w (b, Client.subscribed_slice_index c) = Some sl ->
  is_avaliable sl = Ok true ->
  is_client_in_coverage (World.stats w) c = false
  \/ Stats.connect_attempt (World.stats w) <> [] ->
  0 <= World.now w ->
  returns (lock_phase distance generate_usage_and_connect self) w
    (fun _ w' out =>
       out = [Connected (Client.pk c) (World.now w - World.now w)]
       /\ exists c' sl',
            changed self (b, Client.subscribed_slice_index c) c' sl' w w'
            /\ Client.connected c' = true
            /\ Client.request_start_time c' = World.now w
            /\ Client.latencies c'
               = Client.latencies c ++ [World.now w - World.now w]
            /\ Slice.connected_users sl'
               = (Slice.connected_users sl + 1)%Z).
Proof.
  intros Hc Hconn Hb Hu Hs Hav Hcount Hnow. unfold lock_phase.
  apply returns_bind. eapply returns_client; [exact Hc |]. cbv beta.
  assert (E : lt_b 0 (Client.usage_remaining c) = true)
    by now apply lt_b_true.
  rewrite Hb, E, Hconn.
  apply returns_bind, returns_get_now. cbv beta.
  apply returns_bind, returns_update_client. cbv beta.
  pose proof (changed_update_client self _ c sl w w
                (fun c0 => Client.set_request_start_time c0 (World.now w))
                (changed_refl self _ c sl w Hc Hs)) as Hch.
  set (c1 := Client.set_request_start_time c (World.now w)) in *.
  set (w1 := World.set_clients w _) in *.
  assert (Hrun : returns (connect distance self) w1
            (fun a w' out =>
               a = Some true
               /\ out = [Connected (Client.pk c1)
                           (World.now w1 - Client.request_start_time c1)]
               /\ changed self (b, Client.subscribed_slice_index c1)
                    (admitted c1 (World.now w1))
                    (Slice.set_connected_users sl
                       (Slice.connected_users sl + 1))
                    w1 w')).
  { apply connect_runs.
    - exact (changed_client _ _ _ _ _ _ Hch).
    - exact Hconn.
    - exact Hb.
    - exact (changed_slice _ _ _ _ _ _ Hch).
    - exact Hav.
    - exact Hcount.
    - exact Hnow. }
  apply returns_bind. apply (returns_weaken _ _ _ _ Hrun).
  intros a w2 out2 (_ & -> & Hch2). apply returns_ret.
  split; [reflexivity |].
  destruct (admitted_session c1 (World.now w1)) as (Aconn & Astart & Alat).
  exists (admitted c1 (World.now w1)),
         (Slice.set_connected_users sl (Slice.connected_users sl + 1)).
  split; [exact (changed_trans _ _ _ _ _ _ _ _ _ Hch Hch2) |].
  split; [exact Aconn |]. split; [exact Astart |].
  split; [exact Alat | reflexivity].
Qed.

(** X28. The service latency is the time between the Lock and the
    Release phase, whatever the load.  In the Lock phase a connected
    client with a pending request, whose slice resolves and offers a
    positive share, asks for its units and stamps the request with the
    clock.  When the Release phase then finds the session as the Lock
    phase left it, at whatever later time and in whatever state of the
    slice, it returns and records as latency that time less the time of
    the Lock phase. *)
Theorem service_latency_is_the_gap (w : World.t) (self b : nat)
    (c : Client.t) (sl : Slice.t) (share : Q) :
  World.clients w !! self = Some c ->
  Client.connected c = true ->
  Client.base_station c = Some b ->
  0 < Client.usage_remaining c ->
  the_slice w (b, Client.subscribed_slice_index c) = Some sl ->
  get_consumable_share sl = Ok share ->
  0 < share ->
  returns (lock_phase distance generate_usage_and_connect self) w
    (fun _ w1 _ =>
       exists c1 sl1,
         changed self (b, Client.subscribed_slice_index c) c1 sl1 w w1
         /\ Client.request_start_time c1 = World.now w
         /\ Client.last_usage c1 = consume_amount share sl c
         /\ forall w2 c2 sl2,
              World.clients w2 !! self = Some c2 ->
              same_session c1 c2 ->
              the_slice w2 (b, Client.subscribed_slice_index c) = Some sl2 ->
              0 <= World.now w2 ->
              returns (release_phase self) w2
                (fun _ w3 _ =>
                   exists c3,
                     World.clients w3 !! self = Some c3
                     /\ Client.latencies c3
                        = Client.latencies c2
                          ++ [World.now w2 - World.now w])).
Proof.
  intros Hc Hconn Hb Hu Hs Hshare Hpos. unfold lock_phase.
  apply returns_bind. eapply returns_client; [exact Hc |]. cbv beta.
  assert (E : lt_b 0 (Client.usage_remaining c) = true)
    by now apply lt_b_true.
  rewrite Hb, E, Hconn.
  pose proof (consume_amount_pos share sl c Hpos Hu) as Hamount.
  destruct (container_get_ok (Slice.capacity sl) _ Hamount) as [cap Hget].
  apply (returns_weaken _ _ _ _
           (start_consume_changed w self b c sl share cap Hc Hb Hs Hshare
              Hget)).
  intros _ w1 out1 Hch. eexists _, _. split; [exact Hch |].
  split; [reflexivity |]. split; [reflexivity |].
  intros w2 c2 sl2 Hc2 Hsame Hs2 Hnow2.
  destruct Hsame as (_ & _ & _ & Sbs & Sidx & _ & Slu & Sconn & _ & _
                     & Sstart & _).
  simpl in Sbs, Sidx, Slu, Sconn, Sstart.
  rewrite <- Sidx in Hs2.
  assert (Hlu2 : 0 < Client.last_usage c2) by (rewrite Slu; exact Hamount).
  destruct (container_put_ok (Slice.capacity sl2) _ Hlu2) as [cap2 Hput].
  apply (returns_weaken _ _ _ _
           (release_phase_runs w2 self b c2 sl2 cap2 Hc2
              (eq_trans Sconn Hconn) (eq_trans Sbs Hb) Hs2 Hlu2 Hnow2 Hput)).
  intros _ w3 out3 (c3 & sl3 & Hch3 & _ & _ & Hlat & _).
  exists c3. split; [exact (changed_client _ _ _ _ _ _ Hch3) |].
  rewrite Hlat, Sstart. reflexivity.
Qed.

End Cycle.

Lemma lock_phase_connects_at_once_witness :
  returns (lock_phase manhattan (fun _ => ret tt) 0) (one_cell waiting_client)
    (fun _ w' out =>
       out = [Connected (Client.pk waiting_client)
                (World.now (one_cell waiting_client)
                 - World.now (one_cell waiting_client))]
       /\ exists c' sl',
            changed 0 (0%nat, Client.subscribed_slice_index waiting_client)
              c' sl' (one_cell waiting_client) w'
            /\ Client.connected c' = true
            /\ Client.request_start_time c'
               = World.now (one_cell waiting_client)
            /\ Client.latencies c'
               = Client.latencies waiting_client
                 ++ [World.now (one_cell waiting_client)
                     - World.now (one_cell waiting_client)]
            /\ Slice.connected_users sl'
               = (Slice.connected_users lowlat_slice + 1)%Z).
Proof.
  apply (lock_phase_connects_at_once manhattan (fun _ => ret tt)
           (one_cell waiting_client) 0 0 waiting_client lowlat_slice).
  - reflexivity.
  - reflexivity.
  - reflexivity.
  - reflexivity.
  - reflexivity.
  - reflexivity.
  - right. discriminate.
  - discriminate.
Defined.

Lemma service_latency_is_the_gap_witness :
  returns (lock_phase manhattan (fun _ => ret tt) 0) (one_cell busy_client)
    (fun _ w1 _ =>
       exists c1 sl1,
         changed 0 (0%nat, Client.subscribed_slice_index busy_client)
           c1 sl1 (one_cell busy_client) w1
         /\ Client.request_start_time c1 = World.now (one_cell busy_client)
         /\ Client.last_usage c1 = consume_amount 10 lowlat_slice busy_client
         /\ forall w2 c2 sl2,
              World.clients w2 !! 0%nat = Some c2 ->
              same_session c1 c2 ->
              the_slice w2 (0%nat, Client.subscribed_slice_index busy_client)
              = Some sl2 ->
              0 <= World.now w2 ->
              returns (release_phase 0) w2
                (fun _ w3 _ =>
                   exists c3,
                     World.clients w3 !! 0%nat = Some c3
                     /\ Client.latencies c3
                        = Client.latencies c2
                          ++ [World.now w2
                              - World.now (one_cell busy_client)])).
Proof.
  apply (service_latency_is_the_gap manhattan (fun _ => ret tt)
           (one_cell busy_client) 0 0 busy_client lowlat_slice 10).
  - reflexivity.
  - reflexivity.
  - reflexivity.
  - reflexivity.
  - reflexivity.
  - vm_compute. reflexivity.
  - reflexivity.
Defined.

(** ** The draw of a mobility pattern *)

(** X29. [get_random_mobility_pattern] with the cumulative weights that
    [__main__] builds and one pattern for each weight: a draw that does
    not exceed the sum of the weights returns one of the patterns, at
    the index that [get_random_slice_index] picks for the same draw. *)
Theorem mobility_pattern_draw {A} (client_weights : list Q)
    (mobility_patterns : list A) (r : Q) :
  client_weights <> [] ->
  length mobility_patterns = length client_weights ->
  r <= Py.sum client_weights ->
  exists i p,
    get_random_slice_index (cumulative 0 client_weights) r = Ok i
    /\ get_random_mobility_pattern (cumulative 0 client_weights)
         mobility_patterns r = Ok p
    /\ mobility_patterns !! i = Some p.
Proof.
  intros Hne Hlen Hr.
  destruct (cumulative_last client_weights 0 Hne) as (v & Hl & Hv).
  destruct (first_reaching_returns (cumulative 0 client_weights) r 0)
    as (k & Hk & Hlt).
  { exists v. split; [| lra].
    apply last_Some in Hl as [l' ->]. apply elem_of_app. right. left. }
  rewrite length_cumulative, <- Hlen in Hlt.
  destruct (lookup_lt_is_Some_2 mobility_patterns k) as [p Hp]; [lia |].
  exists k, p. split; [exact Hk |]. split; [| exact Hp].
  unfold get_random_mobility_pattern. rewrite Hk. simpl. now rewrite Hp.
Qed.

Lemma mobility_pattern_draw_witness :
  exists i p,
    get_random_slice_index (cumulative 0 [2 # 10; 3 # 10; 5 # 10]) (45 # 100)
    = Ok i
    /\ get_random_mobility_pattern (cumulative 0 [2 # 10; 3 # 10; 5 # 10])
         ["still"; "walk"; "drive"]%string (45 # 100) = Ok p
    /\ ["still"; "walk"; "drive"]%string !! i = Some p.
Proof.
  apply (mobility_pattern_draw [2 # 10; 3 # 10; 5 # 10]
           ["still"; "walk"; "drive"]%string (45 # 100)).
  - discriminate.
  - reflexivity.
  - vm_compute. discriminate.
Defined.
